(** * Nagar Rakshak: complaint intake and lifecycle orchestration

    A shallow embedding of
      - [src/components/ComplaintRegistration.tsx]
        ([mapAuthorityForIssue], [handleMediaUpload], [handleStartRecording],
        [handleStopRecording], [handleSubmit], the form controls),
      - [src/services/notificationService.ts]
        ([createNotification], [createComplaintNotifications]),
      - [src/components/NotificationSystem.tsx]
        ([fetchNotifications], [markAsRead]),
    together with the properties the specification states about them.

    JavaScript strings are modelled as [string] (text as the bytes of the
    source file), the React state of the component as a record, the Supabase
    collaborators as a record of tables, and the handlers as computations in
    a state-and-exception monad that mirrors [try]/[catch]/[finally]. Time
    is logical and [setTimeout] callbacks run from a timer queue. A handler
    of the component runs to its end in one instant, its awaited requests
    included. The notification scheduler is followed twice: once in the same
    way, and once with the inserts in flight, where the answer of the sink
    takes time and the callbacks of two timers can overlap.

    The sources hold a second, earlier variant of the component (no address
    fields, no routing after the insert); the development follows the
    routing-enabled one, as the specification does. *)

From Stdlib Require Import String Ascii List ZArith Bool Lia Sorted.
From Stdlib Require Import DecimalString.
Import ListNotations.
Open Scope string_scope.

(* ================================================================== *)
(** ** JavaScript string primitives *)
(* ================================================================== *)

Module JS.

(** Truthiness of a string value: only [''] is falsy. *)
Definition truthy (s : string) : bool :=
  match s with
  | EmptyString => false
  | String _ _ => true
  end.

(** [a || b] on strings. *)
Definition or (a b : string) : string := if truthy a then a else b.

(** [a || null]. *)
Definition or_null (a : string) : option string :=
  if truthy a then Some a else None.

(** A property of an object that may lack it reads as [undefined], here
    [None]. [a || b] where [a] is such a text property: *)
Definition or_undefined (a : option string) (b : string) : string :=
  match a with
  | Some s => or s b
  | None => b
  end.

(** Truthiness of a boolean property that may be absent. *)
Definition truthy_flag (v : option bool) : bool :=
  match v with
  | Some b => b
  | None => false
  end.

(** A text property stored into a text field of the form. The field keeps
    what it is given; [undefined] is falsy like [''], and the readers of the
    field only test it ([!v]) and show it, so the field holds [''] for it. *)
Definition text (v : option string) : string :=
  match v with
  | Some s => s
  | None => ""
  end.

Definition is_upper (c : ascii) : bool :=
  let n := nat_of_ascii c in (65 <=? n)%nat && (n <=? 90)%nat.

Definition is_lower (c : ascii) : bool :=
  let n := nat_of_ascii c in (97 <=? n)%nat && (n <=? 122)%nat.

Definition lower_ascii (c : ascii) : ascii :=
  if is_upper c then ascii_of_nat (nat_of_ascii c + 32) else c.

Definition upper_ascii (c : ascii) : ascii :=
  if is_lower c then ascii_of_nat (nat_of_ascii c - 32) else c.

(** [String.prototype.toLowerCase] on ASCII text. *)
Fixpoint toLowerCase (s : string) : string :=
  match s with
  | EmptyString => EmptyString
  | String c s' => String (lower_ascii c) (toLowerCase s')
  end.

(** [String.prototype.toUpperCase] on ASCII text. *)
Fixpoint toUpperCase (s : string) : string :=
  match s with
  | EmptyString => EmptyString
  | String c s' => String (upper_ascii c) (toUpperCase s')
  end.

(** [s.includes(sub)]: [sub] occurs in [s] at some position. *)
Fixpoint includes (s sub : string) : bool :=
  match s with
  | EmptyString => prefix sub EmptyString
  | String _ s' => prefix sub s || includes s' sub
  end.

(** [s.split('.').pop()]: the text after the last dot, the whole string
    when it has no dot. *)
Fixpoint split_dot_pop (s : string) (acc : string) : string :=
  match s with
  | EmptyString => acc
  | String c s' =>
      if Ascii.eqb c "."%char then split_dot_pop s' EmptyString
      else split_dot_pop s' (acc ++ String c EmptyString)
  end.

(** Decimal rendering of a number inside a template literal. *)
Definition show_Z (z : Z) : string := NilZero.string_of_int (Z.to_int z).

End JS.

(* ================================================================== *)
(** ** RoutingResolver: [mapAuthorityForIssue] *)
(* ================================================================== *)

Definition mapAuthorityForIssue (issue : string) : option string :=
  let normalized := JS.toLowerCase (JS.or issue "") in
  if JS.includes normalized "electric" then Some "Electricity Department"
  else if JS.includes normalized "water" || JS.includes normalized "drain"
  then Some "Jal Board / Water Supply Department"
  else if JS.includes normalized "garbage"
  then Some "Nagar Nigam / Municipal Corporation"
  else if JS.includes normalized "pothole" || JS.includes normalized "road"
  then Some "Public Works Department (PWD)"
  else if JS.includes normalized "street"
  then Some "Nagar Nigam / Municipal Corporation (Street Lighting Division)"
  else if JS.includes normalized "transport"
  then Some "Local Transport Authority / RTO"
  else if JS.includes normalized "noise"
  then Some "Pollution Control Board / Local Police Authority"
  else None.

(** The [value]s of the [issueTypes] table: the closed issue-type set. *)
Definition issueTypes : list string :=
  [ "streetlight"; "pothole"; "garbage"; "drainage";
    "water"; "electricity"; "noise"; "others" ].

(** The routing policy as the specification words it: an ordered list of
    rules, each a set of keywords and an authority; the first rule one of
    whose keywords occurs in the lower-cased token wins. *)
Definition routing_rules : list (list string * string) :=
  [ (["electric"], "Electricity Department");
    (["water"; "drain"], "Jal Board / Water Supply Department");
    (["garbage"], "Nagar Nigam / Municipal Corporation");
    (["pothole"; "road"], "Public Works Department (PWD)");
    (["street"], "Nagar Nigam / Municipal Corporation (Street Lighting Division)");
    (["transport"], "Local Transport Authority / RTO");
    (["noise"], "Pollution Control Board / Local Police Authority") ].

Fixpoint first_match (rules : list (list string * string)) (token : string)
  : option string :=
  match rules with
  | [] => None
  | (keywords, authority) :: rest =>
      if existsb (JS.includes token) keywords then Some authority
      else first_match rest token
  end.

Definition resolve_policy (issueType : string) : option string :=
  first_match routing_rules (JS.toLowerCase issueType).

(* ================================================================== *)
(** ** Data model *)
(* ================================================================== *)

(** Error objects ([uploadError], [error], a [TypeError]) are opaque to the
    handlers, which only test them for presence, rethrow and log them. *)
Definition Error := string.

Definition TypeError : Error := "TypeError: Cannot read properties of null".

Record File := mkFile { file_name : string; file_bytes : string }.

(** The [formData] state of the component. *)
Module FormData.
Record t := mk {
  state : string;
  city : string;
  district : string;
  address1 : string;
  address2 : string;
  issueType : string;
  description : string;
  media : option File;
  audio : option File
}.

(** The value passed to [useState]. *)
Definition initial : t := mk "" "" "" "" "" "" "" None None.

(** [{ ...prev, field: v }] for the fields the handlers write. *)
Definition with_state v (p : t) : t :=
  mk v (city p) (district p) (address1 p) (address2 p) (issueType p)
     (description p) (media p) (audio p).
Definition with_city v (p : t) : t :=
  mk (state p) v (district p) (address1 p) (address2 p) (issueType p)
     (description p) (media p) (audio p).
Definition with_district v (p : t) : t :=
  mk (state p) (city p) v (address1 p) (address2 p) (issueType p)
     (description p) (media p) (audio p).
Definition with_address1 v (p : t) : t :=
  mk (state p) (city p) (district p) v (address2 p) (issueType p)
     (description p) (media p) (audio p).
Definition with_address2 v (p : t) : t :=
  mk (state p) (city p) (district p) (address1 p) v (issueType p)
     (description p) (media p) (audio p).
Definition with_issueType v (p : t) : t :=
  mk (state p) (city p) (district p) (address1 p) (address2 p) v
     (description p) (media p) (audio p).
Definition with_description v (p : t) : t :=
  mk (state p) (city p) (district p) (address1 p) (address2 p) (issueType p)
     v (media p) (audio p).
Definition with_media v (p : t) : t :=
  mk (state p) (city p) (district p) (address1 p) (address2 p) (issueType p)
     (description p) v (audio p).
Definition with_audio v (p : t) : t :=
  mk (state p) (city p) (district p) (address1 p) (address2 p) (issueType p)
     (description p) (media p) v.
End FormData.

Inductive Step := form | success.

Inductive Variant := variant_default | variant_destructive.

(** An argument of [toast(...)]; [description] is absent in one call,
    [variant] in another. *)
Module Toast.
Record t := mk {
  title : string;
  description : option string;
  variant : option Variant
}.
End Toast.

(** The React state of [ComplaintRegistration], with whether
    [mediaRecorderRef] holds a recorder, what the component shows to the
    user ([toasts]), what it logs ([console]) and the value of the file
    input the last change event came from ([fileInput]). *)
Record Component := mkComponent {
  step : Step;
  complaintId : string;
  isSubmitting : bool;
  isAnalyzing : bool;
  isRecording : bool;
  mediaRecorderRef : bool;
  formData : FormData.t;
  fileInput : string;
  toasts : list Toast.t;
  console : list Error
}.

Inductive Status := Pending | Assigned | InProgress | Resolved | Closed.

Inductive Stage := confirmation | acknowledgement | resolution.

(** A row of the [complaints] table. *)
Module Complaint.
Record t := mk {
  id : nat;
  complaint_code : string;
  state : string;
  city : string;
  address_line1 : option string;
  address_line2 : option string;
  issue_type : string;
  description : string;
  media_url : option string;
  voice_note_url : option string;
  status : Status;
  assigned_to : option string
}.

Definition with_routing (st : Status) (who : option string) (c : t) : t :=
  mk (id c) (complaint_code c) (state c) (city c) (address_line1 c)
     (address_line2 c) (issue_type c) (description c) (media_url c)
     (voice_note_url c) st who.
End Complaint.

(** The object handed to [.insert] on [complaints]. *)
Module NewComplaint.
Record t := mk {
  state : string;
  city : string;
  address_line1 : option string;
  address_line2 : option string;
  issue_type : string;
  description : string;
  media_url : option string;
  voice_note_url : option string
}.
End NewComplaint.

(** What [.select('id, complaint_code, issue_type, city, state').single()]
    hands back. *)
Module Inserted.
Record t := mk {
  id : nat;
  complaint_code : string;
  issue_type : string;
  city : string;
  state : string
}.
End Inserted.

(** A row of [complaint_status_updates]. *)
Module StatusUpdate.
Record t := mk {
  complaint_id : nat;
  status : Status;
  assigned_to : option string;
  note : string;
  created_at : Z
}.
End StatusUpdate.

(** A row of [notifications]. *)
Module Notification.
Record t := mk {
  complaint_id : nat;
  complaint_code : string;
  stage : Stage;
  message : string;
  user_id : string;
  is_read : bool;
  created_at : Z
}.
End Notification.

(** The body of the [analyze-complaint-image] function's answer: an object
    of which the handler reads three properties. The function is not part of
    the sources and the body is untyped ([any]), so each property may be
    absent; [{}] is [mk None None None]. *)
Module Analysis.
Record t := mk {
  is_relevant : option bool;
  description : option string;
  reason : option string
}.
End Analysis.

(** Every Supabase call resolves to a [{ data, error }] pair. *)
Record Response (A : Type) := mkResponse {
  data : option A;
  error : option Error
}.
Arguments mkResponse {A} _ _.
Arguments data {A} _.
Arguments error {A} _.

Definition resolved {A} (a : A) : Response A := mkResponse (Some a) None.
Definition failed {A} (e : Error) : Response A := mkResponse None (Some e).

(** A request sent to a collaborator. *)
Inductive Request :=
| ReqUpload (bucket fileName : string)
| ReqInsertComplaint (row : NewComplaint.t)
| ReqUpdateComplaint (id : nat) (st : Status) (who : string)
| ReqInsertStatusUpdate (id : nat) (st : Status) (who : string)
| ReqInsertNotification (id : nat) (stage : Stage)
| ReqInvoke (fn : string) (issueType : string).

(** The callback of a pending [setTimeout]. *)
Inductive Task :=
| NotifyTask (complaintId : nat) (complaintCode : string) (stage : Stage)
             (message : string) (userId : option string).

Record Timer := mkTimer { fire_at : Z; task : Task }.

(** The collaborators' state: blob store, the three tables, the serial the
    store draws fresh complaint identifiers from, and the log of requests
    received, each stamped with the time it was sent. *)
Record Cloud := mkCloud {
  blobs : list (string * File);
  complaints : list Complaint.t;
  complaint_status_updates : list StatusUpdate.t;
  notifications : list Notification.t;
  serial : nat;
  requests : list (Z * Request)
}.

(** The whole system: the component, the collaborators, the clock
    ([Date.now()], in milliseconds) and the pending timers. *)
Record Sys := mkSys {
  ui : Component;
  cloud : Cloud;
  now : Z;
  timers : list Timer
}.

(** How the collaborators answer: the error each kind of request fails with,
    if any, the answer of the classification function, the store's
    complaint-code generator and the blob store's public address of a file. *)
Record Service := mkService {
  upload_error : option Error;
  complaint_insert_error : option Error;
  complaint_update_error : option Error;
  status_insert_error : option Error;
  notification_insert_error : Stage -> option Error;
  analysis : Response Analysis.t;
  code_of : nat -> string;
  public_url : string -> string -> string
}.

(* ================================================================== *)
(** ** Effects: state and exceptions *)
(* ================================================================== *)

(** A handler either completes with a value or leaves by a [throw]. *)
Inductive Outcome (A : Type) :=
| Done (a : A)
| Thrown (e : Error).
Arguments Done {A} _.
Arguments Thrown {A} _.

Definition M (A : Type) : Type := Sys -> Outcome A * Sys.

Definition ret {A} (a : A) : M A := fun s => (Done a, s).

Definition bind {A B} (m : M A) (k : A -> M B) : M B :=
  fun s =>
    match m s with
    | (Done a, s') => k a s'
    | (Thrown e, s') => (Thrown e, s')
    end.

Definition throw {A} (e : Error) : M A := fun s => (Thrown e, s).

(** [try { body } catch (e) { handler e }]. *)
Definition try_catch {A} (body : M A) (handler : Error -> M A) : M A :=
  fun s =>
    match body s with
    | (Done a, s') => (Done a, s')
    | (Thrown e, s') => handler e s'
    end.

(** [try { body } finally { cleanup }]: the cleanup runs on both exits. *)
Definition try_finally {A} (body : M A) (cleanup : M unit) : M A :=
  fun s =>
    match body s with
    | (r, s') =>
        match cleanup s' with
        | (Done _, s'') => (r, s'')
        | (Thrown e, s'') => (Thrown e, s'')
        end
    end.

Declare Scope eff_scope.
Delimit Scope eff_scope with eff.
Notation "x <- m ;; k" := (bind m (fun x => k))
  (at level 61, m at next level, right associativity) : eff_scope.
Notation "m ;;; k" := (bind m (fun _ => k))
  (at level 61, right associativity) : eff_scope.
Open Scope eff_scope.

Definition gets {A} (f : Sys -> A) : M A := fun s => (Done (f s), s).
Definition modify (f : Sys -> Sys) : M unit := fun s => (Done tt, f s).

(** The state a handler leaves behind. *)
Definition exec {A} (m : M A) (s : Sys) : Sys := snd (m s).

(** *** Updates of the component *)

Definition on_ui (f : Component -> Component) (s : Sys) : Sys :=
  mkSys (f (ui s)) (cloud s) (now s) (timers s).

Definition on_cloud (f : Cloud -> Cloud) (s : Sys) : Sys :=
  mkSys (ui s) (f (cloud s)) (now s) (timers s).

Definition setStep (v : Step) : M unit :=
  modify (on_ui (fun c =>
    mkComponent v (complaintId c) (isSubmitting c) (isAnalyzing c)
                (isRecording c) (mediaRecorderRef c)
                (formData c) (fileInput c) (toasts c) (console c))).

Definition setComplaintId (v : string) : M unit :=
  modify (on_ui (fun c =>
    mkComponent (step c) v (isSubmitting c) (isAnalyzing c)
                (isRecording c) (mediaRecorderRef c)
                (formData c) (fileInput c) (toasts c) (console c))).

Definition setIsSubmitting (v : bool) : M unit :=
  modify (on_ui (fun c =>
    mkComponent (step c) (complaintId c) v (isAnalyzing c)
                (isRecording c) (mediaRecorderRef c)
                (formData c) (fileInput c) (toasts c) (console c))).

Definition setIsAnalyzing (v : bool) : M unit :=
  modify (on_ui (fun c =>
    mkComponent (step c) (complaintId c) (isSubmitting c) v
                (isRecording c) (mediaRecorderRef c)
                (formData c) (fileInput c) (toasts c) (console c))).

Definition setIsRecording (v : bool) : M unit :=
  modify (on_ui (fun c =>
    mkComponent (step c) (complaintId c) (isSubmitting c) (isAnalyzing c)
                v (mediaRecorderRef c)
                (formData c) (fileInput c) (toasts c) (console c))).

(** [mediaRecorderRef.current = mediaRecorder]. *)
Definition setMediaRecorderRef : M unit :=
  modify (on_ui (fun c =>
    mkComponent (step c) (complaintId c) (isSubmitting c) (isAnalyzing c)
                (isRecording c) true
                (formData c) (fileInput c) (toasts c) (console c))).

(** [setFormData(prev => f prev)]. *)
Definition setFormData (f : FormData.t -> FormData.t) : M unit :=
  modify (on_ui (fun c =>
    mkComponent (step c) (complaintId c) (isSubmitting c) (isAnalyzing c)
                (isRecording c) (mediaRecorderRef c)
                (f (formData c)) (fileInput c) (toasts c) (console c))).

(** [e.target.value = v]. *)
Definition setFileInput (v : string) : M unit :=
  modify (on_ui (fun c =>
    mkComponent (step c) (complaintId c) (isSubmitting c) (isAnalyzing c)
                (isRecording c) (mediaRecorderRef c)
                (formData c) v (toasts c) (console c))).

Definition toast (t : Toast.t) : M unit :=
  modify (on_ui (fun c =>
    mkComponent (step c) (complaintId c) (isSubmitting c) (isAnalyzing c)
                (isRecording c) (mediaRecorderRef c)
                (formData c) (fileInput c) (toasts c ++ [t]) (console c))).

(** [console.error(label, e)]. *)
Definition console_error (label : string) (e : Error) : M unit :=
  modify (on_ui (fun c =>
    mkComponent (step c) (complaintId c) (isSubmitting c) (isAnalyzing c)
                (isRecording c) (mediaRecorderRef c)
                (formData c) (fileInput c) (toasts c)
                (console c ++ [label ++ " " ++ e]))).

(** *** Clock and timers *)

Definition Date_now : M Z := gets now.

(** [setTimeout(task, delay)]. *)
Definition setTimeout (t : Task) (delay : Z) : M unit :=
  modify (fun s =>
    mkSys (ui s) (cloud s) (now s) (timers s ++ [mkTimer (now s + delay) t])).

(* ================================================================== *)
(** ** The collaborators *)
(* ================================================================== *)

Section Collaborators.

Variable svc : Service.

Definition log_request (r : Request) : M unit :=
  modify (fun s =>
    on_cloud (fun c =>
      mkCloud (blobs c) (complaints c) (complaint_status_updates c)
              (notifications c) (serial c) (requests c ++ [(now s, r)])) s).

(** Modelled from the spec: the Supabase client and the database schema are
    not part of the sources, so each collaborator follows the interface of
    the specification's section 6. A request is logged, then either fails
    with the error [svc] dictates and writes nothing, or performs its one
    write. [put(name, bytes)] of the blob store: *)
Definition storage_upload (bucket fileName : string) (f : File)
  : M (Response string) :=
  log_request (ReqUpload bucket fileName) ;;;
  match upload_error svc with
  | Some e => ret (failed e)
  | None =>
      modify (on_cloud (fun c =>
        mkCloud (blobs c ++ [(fileName, f)]) (complaints c)
                (complaint_status_updates c) (notifications c)
                (serial c) (requests c))) ;;;
      ret (resolved fileName)
  end.

(** [getPublicUrl] is a local computation, not a request. *)
Definition storage_getPublicUrl (bucket fileName : string) : string :=
  public_url svc bucket fileName.

(** Modelled from the spec: [insert(complaint) -> {id, code}] of the
    ComplaintStore. The store draws the identifier from its serial, owns
    the code generation, and creates the row in the initial status
    [Pending] with no authority. *)
Definition complaints_insert (row : NewComplaint.t) : M (Response Inserted.t) :=
  log_request (ReqInsertComplaint row) ;;;
  match complaint_insert_error svc with
  | Some e => ret (failed e)
  | None =>
      n <- gets (fun s => serial (cloud s)) ;;
      let c :=
        Complaint.mk n (code_of svc n)
          (NewComplaint.state row) (NewComplaint.city row)
          (NewComplaint.address_line1 row) (NewComplaint.address_line2 row)
          (NewComplaint.issue_type row) (NewComplaint.description row)
          (NewComplaint.media_url row) (NewComplaint.voice_note_url row)
          Pending None in
      modify (on_cloud (fun cl =>
        mkCloud (blobs cl) (complaints cl ++ [c])
                (complaint_status_updates cl) (notifications cl)
                (S (serial cl)) (requests cl))) ;;;
      ret (resolved
             (Inserted.mk n (code_of svc n) (NewComplaint.issue_type row)
                          (NewComplaint.city row) (NewComplaint.state row)))
  end.

(** Modelled from the spec: [updateStatus(complaintId, status, assignedTo)],
    that is [.update({ status, assigned_to }).eq('id', id)]. *)
Definition complaints_update (st : Status) (who : string) (id : nat)
  : M (Response unit) :=
  log_request (ReqUpdateComplaint id st who) ;;;
  match complaint_update_error svc with
  | Some e => ret (failed e)
  | None =>
      modify (on_cloud (fun cl =>
        mkCloud (blobs cl)
                (map (fun c => if Nat.eqb (Complaint.id c) id
                               then Complaint.with_routing st (Some who) c
                               else c) (complaints cl))
                (complaint_status_updates cl) (notifications cl)
                (serial cl) (requests cl))) ;;;
      ret (resolved tt)
  end.

(** Modelled from the spec: [appendStatus(complaintId, status, assignedTo,
    note)]; the store stamps the row with the time of the insert. *)
Definition status_updates_insert (id : nat) (st : Status) (who note : string)
  : M (Response unit) :=
  log_request (ReqInsertStatusUpdate id st who) ;;;
  match status_insert_error svc with
  | Some e => ret (failed e)
  | None =>
      t <- Date_now ;;
      modify (on_cloud (fun cl =>
        mkCloud (blobs cl) (complaints cl)
                (complaint_status_updates cl
                   ++ [StatusUpdate.mk id st (Some who) note t])
                (notifications cl) (serial cl) (requests cl))) ;;;
      ret (resolved tt)
  end.

(** Modelled from the spec: [insert(notification)] of the notification
    sink; the sink stamps the row with the time of the insert. *)
Definition notifications_insert (id : nat) (code : string) (stage : Stage)
    (message user_id : string) (is_read : bool) : M (Response unit) :=
  log_request (ReqInsertNotification id stage) ;;;
  match notification_insert_error svc stage with
  | Some e => ret (failed e)
  | None =>
      t <- Date_now ;;
      modify (on_cloud (fun cl =>
        mkCloud (blobs cl) (complaints cl) (complaint_status_updates cl)
                (notifications cl
                   ++ [Notification.mk id code stage message user_id is_read t])
                (serial cl) (requests cl))) ;;;
      ret (resolved tt)
  end.

(** Modelled from the spec: the classification service, request
    [{ imageData, issueType }], answer as [svc] dictates. *)
Definition functions_invoke (fn imageData issueType : string)
  : M (Response Analysis.t) :=
  log_request (ReqInvoke fn issueType) ;;;
  ret (analysis svc).

End Collaborators.

(* ================================================================== *)
(** ** The handlers of [ComplaintRegistration] *)
(* ================================================================== *)

(** What follows "Report Submitted Successfully! " in the success title, as
    the bytes of the source file. [ComplaintRegistration.tsx] holds
    EF A3 BF C3 BC C3 A9 C3 A2, a party popper that went through a wrong
    re-encoding; the earlier variant of the component holds the UTF-8 of the
    party popper itself, F0 9F 8E 89. *)
Definition party_popper_reencoded : string :=
  String (ascii_of_nat 239) (String (ascii_of_nat 163)
    (String (ascii_of_nat 191) (String (ascii_of_nat 195)
      (String (ascii_of_nat 188) (String (ascii_of_nat 195)
        (String (ascii_of_nat 169) (String (ascii_of_nat 195)
          (String (ascii_of_nat 162) EmptyString)))))))).

Definition party_popper : string :=
  String (ascii_of_nat 240) (String (ascii_of_nat 159)
    (String (ascii_of_nat 142) (String (ascii_of_nat 137) EmptyString))).

Definition toast_select_issue_first : Toast.t :=
  Toast.mk "Please select an issue type first"
           (Some "The AI needs to know what kind of issue to look for.")
           (Some variant_destructive).

Definition toast_analyzed : Toast.t :=
  Toast.mk "Image Analyzed Successfully"
           (Some "An AI-generated description has been added.") None.

(** [reason] is [data.reason]. *)
Definition toast_irrelevant (reason : option string) : Toast.t :=
  Toast.mk "Irrelevant Image Detected"
           (Some (JS.or_undefined reason
                    "Please upload an image related to the selected issue."))
           (Some variant_destructive).

Definition toast_analysis_failed : Toast.t :=
  Toast.mk "AI Analysis Failed"
           (Some "Could not analyze the image. Please write a description manually.")
           (Some variant_destructive).

Definition toast_microphone_denied : Toast.t :=
  Toast.mk "Microphone access denied" None (Some variant_destructive).

Definition toast_missing_information : Toast.t :=
  Toast.mk "Missing Information" (Some "Please fill all required fields")
           (Some variant_destructive).

Definition toast_submitted (complaint_code : string) : Toast.t :=
  Toast.mk ("Report Submitted Successfully! " ++ party_popper_reencoded)
           (Some ("Complaint ID: " ++ complaint_code))
           (Some variant_default).

Definition toast_submission_failed : Toast.t :=
  Toast.mk "Submission Failed" (Some "Please try again later")
           (Some variant_destructive).

(** [if (authority)] on a [string | null]. *)
Definition truthy_authority (a : option string) : option string :=
  match a with
  | Some who => if JS.truthy who then Some who else None
  | None => None
  end.

Section Handlers.

Variable svc : Service.

(** The [reader.onloadend] callback of [handleMediaUpload]; [issueType] is
    the [formData.issueType] the handler closed over. *)
Definition onloadend (file : File) (issueType : string) : M unit :=
  let base64data := file_bytes file in
  try_finally
    (try_catch
       (r <- functions_invoke svc "analyze-complaint-image"
                              base64data issueType ;;
        match error r with
        | Some e => throw e
        | None =>
            match data r with
            | None => throw TypeError
            | Some d =>
                if JS.truthy_flag (Analysis.is_relevant d) then
                  setFormData
                    (FormData.with_description
                       (JS.text (Analysis.description d))) ;;;
                  toast toast_analyzed
                else
                  setFormData (FormData.with_media None) ;;;
                  setFileInput "" ;;;
                  toast (toast_irrelevant (Analysis.reason d))
            end
        end)
       (fun err =>
          console_error "Error analyzing image:" err ;;;
          toast toast_analysis_failed))
    (setIsAnalyzing false).

(** [handleMediaUpload]: [file] is [e.target.files?.[0]]. The handler
    returns once the reader is started; its result here is the callback it
    left on the reader, if any. *)
Definition handleMediaUpload (file : option File) : M (option (M unit)) :=
  match file with
  | None => ret None
  | Some f =>
      fd <- gets (fun s => formData (ui s)) ;;
      if negb (JS.truthy (FormData.issueType fd)) then
        toast toast_select_issue_first ;;;
        setFileInput "" ;;;
        ret None
      else
        setFormData (fun prev =>
          FormData.with_description "" (FormData.with_media (Some f) prev)) ;;;
        setIsAnalyzing true ;;;
        ret (Some (onloadend f (FormData.issueType fd)))
  end.

(** The [address_line2] expression of the insert. *)
Definition address_line2_of (fd : FormData.t) : option string :=
  if JS.truthy (FormData.district fd) then
    Some (FormData.district fd ++
          (if JS.truthy (FormData.address2 fd)
           then ", " ++ FormData.address2 fd else ""))
  else JS.or_null (FormData.address2 fd).

Definition handleSubmit : M unit :=
  fd <- gets (fun s => formData (ui s)) ;;
  if negb (JS.truthy (FormData.state fd))
     || negb (JS.truthy (FormData.city fd))
     || negb (JS.truthy (FormData.issueType fd))
     || negb (JS.truthy (FormData.description fd))
  then toast toast_missing_information
  else
    setIsSubmitting true ;;;
    try_finally
      (try_catch
         (let audioUrl : option string := None in
          mediaUrl <-
            match FormData.media fd with
            | Some media =>
                let fileExt := JS.split_dot_pop (file_name media) "" in
                t <- Date_now ;;
                let fileName := JS.show_Z t ++ "." ++ fileExt in
                up <- storage_upload svc "complaints" fileName media ;;
                match error up with
                | Some uploadError => throw uploadError
                | None =>
                    ret (Some (storage_getPublicUrl svc "complaints" fileName))
                end
            | None => ret None
            end ;;
          r <- complaints_insert svc
                 (NewComplaint.mk
                    (FormData.state fd) (FormData.city fd)
                    (JS.or_null (FormData.address1 fd))
                    (address_line2_of fd)
                    (FormData.issueType fd) (FormData.description fd)
                    mediaUrl audioUrl) ;;
          match error r with
          | Some e => throw e
          | None =>
              match data r with
              | None => throw TypeError
              | Some d =>
                  setComplaintId (Inserted.complaint_code d) ;;;
                  match truthy_authority
                          (mapAuthorityForIssue (FormData.issueType fd)) with
                  | Some authority =>
                      _ <- complaints_update svc Assigned authority
                                             (Inserted.id d) ;;
                      _ <- status_updates_insert svc (Inserted.id d) Assigned
                             authority
                             ("Auto-routed based on issue type: "
                                ++ FormData.issueType fd) ;;
                      ret tt
                  | None => ret tt
                  end ;;;
                  setStep success ;;;
                  toast (toast_submitted (Inserted.complaint_code d))
              end
          end)
         (fun e =>
            console_error "Error submitting complaint:" e ;;;
            toast toast_submission_failed))
      (setIsSubmitting false).

(** *** Voice notes

    What the browser does when the Record button is clicked is not the
    component's: the microphone is refused ([getUserMedia] rejects, or no
    [MediaRecorder] can be built on the stream), the recorder is built but
    fails to start, or the recording starts. *)
Inductive Microphone :=
| MicDenied (e : Error)
| MicStartFailed (e : Error)
| MicRecording.

(** [handleStartRecording]; the two event handlers it puts on the recorder
    run when the recorder is stopped. *)
Definition handleStartRecording (browser : Microphone) : M unit :=
  try_catch
    (match browser with
     | MicDenied e => throw e
     | MicStartFailed e => setMediaRecorderRef ;;; throw e
     | MicRecording => setMediaRecorderRef ;;; setIsRecording true
     end)
    (fun err =>
       console_error "Audio recording error:" err ;;;
       toast toast_microphone_denied).

(** [handleStopRecording]. Stopping the recorder runs its [onstop] handler,
    which makes a file [voice-<Date.now()>.webm] of the chunks recorded
    ([recorded]) and stores it in the form. *)
Definition handleStopRecording (recorded : string) : M unit :=
  held <- gets (fun s => mediaRecorderRef (ui s)) ;;
  recording <- gets (fun s => isRecording (ui s)) ;;
  if held && recording then
    setIsRecording false ;;;
    t <- Date_now ;;
    setFormData
      (FormData.with_audio
         (Some (mkFile ("voice-" ++ JS.show_Z t ++ ".webm") recorded)))
  else ret tt.

(** *** The form controls

    The [onChange] / [onValueChange] / [onClick] handlers of the form, the
    [disabled] attribute of the description field and of the submit button,
    and the Record and Stop buttons, of which the form shows one at a time;
    neither is disabled while an analysis is pending. *)
Inductive UiEvent :=
| SelectIssueType (v : string)
| SelectState (v : string)
| SelectCity (v : string)
| ChangeDistrict (v : string)
| ChangeAddress1 (v : string)
| ChangeAddress2 (v : string)
| ChangeAudio (f : option File)
| ClickRecord (browser : Microphone)
| ClickStop (recorded : string)
| ChangeDescription (v : string)
| ClickSubmit.

Definition dispatch (ev : UiEvent) : M unit :=
  match ev with
  | SelectIssueType v => setFormData (FormData.with_issueType v)
  | SelectState v =>
      setFormData (fun prev => FormData.with_city "" (FormData.with_state v prev))
  | SelectCity v => setFormData (FormData.with_city v)
  | ChangeDistrict v => setFormData (FormData.with_district v)
  | ChangeAddress1 v => setFormData (FormData.with_address1 v)
  | ChangeAddress2 v => setFormData (FormData.with_address2 v)
  | ChangeAudio f => setFormData (FormData.with_audio f)
  | ClickRecord browser =>
      recording <- gets (fun s => isRecording (ui s)) ;;
      if recording then ret tt else handleStartRecording browser
  | ClickStop recorded =>
      recording <- gets (fun s => isRecording (ui s)) ;;
      if recording then handleStopRecording recorded else ret tt
  | ChangeDescription v =>
      analyzing <- gets (fun s => isAnalyzing (ui s)) ;;
      if analyzing then ret tt
      else setFormData (FormData.with_description v)
  | ClickSubmit =>
      busy <- gets (fun s => isSubmitting (ui s) || isAnalyzing (ui s)) ;;
      if busy then ret tt else handleSubmit
  end.

Fixpoint dispatch_all (evs : list UiEvent) : M unit :=
  match evs with
  | [] => ret tt
  | ev :: rest => dispatch ev ;;; dispatch_all rest
  end.

End Handlers.

(* ================================================================== *)
(** ** NotificationScheduler: [notificationService.ts] *)
(* ================================================================== *)

Section Scheduler.

Variable svc : Service.

Definition createNotification (complaintId : nat) (complaintCode : string)
    (stage : Stage) (message : string) (userId : option string) : M unit :=
  try_catch
    (r <- notifications_insert svc complaintId complaintCode stage message
            (match userId with
             | Some u => JS.or u "anonymous"
             | None => "anonymous"
             end)
            false ;;
     match error r with
     | Some e => console_error "Error creating notification:" e
     | None => ret tt
     end)
    (fun e => console_error "Error creating notification:" e).

Definition confirmation_message (complaintCode issueType : string) : string :=
  "Your complaint " ++ complaintCode ++ " for " ++ issueType
    ++ " has been registered successfully. We will review it shortly.".

Definition acknowledgement_message (complaintCode : string) : string :=
  "Your complaint " ++ complaintCode
    ++ " has been acknowledged and assigned to the appropriate department.".

Definition resolution_message (complaintCode : string) : string :=
  "Your complaint " ++ complaintCode
    ++ " has been resolved. Thank you for your patience.".

Definition createComplaintNotifications (complaintId : nat)
    (complaintCode issueType : string) : M unit :=
  createNotification complaintId complaintCode confirmation
    (confirmation_message complaintCode issueType) (Some "anonymous") ;;;
  setTimeout
    (NotifyTask complaintId complaintCode acknowledgement
       (acknowledgement_message complaintCode) (Some "anonymous")) 5000 ;;;
  setTimeout
    (NotifyTask complaintId complaintCode resolution
       (resolution_message complaintCode) (Some "anonymous")) 30000.

(** *** The timer queue

    A timer never fires before its time; among the pending timers the one
    with the least time fires first, and of two with the same time the one
    registered first. Here the sink answers an insert within the instant it
    is sent, so a callback has run to its end before the next timer fires;
    the section on inserts that take time drops this assumption. *)

Definition run_task (t : Task) : M unit :=
  match t with
  | NotifyTask complaintId complaintCode stage message userId =>
      createNotification complaintId complaintCode stage message userId
  end.

(** The next timer to fire and the timers left pending. *)
Fixpoint pick (ts : list Timer) : option (Timer * list Timer) :=
  match ts with
  | [] => None
  | t :: rest =>
      match pick rest with
      | None => Some (t, [])
      | Some (u, rest') =>
          if (fire_at u <? fire_at t)%Z then Some (u, t :: rest')
          else Some (t, rest)
      end
  end.

Definition fire (t : Timer) (rest : list Timer) (s : Sys) : Sys :=
  exec (run_task (task t))
       (mkSys (ui s) (cloud s) (Z.max (now s) (fire_at t)) rest).

Fixpoint run_loop (fuel : nat) (deadline : Z) (s : Sys) : Sys :=
  match fuel with
  | O => s
  | S fuel' =>
      match pick (timers s) with
      | Some (t, rest) =>
          if (fire_at t <=? deadline)%Z
          then run_loop fuel' deadline (fire t rest s)
          else s
      | None => s
      end
  end.

(** Let the clock reach [deadline], firing every timer that falls due. A
    task registers no timer, so one turn per pending timer is enough. *)
Definition advance_to (deadline : Z) (s : Sys) : Sys :=
  let s' := run_loop (length (timers s)) deadline s in
  mkSys (ui s') (cloud s') (Z.max (now s') deadline) (timers s').

End Scheduler.

(** *** Observations used by the statements *)

Definition stage_index (st : Stage) : nat :=
  match st with
  | confirmation => 0
  | acknowledgement => 1
  | resolution => 2
  end.

Definition for_complaint (id : nat) (n : Notification.t) : bool :=
  Nat.eqb (Notification.complaint_id n) id.


(** The emissions attempted for a complaint: time and stage of each insert
    sent to the sink, in the order sent. *)
Definition emissions_of (id : nat) (s : Sys) : list (Z * Stage) :=
  flat_map (fun r => match snd r with
                     | ReqInsertNotification id' st =>
                         if Nat.eqb id' id then [(fst r, st)] else []
                     | _ => []
                     end) (requests (cloud s)).

Definition last_toast (s : Sys) : option Toast.t := last (map Some (toasts (ui s))) None.

(** The complaint a pending callback belongs to, and its stage. *)
Definition task_complaint (t : Task) : nat :=
  match t with NotifyTask complaintId _ _ _ _ => complaintId end.

Definition task_stage (t : Task) : Stage :=
  match t with NotifyTask _ _ stage _ _ => stage end.

Definition mine (id : nat) (t : Timer) : bool :=
  Nat.eqb (task_complaint (task t)) id.

(** The row a callback inserts when the sink accepts it at time [t]. *)
Definition task_row (t : Z) (k : Task) : Notification.t :=
  match k with
  | NotifyTask complaintId complaintCode stage message userId =>
      Notification.mk complaintId complaintCode stage message
        (match userId with
         | Some u => JS.or u "anonymous"
         | None => "anonymous"
         end)
        false t
  end.

(** The sink accepts the insert of a stage. *)
Definition accepted (svc : Service) (st : Stage) : bool :=
  match notification_insert_error svc st with
  | None => true
  | Some _ => false
  end.

(** The schedule of the specification, relative to the arming time. *)
Definition schedule (armed_at : Z) : list (Z * Stage) :=
  [ (armed_at, confirmation);
    (armed_at + 5000, acknowledgement);
    (armed_at + 30000, resolution) ]%Z.

Definition stage_message (complaintCode issueType : string) (st : Stage)
  : string :=
  match st with
  | confirmation => confirmation_message complaintCode issueType
  | acknowledgement => acknowledgement_message complaintCode
  | resolution => resolution_message complaintCode
  end.

(** The row of a stage emitted at a given time. *)
Definition notification_row (id : nat) (complaintCode issueType : string)
    (e : Z * Stage) : Notification.t :=
  Notification.mk id complaintCode (snd e)
    (stage_message complaintCode issueType (snd e)) "anonymous" false (fst e).

(** [a] comes before [b]: an earlier stage, persisted earlier. *)
Definition precedes (a b : Notification.t) : Prop :=
  stage_index (Notification.stage a) < stage_index (Notification.stage b)
  /\ (Notification.created_at a < Notification.created_at b)%Z.

(** The two timers an arming at [armed_at] leaves pending. *)
Definition acknowledgement_timer (id : nat) (code : string) (armed_at : Z)
  : Timer :=
  mkTimer (armed_at + 5000)
    (NotifyTask id code acknowledgement (acknowledgement_message code)
                (Some "anonymous")).

Definition resolution_timer (id : nat) (code : string) (armed_at : Z) : Timer :=
  mkTimer (armed_at + 30000)
    (NotifyTask id code resolution (resolution_message code)
                (Some "anonymous")).

(** Order of firing, and being due at a deadline. *)
Definition earlier (a b : Timer) : Prop := (fire_at a < fire_at b)%Z.

Definition due (deadline : Z) (t : Timer) : bool := (fire_at t <=? deadline)%Z.

(** A fresh component over given collaborators. *)
Definition initial_component : Component :=
  mkComponent form "" false false false false FormData.initial "" [] [].

Definition empty_cloud : Cloud := mkCloud [] [] [] [] 0 [].

Definition initial_sys (t0 : Z) : Sys := mkSys initial_component empty_cloud t0 [].

(** Identifiers in use lie below the store's serial. *)
Definition fresh_serial (c : Cloud) : Prop :=
  Forall (fun r => Complaint.id r < serial c) (complaints c).

(** The required fields are all filled in. *)
Definition valid (fd : FormData.t) : Prop :=
  FormData.state fd <> "" /\ FormData.city fd <> ""
  /\ FormData.issueType fd <> "" /\ FormData.description fd <> "".

(** The blob store accepts the media, if there is any to upload. *)
Definition upload_ok (svc : Service) (fd : FormData.t) : Prop :=
  FormData.media fd = None \/ upload_error svc = None.

(** The classification request failed: an [error] came back, or no body. *)
Definition analysis_failed (svc : Service) : Prop :=
  error (analysis svc) <> None \/ data (analysis svc) = None.

(** The name [handleSubmit] stores the media under at time [t]. *)
Definition upload_name (t : Z) (media : File) : string :=
  JS.show_Z t ++ "." ++ JS.split_dot_pop (file_name media) "".

(** One media upload seen from the outside: the change handler runs, the
    user goes on using the form while the analysis is pending ([evs]), ... *)
Definition media_upload_pending (svc : Service) (file : File)
    (evs : list UiEvent) : M (option (M unit)) :=
  cb <- handleMediaUpload svc (Some file) ;;
  dispatch_all svc evs ;;;
  ret cb.

(** ... and then the reader's callback runs. *)
Definition media_upload_session (svc : Service) (file : File)
    (evs : list UiEvent) : M unit :=
  cb <- media_upload_pending svc file evs ;;
  match cb with
  | Some callback => callback
  | None => ret tt
  end.

(** *** Sample inputs *)

Definition sample_code (n : nat) : string :=
  "NGR" ++ JS.show_Z (100000 + Z.of_nat n).

Definition sample_url (bucket fileName : string) : string :=
  "https://cdn.example/" ++ bucket ++ "/" ++ fileName.

Definition relevant_answer : Response Analysis.t :=
  resolved (Analysis.mk (Some true) (Some "Street light pole is broken") None).

Definition irrelevant_answer : Response Analysis.t :=
  resolved (Analysis.mk (Some false) None (Some "The photo shows a cat")).

(** A body that parses but has none of the properties: [{}]. *)
Definition empty_answer : Response Analysis.t :=
  resolved (Analysis.mk None None None).

(** All collaborators answer. *)
Definition service_up : Service :=
  mkService None None None None (fun _ => None) relevant_answer
            sample_code sample_url.

(** The routing writes are both refused. *)
Definition service_routing_down : Service :=
  mkService None None (Some "update refused") (Some "insert refused")
            (fun _ => None) relevant_answer sample_code sample_url.

(** Only the status-history insert is refused. *)
Definition service_history_down : Service :=
  mkService None None None (Some "insert refused")
            (fun _ => None) relevant_answer sample_code sample_url.

(** The blob store refuses the upload. *)
Definition service_storage_down : Service :=
  mkService (Some "bucket unavailable") None None None
            (fun _ => None) relevant_answer sample_code sample_url.

(** The classification service rejects the image. *)
Definition service_rejecting : Service :=
  mkService None None None None (fun _ => None) irrelevant_answer
            sample_code sample_url.

(** The classification service answers with an empty object. *)
Definition service_malformed : Service :=
  mkService None None None None (fun _ => None) empty_answer
            sample_code sample_url.

(** The classification service is unreachable. *)
Definition service_analysis_down : Service :=
  mkService None None None None (fun _ => None)
            (failed "FunctionsFetchError") sample_code sample_url.

(** The form of the specification's end-to-end scenario. *)
Definition sample_form : FormData.t :=
  FormData.mk "Delhi" "Delhi" "" "" "" "electricity"
              "No power since morning" None None.

Definition sample_photo : File := mkFile "pole.jpg" "/9j/4AAQSkZJRg==".

Definition sys_with (fd : FormData.t) : Sys :=
  mkSys (mkComponent form "" false false false false fd "" [] [])
        empty_cloud 1000 [].

(* ================================================================== *)
(** ** NotificationScheduler, with inserts that take time *)
(* ================================================================== *)

(** In the timer queue above an insert is answered within the instant it
    is sent. [createNotification] awaits the sink, though: while the
    callback of one timer waits for its answer the other timer can fall due
    and send its own insert, and nothing in [notificationService.ts] orders
    the two answers. This section follows the same two functions with the
    wait made explicit: an insert that was sent is in flight until the sink
    answers it, and the caller goes on from its [await] only then. *)

(** The earliest entry of a queue and the entries left; of two entries with
    the same time the one registered first. *)
Fixpoint earliest_by {A} (key : A -> Z) (l : list A) : option (A * list A) :=
  match l with
  | [] => None
  | x :: rest =>
      match earliest_by key rest with
      | None => Some (x, [])
      | Some (u, rest') =>
          if (key u <? key x)%Z then Some (u, x :: rest')
          else Some (x, rest)
      end
  end.

Module Async.

(** Who awaits the answer of an insert: [createComplaintNotifications],
    which goes on to register the two timers, or the callback of a timer,
    which ends there. *)
Inductive Caller := FromArming | FromTimer.

(** An insert the sink has yet to answer, and the time it answers at. *)
Record Flight := mkFlight { lands_at : Z; sent : Task; caller : Caller }.

(** The system together with the inserts in flight. *)
Record Net := mkNet { sys : Sys; flights : list Flight }.

Section Latency.

Variable svc : Service.

(** The time the sink takes to answer the insert of a task sent at a given
    time. *)
Variable latency : Z -> Task -> Z.

(** [createNotification] up to its [await]: the request leaves. *)
Definition send (k : Task) (who : Caller) (n : Net) : Net :=
  let s :=
    exec (log_request
            (ReqInsertNotification (task_complaint k) (task_stage k)))
         (sys n) in
  mkNet s (flights n ++ [mkFlight (now s + latency (now s) k) k who]).

(** Modelled from the spec: the sink's part of [insert(notification)]; the
    row is written, or refused, when the request arrives, and stamped with
    that time. *)
Definition sink_insert (k : Task) : M (Response unit) :=
  match k with
  | NotifyTask complaintId complaintCode stage message userId =>
      match notification_insert_error svc stage with
      | Some e => ret (failed e)
      | None =>
          t <- Date_now ;;
          modify (on_cloud (fun cl =>
            mkCloud (blobs cl) (complaints cl) (complaint_status_updates cl)
                    (notifications cl
                       ++ [Notification.mk complaintId complaintCode stage
                             message
                             (match userId with
                              | Some u => JS.or u "anonymous"
                              | None => "anonymous"
                              end)
                             false t])
                    (serial cl) (requests cl))) ;;;
          ret (resolved tt)
      end
  end.

(** [createNotification] from its [await] on. *)
Definition answered (k : Task) : M unit :=
  try_catch
    (r <- sink_insert k ;;
     match error r with
     | Some e => console_error "Error creating notification:" e
     | None => ret tt
     end)
    (fun e => console_error "Error creating notification:" e).

(** [createComplaintNotifications] after the awaited confirmation: the two
    [setTimeout] calls. *)
Definition arm_timers (k : Task) : M unit :=
  match k with
  | NotifyTask complaintId complaintCode _ _ _ =>
      setTimeout
        (NotifyTask complaintId complaintCode acknowledgement
           (acknowledgement_message complaintCode) (Some "anonymous")) 5000 ;;;
      setTimeout
        (NotifyTask complaintId complaintCode resolution
           (resolution_message complaintCode) (Some "anonymous")) 30000
  end.

(** [createComplaintNotifications] up to its first [await]. *)
Definition createComplaintNotifications (complaintId : nat)
    (complaintCode issueType : string) (n : Net) : Net :=
  send (NotifyTask complaintId complaintCode confirmation
          (confirmation_message complaintCode issueType) (Some "anonymous"))
       FromArming n.

(** What the caller does once its insert is answered. *)
Definition resume (f : Flight) : M unit :=
  answered (sent f) ;;;
  match caller f with
  | FromArming => arm_timers (sent f)
  | FromTimer => ret tt
  end.

(** One turn of the event loop: the answer of an insert comes in, or a
    timer fires. *)
Inductive Turn :=
| Land (f : Flight) (rest : list Flight)
| Fire (t : Timer) (rest : list Timer).

Definition turn_time (u : Turn) : Z :=
  match u with
  | Land f _ => lands_at f
  | Fire t _ => fire_at t
  end.

(** The next turn: the earliest answer or timer; an answer goes before a
    timer due at the same instant. *)
Definition next (n : Net) : option Turn :=
  match earliest_by lands_at (flights n), pick (timers (sys n)) with
  | Some (f, fs), Some (t, ts) =>
      if (lands_at f <=? fire_at t)%Z then Some (Land f fs)
      else Some (Fire t ts)
  | Some (f, fs), None => Some (Land f fs)
  | None, Some (t, ts) => Some (Fire t ts)
  | None, None => None
  end.

Definition turn (u : Turn) (n : Net) : Net :=
  let s := sys n in
  let at_ := Z.max (now s) (turn_time u) in
  match u with
  | Land f rest =>
      mkNet (exec (resume f) (mkSys (ui s) (cloud s) at_ (timers s))) rest
  | Fire t rest =>
      send (task t) FromTimer
           (mkNet (mkSys (ui s) (cloud s) at_ rest) (flights n))
  end.

Fixpoint run_loop (fuel : nat) (deadline : Z) (n : Net) : Net :=
  match fuel with
  | O => n
  | S fuel' =>
      match next n with
      | Some u =>
          if (turn_time u <=? deadline)%Z
          then run_loop fuel' deadline (turn u n)
          else n
      | None => n
      end
  end.

(** The turns the pending entries can still give rise to: a timer fires and
    its insert is answered; the answer awaited by an arming is followed by
    two timers. *)
Definition weight (f : Flight) : nat :=
  match caller f with
  | FromArming => 5
  | FromTimer => 1
  end.

Definition budget (n : Net) : nat :=
  2 * length (timers (sys n)) + list_sum (map weight (flights n)).

(** Let the clock reach [deadline], taking every turn that falls due. *)
Definition advance_to (deadline : Z) (n : Net) : Net :=
  let n' := run_loop (budget n) deadline n in
  mkNet (mkSys (ui (sys n')) (cloud (sys n')) (Z.max (now (sys n')) deadline)
               (timers (sys n')))
        (flights n').

End Latency.

(** *** Observations *)

(** The complaint an insert in flight belongs to. *)
Definition own (id : nat) (f : Flight) : bool :=
  Nat.eqb (task_complaint (sent f)) id.

(** The rows persisted for a complaint, in the order of insertion. *)
Definition rows_of (id : nat) (n : Net) : list Notification.t :=
  filter (for_complaint id) (notifications (cloud (sys n))).

(** Nothing of the complaint is pending: no timer and no insert. *)
Definition unarmed (id : nat) (n : Net) : Prop :=
  Forall (fun t => mine id t = false) (timers (sys n))
  /\ Forall (fun f => own id f = false) (flights n).

Definition same_stage (a b : Stage) : bool :=
  Nat.eqb (stage_index a) (stage_index b).

(** The number of emissions of a stage sent so far for a complaint. *)
Definition emitted (id : nat) (st : Stage) (n : Net) : nat :=
  length (filter (fun e => same_stage (snd e) st) (emissions_of id (sys n))).



(** The tasks of one arming. *)
Definition confirmation_task (id : nat) (code issueType : string) : Task :=
  NotifyTask id code confirmation (confirmation_message code issueType)
             (Some "anonymous").

Definition acknowledgement_task (id : nat) (code : string) : Task :=
  NotifyTask id code acknowledgement (acknowledgement_message code)
             (Some "anonymous").

Definition resolution_task (id : nat) (code : string) : Task :=
  NotifyTask id code resolution (resolution_message code) (Some "anonymous").

Section Timeline.

Variable latency : Z -> Task -> Z.
Variables (id : nat) (code issueType : string).

(** The times of an arming at [armed_at]: the confirmation is answered,
    which is when the two timers are registered; the timers fire; their
    inserts are answered. *)
Definition confirmed_at (armed_at : Z) : Z :=
  (armed_at + latency armed_at (confirmation_task id code issueType))%Z.

Definition acknowledgement_lands_at (armed_at : Z) : Z :=
  let sent_at := (confirmed_at armed_at + 5000)%Z in
  (sent_at + latency sent_at (acknowledgement_task id code))%Z.

Definition resolution_lands_at (armed_at : Z) : Z :=
  let sent_at := (confirmed_at armed_at + 30000)%Z in
  (sent_at + latency sent_at (resolution_task id code))%Z.

(** The emissions of the arming: time sent and stage, in the order sent. *)
Definition emissions (armed_at : Z) : list (Z * Stage) :=
  [ (armed_at, confirmation);
    (confirmed_at armed_at + 5000, acknowledgement);
    (confirmed_at armed_at + 30000, resolution) ]%Z.

(** The answers: time answered and stage, in the order answered. Of the two
    delayed stages the one answered first comes first. *)
Definition landings (armed_at : Z) : list (Z * Stage) :=
  if (resolution_lands_at armed_at <? acknowledgement_lands_at armed_at)%Z
  then [ (confirmed_at armed_at, confirmation);
         (resolution_lands_at armed_at, resolution);
         (acknowledgement_lands_at armed_at, acknowledgement) ]
  else [ (confirmed_at armed_at, confirmation);
         (acknowledgement_lands_at armed_at, acknowledgement);
         (resolution_lands_at armed_at, resolution) ].

End Timeline.

(** The two timers the answer to a confirmation sent for [k] is followed
    by, when it comes in at [at_]. *)
Definition armed_timers (k : Task) (at_ : Z) : list Timer :=
  match k with
  | NotifyTask id code _ _ _ =>
      [acknowledgement_timer id code at_; resolution_timer id code at_]
  end.

(** What is pending for a complaint. *)
Definition own_timers (id : nat) (n : Net) : list Timer :=
  filter (mine id) (timers (sys n)).

Definition own_flights (id : nat) (n : Net) : list Flight :=
  filter (own id) (flights n).

(** Nothing that is pending for the complaint is overdue. *)
Definition punctual (id : nat) (n : Net) : Prop :=
  Forall (fun t => (now (sys n) <= fire_at t)%Z) (own_timers id n)
  /\ Forall (fun f => (now (sys n) <= lands_at f)%Z) (own_flights id n).

(** Only the complaint has anything pending. *)
Definition alone (id : nat) (n : Net) : Prop :=
  Forall (fun t => mine id t = true) (timers (sys n))
  /\ Forall (fun f => own id f = true) (flights n).

(** Two systems agree on a complaint: the same timers and inserts are
    pending for it, and what [a] has emitted and persisted for it is what
    [b] has, after [emitted_before] and [persisted_before]. *)
Definition agree (id : nat) (emitted_before : list (Z * Stage))
    (persisted_before : list Notification.t) (a b : Net) : Prop :=
  own_timers id a = own_timers id b
  /\ own_flights id a = own_flights id b
  /\ emissions_of id (sys a) = (emitted_before ++ emissions_of id (sys b))%list
  /\ rows_of id a = (persisted_before ++ rows_of id b)%list.

(** Whether a turn is one of the complaint, and the turn with the entries
    of other complaints left out. *)
Definition turn_own (id : nat) (u : Turn) : bool :=
  match u with
  | Land f _ => own id f
  | Fire t _ => mine id t
  end.

Definition restrict_turn (id : nat) (u : Turn) : Turn :=
  match u with
  | Land f rest => Land f (filter (own id) rest)
  | Fire t rest => Fire t (filter (mine id) rest)
  end.

(** Nothing is due at [deadline]. *)
Definition idle (deadline : Z) (n : Net) : Prop :=
  forall u, next n = Some u -> (deadline < turn_time u)%Z.


(** A sink that answers within the instant, and one that takes 30 s to
    answer an acknowledgement. *)
Definition instant : Z -> Task -> Z := fun _ _ => 0%Z.


(** A system with nothing in flight. *)
Definition of_sys (s : Sys) : Net := mkNet s [].

End Async.

(* ================================================================== *)
(** ** The rest of the component *)
(* ================================================================== *)

(** The [onClick] of the "Register New Complaint" button of the success
    view. *)
Definition registerNewComplaint : M unit :=
  setStep form ;;;
  setFormData (fun _ => FormData.mk "" "" "" "" "" "" "" None None).

(** The success toast of the earlier variant: its title ends in the party
    popper itself. *)
Definition toast_submitted_earlier (complaint_code : string) : Toast.t :=
  Toast.mk ("Report Submitted Successfully! " ++ party_popper)
           (Some ("Complaint ID: " ++ complaint_code))
           (Some variant_default).

(** [handleSubmit] of the earlier variant of the component: the form has
    no district, address or audio, the insert carries five columns and only
    [complaint_code] is read back, and nothing follows the insert. *)
Definition handleSubmit_earlier (svc : Service) : M unit :=
  fd <- gets (fun s => formData (ui s)) ;;
  if negb (JS.truthy (FormData.state fd))
     || negb (JS.truthy (FormData.city fd))
     || negb (JS.truthy (FormData.issueType fd))
     || negb (JS.truthy (FormData.description fd))
  then toast toast_missing_information
  else
    setIsSubmitting true ;;;
    try_finally
      (try_catch
         (mediaUrl <-
            match FormData.media fd with
            | Some media =>
                let fileExt := JS.split_dot_pop (file_name media) "" in
                t <- Date_now ;;
                let fileName := JS.show_Z t ++ "." ++ fileExt in
                up <- storage_upload svc "complaints" fileName media ;;
                match error up with
                | Some uploadError => throw uploadError
                | None =>
                    ret (Some (storage_getPublicUrl svc "complaints" fileName))
                end
            | None => ret None
            end ;;
          r <- complaints_insert svc
                 (NewComplaint.mk
                    (FormData.state fd) (FormData.city fd) None None
                    (FormData.issueType fd) (FormData.description fd)
                    mediaUrl None) ;;
          match error r with
          | Some e => throw e
          | None =>
              match data r with
              | None => throw TypeError
              | Some d =>
                  setComplaintId (Inserted.complaint_code d) ;;;
                  setStep success ;;;
                  toast (toast_submitted_earlier (Inserted.complaint_code d))
              end
          end)
         (fun e =>
            console_error "Error submitting complaint:" e ;;;
            toast toast_submission_failed))
      (setIsSubmitting false).

(** What the user can do with the component. The success view replaces the
    form, so the form controls exist only on the [form] step and the
    "Register New Complaint" button only on the [success] step; both file
    inputs are disabled while an analysis is pending. Picking a file runs
    the whole upload: the change handler, what the user does with the form
    meanwhile, then the reader's callback. *)
Inductive Action :=
| Form (ev : UiEvent)
| PickFile (file : option File) (meanwhile : list UiEvent)
| RegisterNew.

Definition perform (svc : Service) (a : Action) : M unit :=
  shown <- gets (fun s => step (ui s)) ;;
  match shown, a with
  | form, Form ev => dispatch svc ev
  | form, PickFile file meanwhile =>
      analyzing <- gets (fun s => isAnalyzing (ui s)) ;;
      if analyzing then ret tt
      else
        match file with
        | Some f => media_upload_session svc f meanwhile
        | None => _ <- handleMediaUpload svc None ;; ret tt
        end
  | success, RegisterNew => registerNewComplaint
  | _, _ => ret tt
  end.

Fixpoint perform_all (svc : Service) (acts : list Action) : M unit :=
  match acts with
  | [] => ret tt
  | a :: rest => perform svc a ;;; perform_all svc rest
  end.

(** A stored complaint has its required columns filled in. *)
Definition row_filled (r : Complaint.t) : Prop :=
  Complaint.state r <> "" /\ Complaint.city r <> ""
  /\ Complaint.issue_type r <> "" /\ Complaint.description r <> "".

(** The complaint store is in order: identifiers lie below the serial, no
    two rows share one, and every row has its required columns. *)
Definition store_ok (c : Cloud) : Prop :=
  fresh_serial c
  /\ NoDup (map Complaint.id (complaints c))
  /\ Forall row_filled (complaints c).

(** The keywords of the routing rules, in rule order. *)
Definition routing_keywords : list string :=
  concat (map fst routing_rules).

(** [sub] occurs in [s]. *)
Definition occurs_in (sub s : string) : Prop :=
  exists pre post, s = pre ++ sub ++ post.

(* ================================================================== *)
(** ** The notification bell: [NotificationSystem.tsx] *)
(* ================================================================== *)

Module Inbox.

(** The [Notification] interface of the component; [created_at] is kept as
    the time in milliseconds the ISO string is made from. *)
Record Item := mkItem {
  id : string;
  complaint_id : string;
  complaint_code : string;
  stage : Stage;
  message : string;
  created_at : Z;
  is_read : bool
}.

Definition with_is_read (v : bool) (n : Item) : Item :=
  mkItem (id n) (complaint_id n) (complaint_code n) (stage n) (message n)
         (created_at n) v.

(** The state of the component. *)
Record t := mk {
  notifications : list Item;
  unreadCount : Z;
  showNotifications : bool
}.

Definition initial : t := mk [] 0 false.

Definition mockNotifications (now : Z) : list Item :=
  [ mkItem "1" "mock-1" "NGR123456" confirmation
      "Your complaint NGR123456 for Street Light Issues has been registered successfully."
      now false;
    mkItem "2" "mock-2" "NGR123457" acknowledgement
      "Your complaint NGR123457 has been acknowledged and assigned to the appropriate department."
      (now - 60000) false ].

(** [list.filter(n => !n.is_read).length]. *)
Definition unread (l : list Item) : Z :=
  Z.of_nat (length (filter (fun n => negb (is_read n)) l)).

Definition fetchNotifications (now : Z) (st : t) : t :=
  let mock := mockNotifications now in
  mk mock (unread mock) (showNotifications st).

Definition markAsRead (notificationId : string) (st : t) : t :=
  mk (map (fun n => if String.eqb (id n) notificationId
                    then with_is_read true n else n)
          (notifications st))
     (Z.max 0 (unreadCount st - 1))
     (showNotifications st).

(** The effect run on mount: nothing is fetched without a [userId]. *)
Definition mount (userId : option string) (now : Z) (st : t) : t :=
  match userId with
  | Some u => if JS.truthy u then fetchNotifications now st else st
  | None => st
  end.

(** The bell button and the close button of the panel. *)
Definition toggle (st : t) : t :=
  mk (notifications st) (unreadCount st) (negb (showNotifications st)).

Definition close (st : t) : t :=
  mk (notifications st) (unreadCount st) false.

(** The badge on the bell: shown only for a positive count. *)
Definition badge (st : t) : option Z :=
  if (0 <? unreadCount st)%Z then Some (unreadCount st) else None.

(** A run of clicks on notifications of the panel. *)
Fixpoint click_all (ids : list string) (st : t) : t :=
  match ids with
  | [] => st
  | i :: rest => click_all rest (markAsRead i st)
  end.

End Inbox.

(* ================================================================== *)
(** ** Further observations used by the statements *)
(* ================================================================== *)

(** The blob a submission stores, if the form holds media. *)
Definition stored_blob (t : Z) (media : option File) : list (string * File) :=
  match media with
  | Some m => [(upload_name t m, m)]
  | None => []
  end.

Definition stored_url (svc : Service) (t : Z) (media : option File)
  : option string :=
  match media with
  | Some m => Some (public_url svc "complaints" (upload_name t m))
  | None => None
  end.

(** The row a successful submission leaves in the store. *)
Definition stored_row (svc : Service) (s : Sys) : Complaint.t :=
  let fd := formData (ui s) in
  let routed :=
    match mapAuthorityForIssue (FormData.issueType fd),
          complaint_update_error svc with
    | Some authority, None => (Assigned, Some authority)
    | _, _ => (Pending, None)
    end in
  Complaint.mk (serial (cloud s)) (code_of svc (serial (cloud s)))
    (FormData.state fd) (FormData.city fd)
    (JS.or_null (FormData.address1 fd)) (address_line2_of fd)
    (FormData.issueType fd) (FormData.description fd)
    (stored_url svc (now s) (FormData.media fd)) None
    (fst routed) (snd routed).

(** The collaborators' state only grows: every table keeps its rows, in
    order, and the serial does not go back. *)
Definition extends (c c' : Cloud) : Prop :=
  (exists more, complaints c' = (complaints c ++ more)%list)
  /\ (exists more, blobs c' = (blobs c ++ more)%list)
  /\ (exists more,
        complaint_status_updates c' = (complaint_status_updates c ++ more)%list)
  /\ (exists more, notifications c' = (notifications c ++ more)%list)
  /\ (exists more, requests c' = (requests c ++ more)%list)
  /\ serial c <= serial c'.

(** A step that keeps the store in order and only adds to it. *)
Definition safe (s s' : Sys) : Prop :=
  store_ok (cloud s) -> store_ok (cloud s') /\ extends (cloud s) (cloud s').

(** The component state apart from the toasts shown. *)
Definition without_toasts (c : Component) : Component :=
  mkComponent (step c) (complaintId c) (isSubmitting c) (isAnalyzing c)
              (isRecording c) (mediaRecorderRef c) (formData c) (fileInput c)
              [] (console c).

(** The errors the browser answers the clicks on Record with, in order. *)
Definition microphone_errors (evs : list UiEvent) : list Error :=
  flat_map (fun ev => match ev with
                      | ClickRecord (MicDenied e) => [e]
                      | ClickRecord (MicStartFailed e) => [e]
                      | _ => []
                      end) evs.

(** What [console.error] receives when a recording is refused. *)
Definition recording_error (e : Error) : string :=
  "Audio recording error: " ++ e.

(** The [user_id] column of a notification: [userId || 'anonymous']. *)
Definition user_or_anonymous (userId : option string) : string :=
  match userId with
  | Some u => JS.or u "anonymous"
  | None => "anonymous"
  end.


(** What [markAsRead] does to one notification of the list. *)
Definition marked (i : string) (n : Inbox.Item) : Inbox.Item :=
  if String.eqb (Inbox.id n) i then Inbox.with_is_read true n else n.

(** The number of unread notifications of a list. *)
Definition unread_len (l : list Inbox.Item) : nat :=
  length (filter (fun n => negb (Inbox.is_read n)) l).

(* ================================================================== *)
(** * Properties *)
(* ================================================================== *)

(** ** RoutingResolver *)

Lemma lower_upper_ascii (c : ascii) :
  JS.lower_ascii (JS.upper_ascii c) = JS.lower_ascii c.
Proof.
  destruct c as [[] [] [] [] [] [] [] []]; reflexivity.
Qed.

Lemma lower_lower_ascii (c : ascii) :
  JS.lower_ascii (JS.lower_ascii c) = JS.lower_ascii c.
Proof.
  destruct c as [[] [] [] [] [] [] [] []]; reflexivity.
Qed.

Lemma toLowerCase_toUpperCase (s : string) :
  JS.toLowerCase (JS.toUpperCase s) = JS.toLowerCase s.
Proof.
  induction s as [|c s IH]; simpl; [reflexivity|].
  now rewrite lower_upper_ascii, IH.
Qed.

Lemma toLowerCase_idempotent (s : string) :
  JS.toLowerCase (JS.toLowerCase s) = JS.toLowerCase s.
Proof.
  induction s as [|c s IH]; simpl; [reflexivity|].
  now rewrite lower_lower_ascii, IH.
Qed.

Lemma or_empty (s : string) : JS.or s "" = s.
Proof. now destruct s. Qed.

Lemma mapAuthorityForIssue_normalized (issue : string) :
  mapAuthorityForIssue issue = first_match routing_rules (JS.toLowerCase issue).
Proof.
  unfold mapAuthorityForIssue, routing_rules, first_match, existsb.
  rewrite or_empty, !orb_false_r. reflexivity.
Qed.

(** Every authority of the table is a non-empty string, so the test
    [if (authority)] of [handleSubmit] is a test for [null]. *)
Lemma truthy_authority_mapAuthorityForIssue (issue : string) :
  truthy_authority (mapAuthorityForIssue issue) = mapAuthorityForIssue issue.
Proof.
  unfold mapAuthorityForIssue.
  repeat match goal with
         | |- context [if ?b then _ else _] => destruct b
         end; reflexivity.
Qed.

(** C6. On the closed issue-type set the resolver returns: electricity, the
    power authority; water and drainage, the water authority; garbage, the
    municipal sanitation authority; pothole, the public-works authority;
    streetlight, the municipal lighting division; noise, the pollution/police
    authority; others, no authority. On every token it is the ordered,
    first-match-wins rule list of the specification (which also holds the
    road and transport rules) applied to the lower-cased token, and its
    answer does not depend on the case of the letters. *)
Theorem C6_routing_policy :
  mapAuthorityForIssue "electricity" = Some "Electricity Department"
  /\ mapAuthorityForIssue "water" = Some "Jal Board / Water Supply Department"
  /\ mapAuthorityForIssue "drainage" = Some "Jal Board / Water Supply Department"
  /\ mapAuthorityForIssue "garbage" = Some "Nagar Nigam / Municipal Corporation"
  /\ mapAuthorityForIssue "pothole" = Some "Public Works Department (PWD)"
  /\ mapAuthorityForIssue "streetlight"
     = Some "Nagar Nigam / Municipal Corporation (Street Lighting Division)"
  /\ mapAuthorityForIssue "noise"
     = Some "Pollution Control Board / Local Police Authority"
  /\ mapAuthorityForIssue "others" = None
  /\ mapAuthorityForIssue "road" = Some "Public Works Department (PWD)"
  /\ mapAuthorityForIssue "transport" = Some "Local Transport Authority / RTO"
  /\ (forall issue, mapAuthorityForIssue issue = resolve_policy issue)
  /\ (forall issue,
        mapAuthorityForIssue (JS.toUpperCase issue) = mapAuthorityForIssue issue)
  /\ (forall issue,
        mapAuthorityForIssue (JS.toLowerCase issue) = mapAuthorityForIssue issue).
Proof.
  repeat (split; [reflexivity|]).
  split; [|split]; intro issue.
  - apply mapAuthorityForIssue_normalized.
  - now rewrite !mapAuthorityForIssue_normalized, toLowerCase_toUpperCase.
  - now rewrite !mapAuthorityForIssue_normalized, toLowerCase_idempotent.
Qed.

(** ** SubmissionPipeline *)

Lemma truthy_true (v : string) : v <> "" -> JS.truthy v = true.
Proof. destruct v; simpl; congruence. Qed.

Lemma valid_guard (fd : FormData.t) :
  valid fd ->
  negb (JS.truthy (FormData.state fd))
    || negb (JS.truthy (FormData.city fd))
    || negb (JS.truthy (FormData.issueType fd))
    || negb (JS.truthy (FormData.description fd)) = false.
Proof.
  intros (A & B & C & D). now rewrite !truthy_true.
Qed.

Lemma missing_guard (fd : FormData.t) :
  FormData.state fd = "" \/ FormData.city fd = ""
  \/ FormData.issueType fd = "" \/ FormData.description fd = "" ->
  negb (JS.truthy (FormData.state fd))
    || negb (JS.truthy (FormData.city fd))
    || negb (JS.truthy (FormData.issueType fd))
    || negb (JS.truthy (FormData.description fd)) = true.
Proof.
  intros [H|[H|[H|H]]]; rewrite H; simpl; rewrite ?orb_true_r; reflexivity.
Qed.

(** An update addressed to a fresh identifier touches no earlier row. *)
Lemma map_fresh (f : Complaint.t -> Complaint.t) (n : nat)
    (l : list Complaint.t) :
  Forall (fun r => Complaint.id r < n) l ->
  map (fun c => if Nat.eqb (Complaint.id c) n then f c else c) l = l.
Proof.
  induction 1 as [|c l Hc _ IH]; simpl; [reflexivity|].
  rewrite IH. destruct (Nat.eqb_spec (Complaint.id c) n); [lia|reflexivity].
Qed.

Ltac run_handler :=
  unfold exec, handleSubmit, storage_upload, complaints_insert,
    complaints_update, status_updates_insert, log_request, Date_now,
    setIsSubmitting, setComplaintId, setStep, toast, console_error,
    try_finally, try_catch, bind, ret, gets, modify, throw.

(** What a submission leaves when the blob store and the complaint insert
    answer: the caller sees the success step, the generated code and the
    success toast, whatever the two routing writes answer. *)
Lemma handleSubmit_accepted (svc : Service) (s : Sys) :
  valid (formData (ui s)) ->
  upload_ok svc (formData (ui s)) ->
  complaint_insert_error svc = None ->
  let s' := exec (handleSubmit svc) s in
  let code := code_of svc (serial (cloud s)) in
  handleSubmit svc s = (Done tt, s')
  /\ step (ui s') = success
  /\ complaintId (ui s') = code
  /\ toasts (ui s') = (toasts (ui s) ++ [toast_submitted code])%list
  /\ console (ui s') = console (ui s)
  /\ isSubmitting (ui s') = false
  /\ notifications (cloud s') = notifications (cloud s)
  /\ timers s' = timers s
  /\ now s' = now s
  /\ (forall id, emissions_of id s' = emissions_of id s)
  /\ exists row,
       In row (complaints (cloud s'))
       /\ Complaint.id row = serial (cloud s)
       /\ Complaint.complaint_code row = code.
Proof.
  intros V U I.
  run_handler. rewrite (valid_guard _ V), I.
  rewrite truthy_authority_mapAuthorityForIssue.
  destruct U as [U|U]; [rewrite U | rewrite U; destruct (FormData.media _)];
    destruct (mapAuthorityForIssue _);
    destruct (complaint_update_error svc), (status_insert_error svc); simpl;
    (repeat split;
     [ intros id; unfold emissions_of; simpl;
       rewrite !flat_map_app; simpl; now rewrite !app_nil_r
     | eexists;
       (split; [rewrite ?map_app, ?in_app_iff; simpl; rewrite ?Nat.eqb_refl;
                right; left; reflexivity
               | split; reflexivity]) ]).
Qed.

(** C1. When one of [state], [city], [issueType], [description] is empty (the
    value an untouched field holds), [handleSubmit] returns after the
    "Missing Information" toast: the collaborators' state is untouched, so no
    request was sent and no row written to the complaint store, the blob
    store or the notification sink, and the component stays on the form. *)
Theorem C1_validation_before_any_call (svc : Service) (s : Sys) :
  FormData.state (formData (ui s)) = ""
  \/ FormData.city (formData (ui s)) = ""
  \/ FormData.issueType (formData (ui s)) = ""
  \/ FormData.description (formData (ui s)) = "" ->
  let s' := exec (handleSubmit svc) s in
  handleSubmit svc s = (Done tt, s')
  /\ toasts (ui s') = (toasts (ui s) ++ [toast_missing_information])%list
  /\ cloud s' = cloud s
  /\ requests (cloud s') = requests (cloud s)
  /\ complaints (cloud s') = complaints (cloud s)
  /\ blobs (cloud s') = blobs (cloud s)
  /\ notifications (cloud s') = notifications (cloud s)
  /\ timers s' = timers s
  /\ step (ui s') = step (ui s)
  /\ complaintId (ui s') = complaintId (ui s).
Proof.
  intros H.
  unfold exec, handleSubmit, bind, gets.
  rewrite (missing_guard _ H). simpl. repeat split.
Qed.

Lemma C1_validation_before_any_call_witness :
  let s := sys_with (FormData.with_city "" sample_form) in
  let s' := exec (handleSubmit service_up) s in
  toasts (ui s') = [toast_missing_information] /\ cloud s' = empty_cloud.
Proof.
  pose proof (C1_validation_before_any_call service_up
                (sys_with (FormData.with_city "" sample_form))
                (or_intror (or_introl eq_refl))) as H.
  cbv zeta in H. destruct H as (_ & T & C & _).
  split; [exact T | exact C].
Defined.

(** C2. Once the complaint row is inserted, the caller receives the success
    result with the generated code whatever the two routing writes answer,
    in particular when the update to [Assigned] or the status-history insert
    fails: the handler completes, the step is [success], [complaintId] and
    the toast carry the code, nothing is logged as an error, and the row is
    in the store. *)
Theorem C2_routing_failure_swallowed (svc : Service) (s : Sys) :
  valid (formData (ui s)) ->
  upload_ok svc (formData (ui s)) ->
  complaint_insert_error svc = None ->
  let s' := exec (handleSubmit svc) s in
  let code := code_of svc (serial (cloud s)) in
  handleSubmit svc s = (Done tt, s')
  /\ step (ui s') = success
  /\ complaintId (ui s') = code
  /\ last_toast s' = Some (toast_submitted code)
  /\ console (ui s') = console (ui s)
  /\ exists row,
       In row (complaints (cloud s'))
       /\ Complaint.id row = serial (cloud s)
       /\ Complaint.complaint_code row = code.
Proof.
  intros V U I.
  destruct (handleSubmit_accepted svc s V U I)
    as (R & St & Id & T & C & _ & _ & _ & _ & _ & Row).
  repeat split; try assumption.
  unfold last_toast. rewrite T, map_app. simpl. apply last_last.
Qed.

Lemma sample_form_valid : valid sample_form.
Proof. repeat split; discriminate. Qed.

Lemma C2_routing_failure_swallowed_witness :
  complaint_update_error service_routing_down <> None
  /\ status_insert_error service_routing_down <> None
  /\ let s' := exec (handleSubmit service_routing_down) (sys_with sample_form) in
     step (ui s') = success
     /\ complaintId (ui s') = "NGR100000"
     /\ last_toast s' = Some (toast_submitted "NGR100000").
Proof.
  split; [discriminate | split; [discriminate|]].
  destruct (C2_routing_failure_swallowed service_routing_down
              (sys_with sample_form) sample_form_valid
              (or_introl eq_refl) eq_refl)
    as (_ & St & Id & T & _).
  cbv zeta. split; [exact St | split; [exact Id | exact T]].
Defined.

(** The claim of C3 as it is stated fails: with the status-history insert
    refused, the submission succeeds and the complaint is [Assigned] to the
    authority, yet no StatusUpdate row exists. The two writes are separate
    requests, not one atomic step. *)
Lemma C3_not_atomic_counterexample :
  let s' := exec (handleSubmit service_history_down) (sys_with sample_form) in
  mapAuthorityForIssue (FormData.issueType sample_form)
    = Some "Electricity Department"
  /\ step (ui s') = success
  /\ map Complaint.status (complaints (cloud s')) = [Assigned]
  /\ map Complaint.assigned_to (complaints (cloud s'))
     = [Some "Electricity Department"]
  /\ complaint_status_updates (cloud s') = [].
Proof. repeat split. Qed.

(** C3, amended. For every successful submission whose issue type resolves
    to an authority, the pipeline sends the update to [Assigned] and then the
    insert of one StatusUpdate row carrying the authority and the note
    "Auto-routed based on issue type: <issueType>", as two separate writes
    that each take effect or fail on their own: when both succeed the
    complaint is [Assigned] to the authority and exactly one StatusUpdate row
    is appended. For every successful submission whose issue type resolves to
    no authority the complaint remains [Pending], unassigned, and no
    StatusUpdate row is created. *)
Theorem C3_routing_two_writes (svc : Service) (s : Sys) :
  valid (formData (ui s)) ->
  upload_ok svc (formData (ui s)) ->
  complaint_insert_error svc = None ->
  fresh_serial (cloud s) ->
  let s' := exec (handleSubmit svc) s in
  let id := serial (cloud s) in
  let issueType := FormData.issueType (formData (ui s)) in
  step (ui s') = success
  /\ exists row,
       complaints (cloud s') = (complaints (cloud s) ++ [row])%list
       /\ Complaint.id row = id
       /\ Complaint.issue_type row = issueType
       /\ match mapAuthorityForIssue issueType with
          | Some authority =>
              Complaint.status row
                = match complaint_update_error svc with
                  | None => Assigned
                  | Some _ => Pending
                  end
              /\ Complaint.assigned_to row
                 = match complaint_update_error svc with
                   | None => Some authority
                   | Some _ => None
                   end
              /\ complaint_status_updates (cloud s')
                 = (complaint_status_updates (cloud s)
                    ++ match status_insert_error svc with
                       | None =>
                           [StatusUpdate.mk id Assigned (Some authority)
                              ("Auto-routed based on issue type: "
                                 ++ issueType)%string
                              (now s)]
                       | Some _ => []
                       end)%list
              /\ exists before,
                   requests (cloud s')
                   = (before
                      ++ [(now s, ReqUpdateComplaint id Assigned authority);
                          (now s, ReqInsertStatusUpdate id Assigned authority)])%list
          | None =>
              Complaint.status row = Pending
              /\ Complaint.assigned_to row = None
              /\ complaint_status_updates (cloud s')
                 = complaint_status_updates (cloud s)
          end.
Proof.
  intros V U I F. unfold fresh_serial in F.
  run_handler. rewrite (valid_guard _ V), I.
  rewrite truthy_authority_mapAuthorityForIssue.
  destruct U as [U|U]; [rewrite U | rewrite U; destruct (FormData.media _)];
    destruct (mapAuthorityForIssue _);
    destruct (complaint_update_error svc), (status_insert_error svc); simpl;
    rewrite ?map_app, ?(map_fresh _ _ _ F), ?app_nil_r; simpl;
    rewrite ?Nat.eqb_refl;
    (split; [reflexivity|]); eexists;
    (split; [reflexivity|]); simpl; (split; [reflexivity|]); (split; [reflexivity|]).
  all: repeat split; rewrite ?app_nil_r; try reflexivity.
  all: eexists; rewrite <- app_assoc; reflexivity.
Qed.

Lemma C3_routing_two_writes_witness :
  valid sample_form
  /\ fresh_serial empty_cloud
  /\ let s' := exec (handleSubmit service_up) (sys_with sample_form) in
     step (ui s') = success
     /\ exists row,
          complaints (cloud s') = [row]
          /\ Complaint.status row = Assigned
          /\ Complaint.assigned_to row = Some "Electricity Department"
          /\ map StatusUpdate.note (complaint_status_updates (cloud s'))
             = ["Auto-routed based on issue type: electricity"].
Proof.
  split; [exact sample_form_valid | split; [constructor|]].
  destruct (C3_routing_two_writes service_up (sys_with sample_form)
              sample_form_valid (or_introl eq_refl) eq_refl
              (Forall_nil _))
    as (St & row & Hc & _ & _ & Hm).
  cbv zeta. split; [exact St|].
  exists row. split; [exact Hc|].
  change (mapAuthorityForIssue (FormData.issueType (formData (ui (sys_with sample_form)))))
    with (Some "Electricity Department") in Hm.
  destruct Hm as (Hs & Ha & Hu & _).
  split; [exact Hs | split; [exact Ha|]].
  rewrite Hu. reflexivity.
Defined.

(** C7. With media attached and the upload refused, the submission is
    aborted: the upload error is what the handler throws and logs, the user
    sees the failure toast and stays on the form, the upload is the only
    request sent, and no complaint row (nor any other row) is written. *)
Theorem C7_upload_failure_aborts (svc : Service) (s : Sys) (m : File)
    (e : Error) :
  valid (formData (ui s)) ->
  FormData.media (formData (ui s)) = Some m ->
  upload_error svc = Some e ->
  let s' := exec (handleSubmit svc) s in
  handleSubmit svc s = (Done tt, s')
  /\ complaints (cloud s') = complaints (cloud s)
  /\ complaint_status_updates (cloud s') = complaint_status_updates (cloud s)
  /\ notifications (cloud s') = notifications (cloud s)
  /\ blobs (cloud s') = blobs (cloud s)
  /\ requests (cloud s')
     = (requests (cloud s)
        ++ [(now s, ReqUpload "complaints" (upload_name (now s) m))])%list
  /\ console (ui s')
     = (console (ui s) ++ [("Error submitting complaint: " ++ e)%string])%list
  /\ last_toast s' = Some toast_submission_failed
  /\ step (ui s') = step (ui s)
  /\ complaintId (ui s') = complaintId (ui s).
Proof.
  intros V Hm He.
  run_handler. rewrite (valid_guard _ V), Hm, He. simpl.
  repeat split.
  unfold last_toast. simpl. rewrite map_app. simpl. apply last_last.
Qed.

Lemma C7_upload_failure_aborts_witness :
  let fd := FormData.with_media (Some sample_photo) sample_form in
  valid fd
  /\ let s' := exec (handleSubmit service_storage_down) (sys_with fd) in
     complaints (cloud s') = []
     /\ last_toast s' = Some toast_submission_failed
     /\ step (ui s') = form.
Proof.
  cbv zeta. split; [repeat split; discriminate|].
  destruct (C7_upload_failure_aborts service_storage_down
              (sys_with (FormData.with_media (Some sample_photo) sample_form))
              sample_photo "bucket unavailable"
              ltac:(repeat split; discriminate) eq_refl eq_refl)
    as (_ & Hc & _ & _ & _ & _ & _ & Ht & Hs & _).
  split; [exact Hc | split; [exact Ht | exact Hs]].
Defined.

(** ** MediaAnalysisGate *)

Ltac run_ui :=
  unfold exec, dispatch, handleStartRecording, handleStopRecording, onloadend,
    handleMediaUpload, functions_invoke, log_request, setFormData,
    setIsAnalyzing, setIsRecording, setMediaRecorderRef, setFileInput, toast,
    Date_now, console_error, try_finally, try_catch, bind, ret, gets, modify,
    throw.

Lemma incl_nil_singleton {A} (l : list A) : incl [] l.
Proof. intros x []. Qed.

(** While an analysis is pending the description field and the submit button
    are disabled and no file can be chosen; the audio controls are not
    disabled. Whatever the user does, the description, the held media and
    everything outside the form stay as they are, and the only toasts and log
    entries that can appear are those of a refused recording. *)
Lemma dispatch_while_analyzing (svc : Service) (ev : UiEvent) (s : Sys) :
  isAnalyzing (ui s) = true ->
  let s' := exec (dispatch svc ev) s in
  dispatch svc ev s = (Done tt, s')
  /\ isAnalyzing (ui s') = true
  /\ FormData.description (formData (ui s')) = FormData.description (formData (ui s))
  /\ FormData.media (formData (ui s')) = FormData.media (formData (ui s))
  /\ (exists errs,
        incl errs (microphone_errors [ev])
        /\ toasts (ui s')
           = (toasts (ui s) ++ map (fun _ => toast_microphone_denied) errs)%list
        /\ console (ui s') = (console (ui s) ++ map recording_error errs)%list)
  /\ isSubmitting (ui s') = isSubmitting (ui s)
  /\ step (ui s') = step (ui s)
  /\ cloud s' = cloud s.
Proof.
  intros A.
  assert (Quiet : forall s' : Sys,
             toasts (ui s') = toasts (ui s) -> console (ui s') = console (ui s) ->
             exists errs,
               incl errs (microphone_errors [ev])
               /\ toasts (ui s')
                  = (toasts (ui s) ++ map (fun _ => toast_microphone_denied) errs)%list
               /\ console (ui s') = (console (ui s) ++ map recording_error errs)%list).
  { intros s' T C. exists []. simpl. rewrite !app_nil_r.
    split; [apply incl_nil_singleton|split; assumption]. }
  destruct ev as [v|v|v|v|v|v|a|browser|recorded|v|]; run_ui;
    rewrite ?A, ?orb_true_r; cbn [ui isRecording mediaRecorderRef];
    try (simpl; repeat split; try assumption; apply Quiet; reflexivity).
  - (* Record *)
    destruct (isRecording (ui s)) eqn:Rec.
    + simpl. repeat split; try assumption. apply Quiet; reflexivity.
    + destruct browser as [e|e|]; simpl; repeat split; try assumption;
        try (apply Quiet; reflexivity);
        exists [e]; (split; [apply incl_refl|split; reflexivity]).
  - (* Stop *)
    destruct (isRecording (ui s)) eqn:Rec;
      destruct (mediaRecorderRef (ui s)) eqn:Held; simpl;
      rewrite ?Rec, ?Held; simpl; repeat split;
      try assumption; apply Quiet; reflexivity.
Qed.

Lemma dispatch_all_cons (svc : Service) (ev : UiEvent) (evs : list UiEvent)
    (s : Sys) :
  dispatch svc ev s = (Done tt, exec (dispatch svc ev) s) ->
  dispatch_all svc (ev :: evs) s
  = dispatch_all svc evs (exec (dispatch svc ev) s).
Proof.
  intros R. simpl. unfold bind. rewrite R. reflexivity.
Qed.

Lemma dispatch_all_while_analyzing (svc : Service) (evs : list UiEvent) :
  forall s,
  isAnalyzing (ui s) = true ->
  let s' := exec (dispatch_all svc evs) s in
  dispatch_all svc evs s = (Done tt, s')
  /\ isAnalyzing (ui s') = true
  /\ FormData.description (formData (ui s')) = FormData.description (formData (ui s))
  /\ FormData.media (formData (ui s')) = FormData.media (formData (ui s))
  /\ (exists errs,
        incl errs (microphone_errors evs)
        /\ toasts (ui s')
           = (toasts (ui s) ++ map (fun _ => toast_microphone_denied) errs)%list
        /\ console (ui s') = (console (ui s) ++ map recording_error errs)%list)
  /\ isSubmitting (ui s') = isSubmitting (ui s)
  /\ step (ui s') = step (ui s)
  /\ cloud s' = cloud s.
Proof.
  induction evs as [|ev evs IH]; intros s A.
  - repeat split; try assumption.
    exists []. simpl. rewrite !app_nil_r. repeat split. apply incl_refl.
  - destruct (dispatch_while_analyzing svc ev s A)
      as (R & A1 & D1 & M1 & (e1 & I1 & T1 & C1) & S1 & P1 & L1).
    assert (E : exec (dispatch_all svc (ev :: evs)) s
                = exec (dispatch_all svc evs) (exec (dispatch svc ev) s))
      by (unfold exec at 1; now rewrite dispatch_all_cons).
    cbv zeta. rewrite E, (dispatch_all_cons svc ev evs s R).
    destruct (IH _ A1) as (R' & A2 & D2 & M2 & (e2 & I2 & T2 & C2) & S2 & P2 & L2).
    split; [exact R'|]. split; [exact A2|].
    split; [congruence|]. split; [congruence|].
    split; [|repeat split; congruence].
    exists (e1 ++ e2)%list. split; [|split].
    + assert (Split : microphone_errors (ev :: evs)
                      = (microphone_errors [ev] ++ microphone_errors evs)%list)
        by (unfold microphone_errors; simpl; now rewrite app_nil_r).
      rewrite Split.
      apply incl_app; [apply incl_appl|apply incl_appr]; assumption.
    + rewrite T2, T1, map_app, app_assoc. reflexivity.
    + rewrite C2, C1, map_app, app_assoc. reflexivity.
Qed.

Lemma handleMediaUpload_started (svc : Service) (f : File) (s : Sys) :
  FormData.issueType (formData (ui s)) <> "" ->
  let s' := exec (handleMediaUpload svc (Some f)) s in
  handleMediaUpload svc (Some f) s
  = (Done (Some (onloadend svc f (FormData.issueType (formData (ui s))))), s')
  /\ isAnalyzing (ui s') = true
  /\ formData (ui s')
     = FormData.with_description "" (FormData.with_media (Some f) (formData (ui s)))
  /\ toasts (ui s') = toasts (ui s)
  /\ console (ui s') = console (ui s)
  /\ isSubmitting (ui s') = isSubmitting (ui s)
  /\ step (ui s') = step (ui s)
  /\ cloud s' = cloud s.
Proof.
  intros I. run_ui. rewrite (truthy_true _ I). simpl. repeat split.
Qed.

(** The state in which the answer of the classification service arrives. *)
Lemma media_upload_pending_state (svc : Service) (f : File)
    (evs : list UiEvent) (s : Sys) :
  FormData.issueType (formData (ui s)) <> "" ->
  let s' := exec (media_upload_pending svc f evs) s in
  media_upload_pending svc f evs s
  = (Done (Some (onloadend svc f (FormData.issueType (formData (ui s))))), s')
  /\ isAnalyzing (ui s') = true
  /\ FormData.description (formData (ui s')) = ""
  /\ FormData.media (formData (ui s')) = Some f
  /\ (exists errs,
        incl errs (microphone_errors evs)
        /\ toasts (ui s')
           = (toasts (ui s) ++ map (fun _ => toast_microphone_denied) errs)%list
        /\ console (ui s') = (console (ui s) ++ map recording_error errs)%list)
  /\ isSubmitting (ui s') = isSubmitting (ui s)
  /\ step (ui s') = step (ui s)
  /\ cloud s' = cloud s.
Proof.
  intros I.
  destruct (handleMediaUpload_started svc f s I)
    as (R & A1 & F1 & T1 & C1 & S1 & P1 & L1).
  destruct (dispatch_all_while_analyzing svc evs _ A1)
    as (R' & A2 & D2 & M2 & (errs & I2 & T2 & C2) & S2 & P2 & L2).
  assert (E : media_upload_pending svc f evs s
              = (Done (Some (onloadend svc f
                               (FormData.issueType (formData (ui s))))),
                 exec (dispatch_all svc evs)
                      (exec (handleMediaUpload svc (Some f)) s))).
  { unfold media_upload_pending, bind. rewrite R, R'. reflexivity. }
  assert (E' : exec (media_upload_pending svc f evs) s
               = exec (dispatch_all svc evs)
                      (exec (handleMediaUpload svc (Some f)) s))
    by (unfold exec at 1; now rewrite E).
  cbv zeta. rewrite E'. split; [exact E|]. split; [exact A2|].
  split; [now rewrite D2, F1|]. split; [now rewrite M2, F1|].
  split; [exists errs; rewrite T2, C2, T1, C1; repeat split; assumption|].
  repeat split; congruence.
Qed.

(** What the callback does with each answer, from any state. *)
Lemma onloadend_failed (svc : Service) (f : File) (issueType : string)
    (s : Sys) :
  analysis_failed svc ->
  let s' := exec (onloadend svc f issueType) s in
  onloadend svc f issueType s = (Done tt, s')
  /\ formData (ui s') = formData (ui s)
  /\ toasts (ui s') = (toasts (ui s) ++ [toast_analysis_failed])%list
  /\ (exists e, console (ui s')
                = (console (ui s) ++ [("Error analyzing image: " ++ e)%string])%list)
  /\ isAnalyzing (ui s') = false
  /\ isSubmitting (ui s') = isSubmitting (ui s)
  /\ step (ui s') = step (ui s).
Proof.
  intros [E|E]; run_ui.
  - destruct (error (analysis svc)) as [e|]; [|congruence]. simpl.
    repeat split. now exists e.
  - rewrite E. destruct (error (analysis svc)) as [e|]; simpl;
      repeat split; eexists; reflexivity.
Qed.

Lemma onloadend_answered (svc : Service) (f : File) (issueType : string)
    (d : Analysis.t) (s : Sys) :
  analysis svc = resolved d ->
  let s' := exec (onloadend svc f issueType) s in
  onloadend svc f issueType s = (Done tt, s')
  /\ formData (ui s')
     = (if JS.truthy_flag (Analysis.is_relevant d)
        then FormData.with_description (JS.text (Analysis.description d))
               (formData (ui s))
        else FormData.with_media None (formData (ui s)))
  /\ toasts (ui s')
     = (toasts (ui s)
        ++ [if JS.truthy_flag (Analysis.is_relevant d) then toast_analyzed
            else toast_irrelevant (Analysis.reason d)])%list
  /\ console (ui s') = console (ui s)
  /\ isAnalyzing (ui s') = false.
Proof.
  intros E. run_ui. rewrite E. simpl.
  destruct (JS.truthy_flag (Analysis.is_relevant d)); simpl; repeat split.
Qed.

Lemma truthy_flag_false (v : option bool) :
  v <> Some true -> JS.truthy_flag v = false.
Proof. destruct v as [[]|]; [congruence|reflexivity..]. Qed.

Lemma truthy_flag_true (v : option bool) :
  JS.truthy_flag v = true -> v = Some true.
Proof. destruct v as [[]|]; [reflexivity|discriminate..]. Qed.

Lemma media_upload_session_unfold (svc : Service) (f : File)
    (evs : list UiEvent) (s : Sys) :
  FormData.issueType (formData (ui s)) <> "" ->
  media_upload_session svc f evs s
  = onloadend svc f (FormData.issueType (formData (ui s)))
      (exec (media_upload_pending svc f evs) s).
Proof.
  intros I.
  destruct (media_upload_pending_state svc f evs s I) as (R & _).
  unfold media_upload_session, bind. rewrite R. reflexivity.
Qed.

Lemma media_upload_session_exec (svc : Service) (f : File)
    (evs : list UiEvent) (s : Sys) :
  FormData.issueType (formData (ui s)) <> "" ->
  exec (media_upload_session svc f evs) s
  = exec (onloadend svc f (FormData.issueType (formData (ui s))))
         (exec (media_upload_pending svc f evs) s).
Proof.
  intros I. unfold exec at 1. now rewrite media_upload_session_unfold.
Qed.

Lemma last_toast_snoc (s : Sys) (ts : list Toast.t) (t : Toast.t) :
  toasts (ui s) = (ts ++ [t])%list -> last_toast s = Some t.
Proof.
  intros E. unfold last_toast. rewrite E, map_app. simpl. apply last_last.
Qed.

Lemma response_cases {A} (r : Response A) :
  (error r <> None \/ data r = None) \/ exists d, r = resolved d.
Proof.
  destruct r as [[d|] [e|]]; simpl.
  - left. left. discriminate.
  - right. now exists d.
  - left. left. discriminate.
  - left. now right.
Qed.

(** The irrelevant verdict does not leave the description untouched from
    before the upload attempt: the handler emptied it when the upload began
    and the callback does not put it back. *)
Lemma C8_description_not_restored_counterexample :
  let s := sys_with sample_form in
  let s' := exec (media_upload_session service_rejecting sample_photo []) s in
  analysis service_rejecting
    = resolved (Analysis.mk (Some false) None (Some "The photo shows a cat"))
  /\ FormData.description (formData (ui s)) = "No power since morning"
  /\ FormData.media (formData (ui s')) = None
  /\ FormData.description (formData (ui s')) = ""
  /\ FormData.description (formData (ui s'))
     <> FormData.description (formData (ui s)).
Proof. repeat split. discriminate. Qed.

(** C8, amended. For every media upload analyzed by the gate: if the answer
    is relevant with description D, the description field becomes D (and the
    media is kept); if the answer is irrelevant, the held media reference is
    cleared and the description field stays empty, as the handler left it
    when the upload began; the description from before the upload attempt is
    not restored. This holds whatever the user does with the form while the
    analysis is pending. *)
Theorem C8_image_gate_branching (svc : Service) (f : File)
    (evs : list UiEvent) (d : Analysis.t) (s : Sys) :
  FormData.issueType (formData (ui s)) <> "" ->
  analysis svc = resolved d ->
  let s' := exec (media_upload_session svc f evs) s in
  (Analysis.is_relevant d = Some true ->
     FormData.description (formData (ui s')) = JS.text (Analysis.description d)
     /\ (forall D, Analysis.description d = Some D ->
           FormData.description (formData (ui s')) = D)
     /\ FormData.media (formData (ui s')) = Some f
     /\ last_toast s' = Some toast_analyzed)
  /\ (Analysis.is_relevant d = Some false ->
        FormData.media (formData (ui s')) = None
        /\ FormData.description (formData (ui s')) = ""
        /\ last_toast s' = Some (toast_irrelevant (Analysis.reason d))).
Proof.
  intros I E.
  destruct (media_upload_pending_state svc f evs s I)
    as (_ & _ & D & M & _).
  cbv zeta. rewrite (media_upload_session_exec svc f evs s I).
  destruct (onloadend_answered svc f (FormData.issueType (formData (ui s))) d
              (exec (media_upload_pending svc f evs) s) E)
    as (_ & F & T & _).
  split; intros R; rewrite R in F, T; cbn [JS.truthy_flag] in F, T;
    rewrite F; simpl.
  - split; [reflexivity|]. split; [now intros D' ->|].
    split; [assumption|exact (last_toast_snoc _ _ _ T)].
  - split; [reflexivity|]. split; [assumption|exact (last_toast_snoc _ _ _ T)].
Qed.

Lemma C8_image_gate_branching_witness :
  let d := Analysis.mk (Some true) (Some "Street light pole is broken") None in
  let s' :=
    exec (media_upload_session service_up sample_photo []) (sys_with sample_form) in
  FormData.issueType sample_form <> ""
  /\ analysis service_up = resolved d
  /\ FormData.description (formData (ui s')) = "Street light pole is broken".
Proof.
  cbv zeta. split; [discriminate | split; [reflexivity|]].
  destruct (C8_image_gate_branching service_up sample_photo []
              (Analysis.mk (Some true) (Some "Street light pole is broken") None)
              (sys_with sample_form)
              ltac:(discriminate) eq_refl) as (H & _).
  exact (proj1 (H eq_refl)).
Defined.

Lemma toast_analysis_failed_distinct :
  toast_analysis_failed <> toast_analyzed
  /\ forall reason, toast_analysis_failed <> toast_irrelevant reason.
Proof.
  split; [discriminate|]. intros reason. unfold toast_irrelevant. discriminate.
Qed.

(** The claim of C9 as it is stated fails for a response that parses but is
    not of the expected shape. The classification service answers [{}]: no
    error is reported and the body is an object, so the handler reads
    [data.is_relevant], finds it falsy and takes the branch of an irrelevant
    image. The user is told "Irrelevant Image Detected", not "AI Analysis
    Failed", the held media is dropped and nothing is logged. *)
Lemma C9_malformed_body_counterexample :
  let s := sys_with sample_form in
  let s' := exec (media_upload_session service_malformed sample_photo []) s in
  analysis service_malformed = resolved (Analysis.mk None None None)
  /\ toasts (ui s')
     = [Toast.mk "Irrelevant Image Detected"
          (Some "Please upload an image related to the selected issue.")
          (Some variant_destructive)]
  /\ last_toast s' <> Some toast_analysis_failed
  /\ FormData.media (formData (ui s')) = None
  /\ console (ui s') = [].
Proof. repeat split. discriminate. Qed.

(** C9, amended. When the classification request fails, that is when an
    error comes back (the service is unreachable, or the client could not
    read the response) or no body at all, the upload ends with the "AI
    Analysis Failed" toast, which is neither the irrelevant-image toast nor
    the success one, and the error is logged. The analysis is no longer
    pending, so the description field accepts manual entry and the submit
    button is enabled: once the user has typed a description, a click on
    submit runs the pipeline, which succeeds when the stores accept.
    A body that comes back without an error is not checked for its shape:
    it counts as a verdict, and unless its [is_relevant] is true the branch
    of an irrelevant image runs, where the held media is cleared and nothing
    is logged. *)
Theorem C9_analysis_failure_degrades (svc : Service) (f : File)
    (evs : list UiEvent) (s : Sys) :
  FormData.issueType (formData (ui s)) <> "" ->
  let arrived := exec (media_upload_pending svc f evs) s in
  let s' := exec (media_upload_session svc f evs) s in
  (analysis_failed svc ->
     media_upload_session svc f evs s = (Done tt, s')
     /\ last_toast s' = Some toast_analysis_failed
     /\ toast_analysis_failed <> toast_analyzed
     /\ (forall reason, toast_analysis_failed <> toast_irrelevant reason)
     /\ (exists e, console (ui s')
                   = (console (ui arrived)
                      ++ [("Error analyzing image: " ++ e)%string])%list)
     /\ isAnalyzing (ui s') = false
     /\ (forall d,
           formData (ui (exec (dispatch svc (ChangeDescription d)) s'))
           = FormData.with_description d (formData (ui s')))
     /\ (forall d,
           valid (FormData.with_description d (formData (ui s'))) ->
           isSubmitting (ui s) = false ->
           upload_error svc = None ->
           complaint_insert_error svc = None ->
           step (ui (exec (dispatch_all svc [ChangeDescription d; ClickSubmit]) s'))
           = success))
  /\ (forall d,
        analysis svc = resolved d ->
        Analysis.is_relevant d <> Some true ->
        media_upload_session svc f evs s = (Done tt, s')
        /\ last_toast s' = Some (toast_irrelevant (Analysis.reason d))
        /\ FormData.media (formData (ui s')) = None
        /\ FormData.description (formData (ui s')) = ""
        /\ console (ui s') = console (ui arrived)
        /\ isAnalyzing (ui s') = false).
Proof.
  intros I.
  destruct (media_upload_pending_state svc f evs s I)
    as (_ & _ & D & M & _ & Sb & _).
  cbv zeta. rewrite (media_upload_session_exec svc f evs s I),
    (media_upload_session_unfold svc f evs s I).
  split.
  - intros Fail.
    destruct (onloadend_failed svc f (FormData.issueType (formData (ui s)))
                (exec (media_upload_pending svc f evs) s) Fail)
      as (R & Fd & T & (e & Ce) & A & Sb' & _).
    set (s' := exec (onloadend svc f (FormData.issueType (formData (ui s))))
                    (exec (media_upload_pending svc f evs) s)) in *.
    assert (Edit : forall d,
               dispatch svc (ChangeDescription d) s'
               = setFormData (FormData.with_description d) s').
    { intros d. unfold dispatch, bind, gets. now rewrite A. }
    split; [exact R|].
    split; [exact (last_toast_snoc _ _ _ T)|].
    split; [exact (proj1 toast_analysis_failed_distinct)|].
    split; [exact (proj2 toast_analysis_failed_distinct)|].
    split; [exists e; exact Ce|].
    split; [exact A|].
    split.
    + intros d. unfold exec. rewrite Edit. reflexivity.
    + intros d V Idle Up Ins.
      unfold exec, dispatch_all, bind. rewrite Edit.
      unfold dispatch, bind, gets, setFormData, modify, on_ui.
      cbn [ui isSubmitting isAnalyzing].
      rewrite Sb', Sb, Idle, A. cbn [orb].
      match goal with
      | |- context [handleSubmit svc ?s2] =>
          destruct (handleSubmit_accepted svc s2 V (or_intror Up) Ins)
            as (Rs & St & _)
      end.
      unfold exec in Rs.
      match goal with
      | |- context [handleSubmit svc ?s2] =>
          destruct (handleSubmit svc s2) as [[] s3] eqn:Hs; [|discriminate]
      end.
      unfold exec in St. rewrite Hs in St. exact St.
  - intros d E Irr.
    destruct (onloadend_answered svc f (FormData.issueType (formData (ui s))) d
                (exec (media_upload_pending svc f evs) s) E)
      as (R & Fd & T & C & A).
    rewrite (truthy_flag_false _ Irr) in Fd, T.
    split; [exact R|]. split; [exact (last_toast_snoc _ _ _ T)|].
    rewrite Fd. simpl. repeat split; assumption.
Qed.

Lemma sample_issueType_chosen :
  FormData.issueType (formData (ui (sys_with sample_form))) <> "".
Proof. discriminate. Qed.

Lemma service_analysis_down_failed : analysis_failed service_analysis_down.
Proof. left. discriminate. Qed.

Lemma empty_body_not_relevant :
  Analysis.is_relevant (Analysis.mk None None None) <> Some true.
Proof. discriminate. Qed.

Lemma C9_analysis_failure_degrades_witness :
  let s' :=
    exec (media_upload_session service_analysis_down sample_photo
            [SelectCity "New Delhi"])
         (sys_with sample_form) in
  let m' :=
    exec (media_upload_session service_malformed sample_photo [])
         (sys_with sample_form) in
  FormData.issueType sample_form <> ""
  /\ analysis_failed service_analysis_down
  /\ last_toast s' = Some toast_analysis_failed
  /\ step (ui (exec (dispatch_all service_analysis_down
                       [ChangeDescription "No power since morning"; ClickSubmit])
                    s'))
     = success
  /\ analysis service_malformed = resolved (Analysis.mk None None None)
  /\ last_toast m' = Some (toast_irrelevant None)
  /\ FormData.media (formData (ui m')) = None.
Proof.
  cbv zeta.
  split; [discriminate | split; [exact service_analysis_down_failed|]].
  pose proof (C9_analysis_failure_degrades service_analysis_down sample_photo
                [SelectCity "New Delhi"] (sys_with sample_form)
                sample_issueType_chosen) as H.
  cbv zeta in H. destruct H as (H & _).
  destruct (H service_analysis_down_failed) as (_ & T & _ & _ & _ & _ & _ & Sub).
  split; [exact T|].
  split; [apply Sub; [vm_compute; repeat split; discriminate | reflexivity..]|].
  split; [reflexivity|].
  pose proof (C9_analysis_failure_degrades service_malformed sample_photo
                [] (sys_with sample_form) sample_issueType_chosen) as G.
  cbv zeta in G. destruct G as (_ & G).
  destruct (G (Analysis.mk None None None) eq_refl empty_body_not_relevant)
    as (_ & T' & M' & _).
  split; [exact T' | exact M'].
Defined.

(** C10. When the upload ends in the analysis-failure branch, the callback
    leaves the form exactly as it found it: the media reference set when the
    upload began is still held, the description emptied at that moment is
    still empty, and every other field is unchanged by the analysis; with no
    user action in between, the form is the one from before the upload
    except for these two fields. The media reference is cleared only by the
    branch of an irrelevant image, which an answer whose [is_relevant] is
    not true takes. *)
Theorem C10_analysis_failure_frame (svc : Service) (f : File)
    (evs : list UiEvent) (s : Sys) :
  FormData.issueType (formData (ui s)) <> "" ->
  let arrived := exec (media_upload_pending svc f evs) s in
  let s' := exec (media_upload_session svc f evs) s in
  (analysis_failed svc ->
     formData (ui s') = formData (ui arrived)
     /\ FormData.media (formData (ui s')) = Some f
     /\ FormData.description (formData (ui s')) = ""
     /\ (evs = [] ->
           formData (ui s')
           = FormData.with_description ""
               (FormData.with_media (Some f) (formData (ui s)))))
  /\ (FormData.media (formData (ui s')) = None ->
        exists d, analysis svc = resolved d
                  /\ Analysis.is_relevant d <> Some true
                  /\ last_toast s' = Some (toast_irrelevant (Analysis.reason d))).
Proof.
  intros I.
  destruct (media_upload_pending_state svc f evs s I)
    as (_ & _ & D & M & _).
  cbv zeta. rewrite (media_upload_session_exec svc f evs s I).
  split.
  - intros Fail.
    destruct (onloadend_failed svc f (FormData.issueType (formData (ui s)))
                (exec (media_upload_pending svc f evs) s) Fail)
      as (_ & Fd & _).
    rewrite Fd. repeat split; try assumption.
    intros ->.
    destruct (handleMediaUpload_started svc f s I) as (R & _ & F1 & _).
    unfold exec at 1, media_upload_pending, bind. rewrite R. simpl.
    exact F1.
  - intros Cleared.
    destruct (response_cases (analysis svc)) as [Fail|(d & E)].
    + destruct (onloadend_failed svc f (FormData.issueType (formData (ui s)))
                  (exec (media_upload_pending svc f evs) s) Fail)
        as (_ & Fd & _).
      rewrite Fd, M in Cleared. discriminate.
    + exists d. split; [exact E|].
      destruct (onloadend_answered svc f (FormData.issueType (formData (ui s)))
                  d (exec (media_upload_pending svc f evs) s) E)
        as (_ & Fd & T & _).
      destruct (JS.truthy_flag (Analysis.is_relevant d)) eqn:Rel.
      * rewrite Fd in Cleared. simpl in Cleared. rewrite M in Cleared.
        discriminate.
      * split; [|exact (last_toast_snoc _ _ _ T)].
        intros Is. rewrite Is in Rel. discriminate.
Qed.

Lemma C10_analysis_failure_frame_witness :
  let s' :=
    exec (media_upload_session service_analysis_down sample_photo [])
         (sys_with sample_form) in
  FormData.issueType sample_form <> ""
  /\ analysis_failed service_analysis_down
  /\ formData (ui s')
     = FormData.mk "Delhi" "Delhi" "" "" "" "electricity" ""
                   (Some sample_photo) None.
Proof.
  cbv zeta.
  split; [discriminate | split; [exact service_analysis_down_failed|]].
  pose proof (C10_analysis_failure_frame service_analysis_down sample_photo []
                (sys_with sample_form) sample_issueType_chosen) as H.
  cbv zeta in H. destruct H as (H & _).
  destruct (H service_analysis_down_failed) as (_ & _ & _ & E).
  exact (E eq_refl).
Defined.

(** ** NotificationScheduler *)

Lemma pick_None (ts : list Timer) : pick ts = None -> ts = [].
Proof.
  destruct ts as [|t rest]; [reflexivity|]. simpl.
  destruct (pick rest) as [[u rest']|]; [|discriminate].
  destruct (fire_at u <? fire_at t)%Z; discriminate.
Qed.

(** [pick] removes one timer; those registered before it fire strictly
    later, those registered after it do not fire earlier. *)
Lemma pick_spec (ts : list Timer) :
  forall t rest,
  pick ts = Some (t, rest) ->
  exists l1 l2,
    ts = (l1 ++ t :: l2)%list /\ rest = (l1 ++ l2)%list
    /\ Forall (fun u => (fire_at t < fire_at u)%Z) l1
    /\ Forall (fun u => (fire_at t <= fire_at u)%Z) l2.
Proof.
  induction ts as [|a r IH]; intros t rest; simpl; [discriminate|].
  destruct (pick r) as [[u r']|] eqn:P.
  - destruct (IH u r' eq_refl) as (l1 & l2 & -> & -> & H1 & H2).
    destruct (Z.ltb_spec (fire_at u) (fire_at a)) as [L|L];
      intros E; injection E as <- <-.
    + exists (a :: l1), l2. repeat split; [constructor|]; assumption.
    + exists [], (l1 ++ u :: l2)%list. repeat split; [constructor|].
      apply Forall_app. split; [|constructor].
      * eapply Forall_impl; [|exact H1]. simpl. intros; lia.
      * exact L.
      * eapply Forall_impl; [|exact H2]. simpl. intros; lia.
  - apply pick_None in P. subst r.
    intros E; injection E as <- <-.
    exists [], []. repeat split; constructor.
Qed.

Ltac run_notify :=
  unfold exec, createNotification, notifications_insert, log_request, Date_now,
    console_error, setTimeout, try_catch, bind, ret, gets, modify, throw.

(** One emission: the request is sent and stamped with the current time;
    the row is written when the sink accepts it; a refusal is logged and
    nothing else happens. *)
Lemma createNotification_effect (svc : Service) (k : Task) (s : Sys) :
  let s' := exec (run_task svc k) s in
  run_task svc k s = (Done tt, s')
  /\ now s' = now s
  /\ timers s' = timers s
  /\ requests (cloud s')
     = (requests (cloud s)
        ++ [(now s, ReqInsertNotification (task_complaint k) (task_stage k))])%list
  /\ notifications (cloud s')
     = (notifications (cloud s)
        ++ (if accepted svc (task_stage k) then [task_row (now s) k] else []))%list.
Proof.
  destruct k as [cid code st msg uid]. unfold run_task, accepted. run_notify.
  simpl. destruct (notification_insert_error svc st); simpl;
    rewrite ?app_nil_r; repeat split.
Qed.

Lemma emissions_of_app (id : nat) (s s' : Sys) (rs : list (Z * Request)) :
  requests (cloud s') = (requests (cloud s) ++ rs)%list ->
  emissions_of id s'
  = (emissions_of id s
     ++ flat_map (fun r => match snd r with
                           | ReqInsertNotification id' st =>
                               if Nat.eqb id' id then [(fst r, st)] else []
                           | _ => []
                           end) rs)%list.
Proof.
  intros E. unfold emissions_of. now rewrite E, flat_map_app.
Qed.

Lemma for_complaint_task_row (id : nat) (t : Z) (k : Task) :
  for_complaint id (task_row t k) = Nat.eqb (task_complaint k) id.
Proof. now destruct k. Qed.

(** One turn of the timer queue, seen from one complaint. *)
Lemma fire_effect (svc : Service) (id : nat) (t : Timer) (rest : list Timer)
    (s : Sys) :
  let s1 := fire svc t rest s in
  let at_ := Z.max (now s) (fire_at t) in
  timers s1 = rest
  /\ now s1 = at_
  /\ emissions_of id s1
     = (emissions_of id s
        ++ (if mine id t then [(at_, task_stage (task t))] else []))%list
  /\ filter (for_complaint id) (notifications (cloud s1))
     = (filter (for_complaint id) (notifications (cloud s))
        ++ (if mine id t && accepted svc (task_stage (task t))
            then [task_row at_ (task t)] else []))%list.
Proof.
  cbv zeta. unfold fire.
  set (s0 := mkSys (ui s) (cloud s) (Z.max (now s) (fire_at t)) rest).
  destruct (createNotification_effect svc (task t) s0) as (_ & N & T & R & W).
  split; [exact T|]. split; [exact N|]. split.
  - rewrite (emissions_of_app id s0 _ _ R). simpl. unfold mine.
    destruct (Nat.eqb _ id); reflexivity.
  - rewrite W, filter_app. f_equal. unfold mine.
    destruct (accepted svc _); simpl;
      rewrite ?for_complaint_task_row;
      destruct (Nat.eqb _ id); reflexivity.
Qed.

(** The timer queue serves the pending timers of one complaint in the order
    of their times, each at its own time, whatever else is pending. *)
Lemma run_loop_mine (svc : Service) (id : nat) (deadline : Z) :
  forall fuel s,
  length (timers s) <= fuel ->
  StronglySorted earlier (filter (mine id) (timers s)) ->
  Forall (fun t => (now s <= fire_at t)%Z) (filter (mine id) (timers s)) ->
  let s' := run_loop svc fuel deadline s in
  let fired := filter (due deadline) (filter (mine id) (timers s)) in
  emissions_of id s'
  = (emissions_of id s
     ++ map (fun t => (fire_at t, task_stage (task t))) fired)%list
  /\ filter (for_complaint id) (notifications (cloud s'))
     = (filter (for_complaint id) (notifications (cloud s))
        ++ map (fun t => task_row (fire_at t) (task t))
               (filter (fun t => accepted svc (task_stage (task t))) fired))%list.
Proof.
  induction fuel as [|fuel IH]; intros s Len Sorted Later; cbv zeta.
  - destruct (timers s); [|simpl in Len; lia]. simpl.
    now rewrite !app_nil_r.
  - simpl. destruct (pick (timers s)) as [[t rest]|] eqn:P.
    + destruct (pick_spec _ _ _ P) as (l1 & l2 & Ets & -> & Lt & Le).
      rewrite Ets in *. rewrite filter_app in Sorted, Later |- *.
      simpl in Sorted, Later |- *.
      destruct (Z.leb_spec (fire_at t) deadline) as [D|D].
      * (* the timer fires *)
        destruct (fire_effect svc id t (l1 ++ l2) s) as (T1 & N1 & E1 & W1).
        cbv zeta in *.
        specialize (IH (fire svc t (l1 ++ l2)%list s)).
        rewrite T1, N1 in IH. rewrite filter_app in IH.
        destruct (mine id t) eqn:M.
        -- (* one of ours: it is the first of ours *)
           assert (filter (mine id) l1 = []) as E.
           { destruct (filter (mine id) l1) as [|u l] eqn:F; [reflexivity|].
             exfalso.
             assert (In u l1) as Hin.
             { apply (proj1 (filter_In (mine id) u l1)). rewrite F. now left. }
             apply (proj1 (Forall_forall _ _) Lt) in Hin.
             simpl in Sorted. inversion Sorted as [|? ? _ Hall]; subst.
             apply Forall_app in Hall. destruct Hall as [_ Hall].
             inversion Hall; subst. unfold earlier in *. lia. }
           rewrite E in *. simpl in *.
           inversion Sorted as [|? ? Sorted' Hall]; subst.
           inversion Later as [|? ? Now Later']; subst.
           rewrite Z.max_r in * by exact Now.
           destruct IH as (IHe & IHw).
           { rewrite length_app in *. simpl in Len. lia. }
           { exact Sorted'. }
           { eapply Forall_impl; [|exact Hall]. unfold earlier.
             simpl. intros; lia. }
           assert (Dt : due deadline t = true) by (apply Z.leb_le; exact D).
           rewrite !Dt. simpl. rewrite IHe, E1, IHw, W1.
           destruct (accepted svc (task_stage (task t))); simpl;
             rewrite <- ?app_assoc, ?app_nil_r; simpl; split; reflexivity.
        -- (* someone else's *)
           rewrite app_nil_r in E1, W1. simpl in W1.
           destruct IH as (IHe & IHw).
           { rewrite length_app in *. simpl in Len. lia. }
           { exact Sorted. }
           { apply Forall_app in Later. destruct Later as [La Lb].
             apply Forall_app. split.
             - apply Forall_forall. intros u Hu.
               pose proof (proj1 (Forall_forall _ _) La u Hu).
               apply filter_In in Hu. destruct Hu as [Hu _].
               pose proof (proj1 (Forall_forall _ _) Lt u Hu). simpl in *. lia.
             - apply Forall_forall. intros u Hu.
               pose proof (proj1 (Forall_forall _ _) Lb u Hu).
               apply filter_In in Hu. destruct Hu as [Hu _].
               pose proof (proj1 (Forall_forall _ _) Le u Hu). simpl in *. lia. }
           rewrite IHe, IHw, E1, W1, filter_app. split; reflexivity.
      * (* nothing is due *)
        assert (forall l, Forall (fun u => (fire_at t <= fire_at u)%Z) l ->
                          filter (due deadline) (filter (mine id) l) = []) as Z.
        { induction 1 as [|u l Hu _ IHl]; [reflexivity|]. simpl.
          destruct (mine id u); [simpl|exact IHl].
          unfold due at 1. destruct (Z.leb_spec (fire_at u) deadline); [lia|].
          exact IHl. }
        assert (Hl1 : filter (due deadline) (filter (mine id) l1) = []).
        { apply Z. eapply Forall_impl; [|exact Lt]. simpl. intros; lia. }
        assert (Hl2 : filter (due deadline) (filter (mine id) l2) = [])
          by (apply Z; exact Le).
        assert (Dt : due deadline t = false) by (apply Z.leb_gt; exact D).
        rewrite filter_app, Hl1.
        destruct (mine id t); simpl; rewrite ?Dt, Hl2; simpl;
          now rewrite !app_nil_r.
    + apply pick_None in P. rewrite P. simpl. now rewrite !app_nil_r.
Qed.

(** Arming: the confirmation is emitted on the spot, the two later stages
    are left on timers, and the call returns. *)
Lemma arm_effect (svc : Service) (id : nat) (code issueType : string)
    (s : Sys) :
  let armed := exec (createComplaintNotifications svc id code issueType) s in
  createComplaintNotifications svc id code issueType s = (Done tt, armed)
  /\ now armed = now s
  /\ timers armed
     = (timers s ++ [acknowledgement_timer id code (now s);
                     resolution_timer id code (now s)])%list
  /\ emissions_of id armed
     = (emissions_of id s ++ [(now s, confirmation)])%list
  /\ filter (for_complaint id) (notifications (cloud armed))
     = (filter (for_complaint id) (notifications (cloud s))
        ++ (if accepted svc confirmation
            then [notification_row id code issueType (now s, confirmation)]
            else []))%list.
Proof.
  set (k := NotifyTask id code confirmation
              (confirmation_message code issueType) (Some "anonymous")).
  destruct (createNotification_effect svc k s) as (R & N & T & Q & W).
  cbv zeta in *.
  assert (E : createComplaintNotifications svc id code issueType s
              = (Done tt,
                 mkSys (ui (exec (run_task svc k) s))
                       (cloud (exec (run_task svc k) s))
                       (now s)
                       (timers s ++ [acknowledgement_timer id code (now s);
                                     resolution_timer id code (now s)]))).
  { unfold createComplaintNotifications, bind.
    change (createNotification svc id code confirmation
              (confirmation_message code issueType) (Some "anonymous"))
      with (run_task svc k).
    rewrite R. unfold setTimeout, modify. cbn [now timers ui cloud].
    rewrite N, T.
    rewrite <- app_assoc. reflexivity. }
  unfold exec at 1 2 3 4 5. rewrite E. cbn [snd now timers cloud].
  split; [reflexivity|]. split; [reflexivity|]. split; [reflexivity|].
  split.
  - rewrite (emissions_of_app id s
               (mkSys (ui (exec (run_task svc k) s))
                      (cloud (exec (run_task svc k) s)) (now s)
                      (timers s ++ [acknowledgement_timer id code (now s);
                                    resolution_timer id code (now s)]))
               _ Q).
    simpl. now rewrite Nat.eqb_refl.
  - rewrite W, filter_app. simpl task_stage.
    destruct (accepted svc confirmation); simpl; [|reflexivity].
    unfold for_complaint. simpl. now rewrite Nat.eqb_refl.
Qed.

(** One turn per pending timer is enough: when the loop stops, no pending
    timer is due. *)
Lemma run_loop_quiescent (svc : Service) (deadline : Z) :
  forall fuel s,
  length (timers s) <= fuel ->
  Forall (fun t => (deadline < fire_at t)%Z)
         (timers (run_loop svc fuel deadline s)).
Proof.
  induction fuel as [|fuel IH]; intros s Len.
  - destruct (timers s) eqn:E; [simpl; rewrite E; constructor|].
    simpl in Len. lia.
  - simpl. destruct (pick (timers s)) as [[t rest]|] eqn:P.
    + destruct (pick_spec _ _ _ P) as (l1 & l2 & Ets & -> & Lt & Le).
      destruct (Z.leb_spec (fire_at t) deadline) as [D|D].
      * apply IH.
        destruct (fire_effect svc 0 t (l1 ++ l2) s) as (T1 & _).
        rewrite T1. rewrite Ets, length_app in Len.
        rewrite length_app. simpl in Len. lia.
      * rewrite Ets. apply Forall_app. split; [|constructor]; try exact D.
        -- eapply Forall_impl; [|exact Lt]. simpl. intros; lia.
        -- eapply Forall_impl; [|exact Le]. simpl. intros; lia.
    + apply pick_None in P. rewrite P. constructor.
Qed.

Lemma filter_none {A} (f : A -> bool) (l : list A) :
  Forall (fun x => f x = false) l -> filter f l = [].
Proof.
  induction 1 as [|x l Hx _ IH]; [reflexivity|]. simpl. now rewrite Hx.
Qed.

Lemma advance_to_cloud (svc : Service) (deadline : Z) (s : Sys) :
  cloud (advance_to svc deadline s)
  = cloud (run_loop svc (length (timers s)) deadline s).
Proof. reflexivity. Qed.

(** The timeline of one arming, at every later instant. *)
Lemma arming_timeline (svc : Service) (id : nat)
    (code issueType : string) (deadline : Z) (s : Sys) :
  Forall (fun t => mine id t = false) (timers s) ->
  (now s <= deadline)%Z ->
  let armed := exec (createComplaintNotifications svc id code issueType) s in
  let s' := advance_to svc deadline armed in
  let emitted := filter (fun e => (fst e <=? deadline)%Z) (schedule (now s)) in
  let persisted :=
    map (notification_row id code issueType)
        (filter (fun e => accepted svc (snd e)) emitted) in
  createComplaintNotifications svc id code issueType s = (Done tt, armed)
  /\ emissions_of id s' = (emissions_of id s ++ emitted)%list
  /\ filter (for_complaint id) (notifications (cloud s'))
     = (filter (for_complaint id) (notifications (cloud s)) ++ persisted)%list
  /\ ((now s + 30000 <= deadline)%Z -> emitted = schedule (now s))
  /\ StronglySorted precedes persisted
  /\ Forall (fun t => (deadline < fire_at t)%Z) (timers s').
Proof.
  intros Others Ahead.
  assert (Quiet : Forall (fun t => (deadline < fire_at t)%Z)
                    (timers (advance_to svc deadline
                       (exec (createComplaintNotifications svc id code issueType) s))))
    by (apply run_loop_quiescent, le_n).
  destruct (arm_effect svc id code issueType s) as (R & N & T & E & W).
  cbv zeta in *.
  set (armed := exec (createComplaintNotifications svc id code issueType) s) in *.
  assert (Mine : filter (mine id) (timers armed)
                 = [acknowledgement_timer id code (now s);
                    resolution_timer id code (now s)]).
  { rewrite T, filter_app.
    rewrite (filter_none _ _ Others).
    unfold mine. simpl. now rewrite Nat.eqb_refl. }
  destruct (run_loop_mine svc id deadline (length (timers armed)) armed
              (le_n _)) as (Le & Lw).
  { rewrite Mine. repeat constructor. unfold earlier. simpl. lia. }
  { rewrite Mine, N. repeat constructor; simpl; lia. }
  unfold emissions_of in Le |- *. rewrite advance_to_cloud.
  fold (emissions_of id armed) in Le. fold (emissions_of id s).
  rewrite Le, Lw, Mine, E, W. clear Le Lw.
  unfold schedule, due. simpl.
  rewrite (proj2 (Z.leb_le _ _) Ahead).
  split; [exact R|].
  destruct (Z.leb_spec (now s + 5000) deadline) as [D1|D1];
    destruct (Z.leb_spec (now s + 30000) deadline) as [D2|D2];
    try lia; simpl;
    unfold accepted;
    destruct (notification_insert_error svc confirmation);
    destruct (notification_insert_error svc acknowledgement);
    destruct (notification_insert_error svc resolution);
    simpl; rewrite <- ?app_assoc, ?app_nil_r; simpl;
    (split; [reflexivity|]); (split; [reflexivity|]);
    (split; [intros; (reflexivity || lia)|]);
    (split; [|exact Quiet]);
    repeat (constructor; simpl); unfold precedes; simpl; lia.
Qed.

(** ** The scheduler with inserts that take time *)

Lemma earliest_by_None {A} (key : A -> Z) (l : list A) :
  earliest_by key l = None -> l = [].
Proof.
  destruct l as [|x rest]; [reflexivity|]. simpl.
  destruct (earliest_by key rest) as [[u rest']|]; [|discriminate].
  destruct (key u <? key x)%Z; discriminate.
Qed.

Lemma earliest_by_spec {A} (key : A -> Z) (l : list A) :
  forall x rest,
  earliest_by key l = Some (x, rest) ->
  exists l1 l2,
    l = (l1 ++ x :: l2)%list /\ rest = (l1 ++ l2)%list
    /\ Forall (fun u => (key x < key u)%Z) l1
    /\ Forall (fun u => (key x <= key u)%Z) l2.
Proof.
  induction l as [|a r IH]; intros x rest; simpl; [discriminate|].
  destruct (earliest_by key r) as [[u r']|] eqn:P.
  - destruct (IH u r' eq_refl) as (l1 & l2 & -> & -> & H1 & H2).
    destruct (Z.ltb_spec (key u) (key a)) as [L|L];
      intros E; injection E as <- <-.
    + exists (a :: l1), l2. repeat split; [constructor|]; assumption.
    + exists [], (l1 ++ u :: l2)%list. repeat split; [constructor|].
      apply Forall_app. split; [|constructor].
      * eapply Forall_impl; [|exact H1]. simpl. intros; lia.
      * exact L.
      * eapply Forall_impl; [|exact H2]. simpl. intros; lia.
  - apply earliest_by_None in P. subst r.
    intros E; injection E as <- <-.
    exists [], []. repeat split; constructor.
Qed.

(** The entry the queue serves is determined by the times. *)
Lemma earliest_by_intro {A} (key : A -> Z) (x : A) (l2 : list A) :
  forall l1,
  Forall (fun u => (key x < key u)%Z) l1 ->
  Forall (fun u => (key x <= key u)%Z) l2 ->
  earliest_by key (l1 ++ x :: l2) = Some (x, (l1 ++ l2)%list).
Proof.
  intros l1 H1 H2. induction H1 as [|a l1 Ha _ IH]; simpl.
  - destruct (earliest_by key l2) as [[u r']|] eqn:P.
    + destruct (earliest_by_spec key l2 u r' P) as (m1 & m2 & E & _).
      assert (In u l2) by (rewrite E; apply in_or_app; right; now left).
      pose proof (proj1 (Forall_forall _ _) H2 u H) as Hu. cbv beta in Hu.
      destruct (Z.ltb_spec (key u) (key x)); [lia|reflexivity].
    + apply earliest_by_None in P. now subst l2.
  - rewrite IH. destruct (Z.ltb_spec (key x) (key a)); [reflexivity|lia].
Qed.

Lemma earliest_by_least {A} (key : A -> Z) (l : list A) (x : A) (rest : list A) :
  earliest_by key l = Some (x, rest) ->
  Forall (fun u => (key x <= key u)%Z) l.
Proof.
  intros P. destruct (earliest_by_spec key l x rest P) as (l1 & l2 & -> & _ & H1 & H2).
  apply Forall_app. split; [|constructor; [lia|exact H2]].
  eapply Forall_impl; [|exact H1]. simpl. intros; lia.
Qed.

Lemma Forall_filter {A} (P : A -> Prop) (p : A -> bool) (l : list A) :
  Forall P l -> Forall P (filter p l).
Proof.
  intros H. apply Forall_forall. intros x Hx. apply filter_In in Hx.
  exact (proj1 (Forall_forall _ _) H x (proj1 Hx)).
Qed.

(** Leaving out other entries does not change which of the remaining ones
    is served first. *)
Lemma earliest_by_filter {A} (key : A -> Z) (p : A -> bool) (l : list A)
    (x : A) (rest : list A) :
  earliest_by key l = Some (x, rest) ->
  p x = true ->
  earliest_by key (filter p l) = Some (x, filter p rest).
Proof.
  intros P Px.
  destruct (earliest_by_spec key l x rest P) as (l1 & l2 & -> & -> & H1 & H2).
  rewrite !filter_app. simpl. rewrite Px.
  apply earliest_by_intro; apply Forall_filter; assumption.
Qed.

Lemma pick_earliest (ts : list Timer) : pick ts = earliest_by fire_at ts.
Proof.
  induction ts as [|t rest IH]; [reflexivity|]. simpl. now rewrite IH.
Qed.

Section AsyncFacts.

Variable svc : Service.
Variable latency : Z -> Task -> Z.

Lemma async_send_effect (id : nat) (k : Task) (who : Async.Caller)
    (n : Async.Net) :
  let n' := Async.send latency k who n in
  let s := Async.sys n in
  now (Async.sys n') = now s
  /\ timers (Async.sys n') = timers s
  /\ Async.flights n'
     = (Async.flights n
        ++ [Async.mkFlight (now s + latency (now s) k) k who])%list
  /\ emissions_of id (Async.sys n')
     = (emissions_of id s
        ++ (if Nat.eqb (task_complaint k) id then [(now s, task_stage k)]
            else []))%list
  /\ Async.rows_of id n' = Async.rows_of id n.
Proof.
  cbv zeta. unfold Async.send, Async.rows_of, exec, log_request, modify, on_cloud.
  cbn [snd Async.sys Async.flights now timers cloud notifications].
  repeat split.
  unfold emissions_of. cbn [cloud requests]. rewrite flat_map_app. simpl.
  destruct (Nat.eqb (task_complaint k) id); reflexivity.
Qed.

(** The caller's part after the answer: the row is there when the sink
    accepted it, a refusal is logged, and an arming goes on to register its
    two timers; no request is sent and no exception escapes. *)
Lemma async_resume_effect (id : nat) (f : Async.Flight) (s : Sys) :
  let s' := exec (Async.resume svc f) s in
  Async.resume svc f s = (Done tt, s')
  /\ now s' = now s
  /\ timers s'
     = (timers s
        ++ match Async.caller f with
           | Async.FromArming => Async.armed_timers (Async.sent f) (now s)
           | Async.FromTimer => []
           end)%list
  /\ requests (cloud s') = requests (cloud s)
  /\ filter (for_complaint id) (notifications (cloud s'))
     = (filter (for_complaint id) (notifications (cloud s))
        ++ (if Async.own id f && accepted svc (task_stage (Async.sent f))
            then [task_row (now s) (Async.sent f)] else []))%list.
Proof.
  destruct f as [at_ [cid code st msg uid] who].
  cbv zeta. unfold Async.resume, Async.answered, Async.sink_insert,
    Async.arm_timers, Async.own, accepted, exec, Date_now, console_error,
    setTimeout, try_catch, bind, ret, gets, modify, on_cloud, on_ui.
  cbn [Async.sent Async.caller task_stage task_complaint].
  destruct (Nat.eqb cid id) eqn:Own;
    destruct (notification_insert_error svc st); destruct who;
    cbn [snd fst error data failed resolved now timers cloud ui requests
         notifications Async.armed_timers andb];
    rewrite ?app_nil_r, ?filter_app;
    unfold for_complaint;
    cbn [filter Notification.complaint_id task_row];
    rewrite ?Own, ?app_nil_r;
    unfold acknowledgement_timer, resolution_timer;
    rewrite <- ?app_assoc; cbn [app];
    repeat split.
Qed.

Lemma async_land_effect (id : nat) (f : Async.Flight) (rest : list Async.Flight)
    (n : Async.Net) :
  let n' := Async.turn svc latency (Async.Land f rest) n in
  let s := Async.sys n in
  let at_ := Z.max (now s) (Async.lands_at f) in
  now (Async.sys n') = at_
  /\ timers (Async.sys n')
     = (timers s
        ++ match Async.caller f with
           | Async.FromArming => Async.armed_timers (Async.sent f) at_
           | Async.FromTimer => []
           end)%list
  /\ Async.flights n' = rest
  /\ emissions_of id (Async.sys n') = emissions_of id s
  /\ Async.rows_of id n'
     = (Async.rows_of id n
        ++ (if Async.own id f && accepted svc (task_stage (Async.sent f))
            then [task_row at_ (Async.sent f)] else []))%list.
Proof.
  cbv zeta. unfold Async.turn, Async.rows_of.
  cbn [Async.sys Async.flights Async.turn_time].
  set (s0 := mkSys (ui (Async.sys n)) (cloud (Async.sys n))
                   (Z.max (now (Async.sys n)) (Async.lands_at f))
                   (timers (Async.sys n))).
  destruct (async_resume_effect id f s0) as (_ & N & T & Q & W).
  cbv zeta in *. split; [exact N|]. split; [exact T|]. split; [reflexivity|].
  split; [unfold emissions_of; now rewrite Q|exact W].
Qed.

Lemma async_fire_effect (id : nat) (t : Timer) (rest : list Timer)
    (n : Async.Net) :
  let n' := Async.turn svc latency (Async.Fire t rest) n in
  let s := Async.sys n in
  let at_ := Z.max (now s) (fire_at t) in
  now (Async.sys n') = at_
  /\ timers (Async.sys n') = rest
  /\ Async.flights n'
     = (Async.flights n
        ++ [Async.mkFlight (at_ + latency at_ (task t)) (task t)
                           Async.FromTimer])%list
  /\ emissions_of id (Async.sys n')
     = (emissions_of id s
        ++ (if mine id t then [(at_, task_stage (task t))] else []))%list
  /\ Async.rows_of id n' = Async.rows_of id n.
Proof.
  cbv zeta. unfold Async.turn. cbn [Async.turn_time].
  set (n0 := Async.mkNet
               (mkSys (ui (Async.sys n)) (cloud (Async.sys n))
                      (Z.max (now (Async.sys n)) (fire_at t)) rest)
               (Async.flights n)).
  destruct (async_send_effect id (task t) Async.FromTimer n0)
    as (N & T & F & E & W).
  cbv zeta in *. split; [exact N|]. split; [exact T|]. split; [exact F|].
  split; [exact E|exact W].
Qed.

End AsyncFacts.

Section AsyncLoop.

Variable svc : Service.
Variable latency : Z -> Task -> Z.

Lemma async_next_None (n : Async.Net) :
  Async.next n = None -> timers (Async.sys n) = [] /\ Async.flights n = [].
Proof.
  unfold Async.next. rewrite pick_earliest.
  destruct (earliest_by Async.lands_at (Async.flights n)) as [[f fs]|] eqn:F;
    destruct (earliest_by fire_at (timers (Async.sys n))) as [[t ts]|] eqn:T;
    try discriminate.
  - destruct (Async.lands_at f <=? fire_at t)%Z; discriminate.
  - intros _. split; eapply earliest_by_None; eassumption.
Qed.

(** The turn taken is that of an earliest entry, answers before timers. *)
Lemma async_next_spec (n : Async.Net) (u : Async.Turn) :
  Async.next n = Some u ->
  match u with
  | Async.Land f rest =>
      earliest_by Async.lands_at (Async.flights n) = Some (f, rest)
      /\ Forall (fun t => (Async.lands_at f <= fire_at t)%Z) (timers (Async.sys n))
  | Async.Fire t rest =>
      earliest_by fire_at (timers (Async.sys n)) = Some (t, rest)
      /\ Forall (fun f => (fire_at t < Async.lands_at f)%Z) (Async.flights n)
  end.
Proof.
  unfold Async.next. rewrite pick_earliest.
  destruct (earliest_by Async.lands_at (Async.flights n)) as [[f fs]|] eqn:F;
    destruct (earliest_by fire_at (timers (Async.sys n))) as [[t ts]|] eqn:T.
  - pose proof (earliest_by_least _ _ _ _ F) as Lf.
    pose proof (earliest_by_least _ _ _ _ T) as Lt.
    destruct (Z.leb_spec (Async.lands_at f) (fire_at t)) as [L|L];
      intros E; injection E as <-; (split; [reflexivity|]).
    + eapply Forall_impl; [|exact Lt]. simpl. intros; lia.
    + eapply Forall_impl; [|exact Lf]. simpl. intros; lia.
  - intros E; injection E as <-. split; [reflexivity|].
    apply earliest_by_None in T. rewrite T. constructor.
  - intros E; injection E as <-. split; [reflexivity|].
    apply earliest_by_None in F. rewrite F. constructor.
  - discriminate.
Qed.

Lemma async_next_least (n : Async.Net) (u : Async.Turn) :
  Async.next n = Some u ->
  Forall (fun t => (Async.turn_time u <= fire_at t)%Z) (timers (Async.sys n))
  /\ Forall (fun f => (Async.turn_time u <= Async.lands_at f)%Z) (Async.flights n).
Proof.
  intros N. apply async_next_spec in N. destruct u as [f rest|t rest];
    destruct N as (E & O); simpl; split;
    try exact (earliest_by_least _ _ _ _ E); try exact O.
  eapply Forall_impl; [|exact O]. simpl. intros; lia.
Qed.

Lemma async_run_loop_turn (fuel : nat) (deadline : Z) (n : Async.Net)
    (u : Async.Turn) :
  Async.next n = Some u ->
  (Async.turn_time u <= deadline)%Z ->
  Async.run_loop svc latency (S fuel) deadline n
  = Async.run_loop svc latency fuel deadline (Async.turn svc latency u n).
Proof.
  intros N D. simpl. rewrite N. now rewrite (proj2 (Z.leb_le _ _) D).
Qed.

Lemma async_run_loop_idle (fuel : nat) (deadline : Z) (n : Async.Net) :
  Async.idle deadline n -> Async.run_loop svc latency fuel deadline n = n.
Proof.
  intros I. destruct fuel as [|fuel]; [reflexivity|]. simpl.
  destruct (Async.next n) as [u|] eqn:N; [|reflexivity].
  now rewrite (proj2 (Z.leb_gt _ _) (I u N)).
Qed.

Lemma list_sum_remove (w : Async.Flight -> nat) (l1 l2 : list Async.Flight)
    (f : Async.Flight) :
  list_sum (map w (l1 ++ f :: l2)) = list_sum (map w (l1 ++ l2)) + w f.
Proof.
  rewrite !map_app, !list_sum_app. simpl. lia.
Qed.

(** Every turn uses up one unit of the budget. *)
Lemma async_budget_turn (n : Async.Net) (u : Async.Turn) :
  Async.next n = Some u ->
  Async.budget (Async.turn svc latency u n) + 1 = Async.budget n.
Proof.
  intros N. apply async_next_spec in N. unfold Async.budget.
  destruct u as [f rest|t rest]; destruct N as (E & _);
    apply earliest_by_spec in E; destruct E as (l1 & l2 & Ea & -> & _).
  - destruct (async_land_effect svc latency 0 f (l1 ++ l2) n) as (_ & T & F & _).
    cbv zeta in *. rewrite T, F, Ea, list_sum_remove, length_app.
    unfold Async.weight at 3.
    destruct f as [at_ [cid code st msg uid] []]; simpl; lia.
  - destruct (async_fire_effect svc latency 0 t (l1 ++ l2) n) as (_ & T & F & _).
    cbv zeta in *. rewrite T, F, Ea, !length_app, map_app, list_sum_app.
    simpl. lia.
Qed.


End AsyncLoop.

(** *** Every arming adds one emission of each stage *)

Section AsyncBalance.

Variable svc : Service.
Variable latency : Z -> Task -> Z.



Lemma same_stage_refl (st : Stage) : Async.same_stage st st = true.
Proof. now destruct st. Qed.

Lemma mine_armed_timers (id cid : nat) (code : string) (at_ : Z) :
  mine id (acknowledgement_timer cid code at_) = Nat.eqb cid id
  /\ mine id (resolution_timer cid code at_) = Nat.eqb cid id.
Proof. split; reflexivity. Qed.





End AsyncBalance.

(** *** What is pending for other complaints does not matter *)

Section AsyncAgree.

Variable svc : Service.
Variable latency : Z -> Task -> Z.
Hypothesis latency_nonneg : forall t k, (0 <= latency t k)%Z.

Lemma filter_all {A} (p : A -> bool) (l : list A) :
  Forall (fun x => p x = true) l -> filter p l = l.
Proof.
  induction 1 as [|x l Hx _ IH]; [reflexivity|]. simpl. now rewrite Hx, IH.
Qed.

Lemma filter_filter {A} (p : A -> bool) (l : list A) :
  filter p (filter p l) = filter p l.
Proof.
  apply filter_all. apply Forall_forall. intros x Hx.
  apply filter_In in Hx. exact (proj2 Hx).
Qed.

Lemma Forall_filter_true {A} (p : A -> bool) (l : list A) :
  Forall (fun x => p x = true) (filter p l).
Proof.
  apply Forall_forall. intros x Hx. apply filter_In in Hx. exact (proj2 Hx).
Qed.

Lemma own_armed_timers (id : nat) (k : Task) (at_ : Z) :
  filter (mine id) (Async.armed_timers k at_)
  = if Nat.eqb (task_complaint k) id then Async.armed_timers k at_ else [].
Proof.
  destruct k as [cid code st msg uid]. simpl.
  rewrite (proj1 (mine_armed_timers _ _ _ _)), (proj2 (mine_armed_timers _ _ _ _)).
  now destruct (Nat.eqb cid id).
Qed.

Lemma armed_timers_later (k : Task) (at_ : Z) :
  Forall (fun t => (at_ <= fire_at t)%Z) (Async.armed_timers k at_).
Proof.
  destruct k. simpl. repeat constructor; simpl; lia.
Qed.

Lemma armed_timers_own (k : Task) (at_ : Z) :
  Forall (fun t => mine (task_complaint k) t = true) (Async.armed_timers k at_).
Proof.
  destruct k as [cid code st msg uid]. simpl.
  repeat constructor; unfold mine; simpl; apply Nat.eqb_refl.
Qed.

(** A turn of another complaint changes nothing for this one. *)
Lemma async_foreign_turn (id : nat) (E0 : list (Z * Stage))
    (R0 : list Notification.t) (a b : Async.Net) (u : Async.Turn) :
  Async.next a = Some u ->
  Async.turn_own id u = false ->
  Async.agree id E0 R0 a b ->
  Async.punctual id a ->
  Async.agree id E0 R0 (Async.turn svc latency u a) b
  /\ Async.punctual id (Async.turn svc latency u a).
Proof.
  intros N Foreign (At & Af & Ae & Ar) (Pt & Pf).
  destruct (async_next_least a u N) as (Lt & Lf).
  apply async_next_spec in N.
  unfold Async.agree, Async.punctual, Async.own_timers, Async.own_flights in *.
  destruct u as [f rest|t rest]; destruct N as (E & _);
    apply earliest_by_spec in E; destruct E as (l1 & l2 & Ea & -> & _);
    simpl in Foreign, Lt, Lf.
  - destruct (async_land_effect svc latency id f (l1 ++ l2) a)
      as (N' & T & F & Em & W).
    cbv zeta in *. rewrite N', T, F, Em, W, Foreign. cbn [andb].
    rewrite app_nil_r.
    assert (Ft : filter (mine id)
                   match Async.caller f with
                   | Async.FromArming =>
                       Async.armed_timers (Async.sent f)
                         (Z.max (now (Async.sys a)) (Async.lands_at f))
                   | Async.FromTimer => []
                   end = []).
    { destruct (Async.caller f); [|reflexivity].
      rewrite own_armed_timers. unfold Async.own in Foreign. now rewrite Foreign. }
    assert (Ff : filter (Async.own id) (l1 ++ l2)
                 = filter (Async.own id) (Async.flights a)).
    { rewrite Ea, !filter_app. simpl. now rewrite Foreign. }
    rewrite filter_app, Ft, app_nil_r, Ff.
    repeat split; try assumption.
    + apply Forall_forall. intros t Ht.
      pose proof (proj1 (Forall_forall _ _) Pt t Ht) as H1.
      apply filter_In in Ht.
      pose proof (proj1 (Forall_forall _ _) Lt t (proj1 Ht)) as H2.
      cbv beta in *. lia.
    + apply Forall_forall. intros g Hg.
      pose proof (proj1 (Forall_forall _ _) Pf g Hg) as H1.
      apply filter_In in Hg.
      pose proof (proj1 (Forall_forall _ _) Lf g (proj1 Hg)) as H2.
      cbv beta in *. lia.
  - destruct (async_fire_effect svc latency id t (l1 ++ l2) a)
      as (N' & T & F & Em & W).
    cbv zeta in *. rewrite N', T, F, Em, W, Foreign.
    rewrite app_nil_r.
    assert (Ft : filter (mine id) (l1 ++ l2)
                 = filter (mine id) (timers (Async.sys a))).
    { rewrite Ea, !filter_app. simpl. now rewrite Foreign. }
    assert (Ff : filter (Async.own id)
                   (Async.flights a
                    ++ [Async.mkFlight
                          (Z.max (now (Async.sys a)) (fire_at t)
                           + latency (Z.max (now (Async.sys a)) (fire_at t)) (task t))
                          (task t) Async.FromTimer])
                 = filter (Async.own id) (Async.flights a)).
    { rewrite filter_app. simpl. unfold Async.own at 2. simpl.
      unfold mine in Foreign. rewrite Foreign. apply app_nil_r. }
    rewrite Ft, Ff.
    repeat split; try assumption.
    + apply Forall_forall. intros t' Ht.
      pose proof (proj1 (Forall_forall _ _) Pt t' Ht) as H1.
      apply filter_In in Ht.
      pose proof (proj1 (Forall_forall _ _) Lt t' (proj1 Ht)) as H2.
      cbv beta in *. lia.
    + apply Forall_forall. intros g Hg.
      pose proof (proj1 (Forall_forall _ _) Pf g Hg) as H1.
      apply filter_In in Hg.
      pose proof (proj1 (Forall_forall _ _) Lf g (proj1 Hg)) as H2.
      cbv beta in *. lia.
Qed.

(** A turn of this complaint, as the complaint sees it; it is taken at the
    time of its entry, since nothing of the complaint is overdue. *)
Lemma async_own_turn (id : nat) (n : Async.Net) (u : Async.Turn) :
  Async.next n = Some u ->
  Async.turn_own id u = true ->
  Async.punctual id n ->
  let n' := Async.turn svc latency u n in
  Async.own_timers id n'
  = match u with
    | Async.Land f _ =>
        (Async.own_timers id n
         ++ match Async.caller f with
            | Async.FromArming =>
                Async.armed_timers (Async.sent f) (Async.lands_at f)
            | Async.FromTimer => []
            end)%list
    | Async.Fire _ rest => filter (mine id) rest
    end
  /\ Async.own_flights id n'
     = match u with
       | Async.Land _ rest => filter (Async.own id) rest
       | Async.Fire t _ =>
           (Async.own_flights id n
            ++ [Async.mkFlight (fire_at t + latency (fire_at t) (task t))
                               (task t) Async.FromTimer])%list
       end
  /\ emissions_of id (Async.sys n')
     = (emissions_of id (Async.sys n)
        ++ match u with
           | Async.Land _ _ => []
           | Async.Fire t _ => [(fire_at t, task_stage (task t))]
           end)%list
  /\ Async.rows_of id n'
     = (Async.rows_of id n
        ++ match u with
           | Async.Land f _ =>
               if accepted svc (task_stage (Async.sent f))
               then [task_row (Async.lands_at f) (Async.sent f)] else []
           | Async.Fire _ _ => []
           end)%list
  /\ Async.punctual id n'.
Proof.
  intros N Own (Pt & Pf).
  destruct (async_next_least n u N) as (Lt & Lf).
  apply async_next_spec in N.
  unfold Async.punctual, Async.own_timers, Async.own_flights in *.
  destruct u as [f rest|t rest]; destruct N as (E & _);
    apply earliest_by_spec in E; destruct E as (l1 & l2 & Ea & -> & _);
    simpl in Own, Lt, Lf.
  - destruct (async_land_effect svc latency id f (l1 ++ l2) n)
      as (N' & T & F & Em & W).
    assert (At : Z.max (now (Async.sys n)) (Async.lands_at f) = Async.lands_at f).
    { apply Z.max_r.
      apply (proj1 (Forall_forall _ _) Pf f).
      apply filter_In. split; [|exact Own].
      rewrite Ea. apply in_or_app. right. now left. }
    cbv zeta in *. rewrite At in *. rewrite N', T, F, Em, W, Own. cbn [andb].
    rewrite app_nil_r, filter_app.
    assert (Ft : filter (mine id)
                   match Async.caller f with
                   | Async.FromArming =>
                       Async.armed_timers (Async.sent f) (Async.lands_at f)
                   | Async.FromTimer => []
                   end
                 = match Async.caller f with
                   | Async.FromArming =>
                       Async.armed_timers (Async.sent f) (Async.lands_at f)
                   | Async.FromTimer => []
                   end).
    { destruct (Async.caller f); [|reflexivity].
      rewrite own_armed_timers. unfold Async.own in Own. now rewrite Own. }
    rewrite Ft. repeat split.
    + apply Forall_app. split.
      * apply Forall_forall. intros t Ht. apply filter_In in Ht.
        exact (proj1 (Forall_forall _ _) Lt t (proj1 Ht)).
      * destruct (Async.caller f); [apply armed_timers_later|constructor].
    + apply Forall_forall. intros g Hg. apply filter_In in Hg.
      apply (proj1 (Forall_forall _ _) Lf g).
      rewrite Ea. destruct Hg as [Hg _]. apply in_app_or in Hg.
      apply in_or_app. destruct Hg; [now left|right; now right].
  - destruct (async_fire_effect svc latency id t (l1 ++ l2) n)
      as (N' & T & F & Em & W).
    assert (At : Z.max (now (Async.sys n)) (fire_at t) = fire_at t).
    { apply Z.max_r.
      apply (proj1 (Forall_forall _ _) Pt t).
      apply filter_In. split; [|exact Own].
      rewrite Ea. apply in_or_app. right. now left. }
    cbv zeta in *. rewrite At in *. rewrite N', T, F, Em, W, Own.
    rewrite app_nil_r, (filter_app (Async.own id)).
    assert (OwnF : Async.own id
                     (Async.mkFlight (fire_at t + latency (fire_at t) (task t))
                                     (task t) Async.FromTimer) = true)
      by exact Own.
    cbn [filter]. rewrite OwnF.
    repeat split.
    + apply Forall_forall. intros t' Ht. apply filter_In in Ht.
      apply (proj1 (Forall_forall _ _) Lt t').
      rewrite Ea. destruct Ht as [Ht _]. apply in_app_or in Ht.
      apply in_or_app. destruct Ht; [now left|right; now right].
    + apply Forall_app. split.
      * apply Forall_forall. intros g Hg. apply filter_In in Hg.
        exact (proj1 (Forall_forall _ _) Lf g (proj1 Hg)).
      * constructor; [|constructor]. simpl.
        pose proof (latency_nonneg (fire_at t) (task t)). lia.
Qed.

(** In a system where only the complaint has anything pending, the same
    entry is served. *)
Lemma async_own_next (id : nat) (E0 : list (Z * Stage))
    (R0 : list Notification.t) (a b : Async.Net) (u : Async.Turn) :
  Async.next a = Some u ->
  Async.turn_own id u = true ->
  Async.agree id E0 R0 a b ->
  Async.alone id b ->
  Async.next b = Some (Async.restrict_turn id u).
Proof.
  intros N Own (At & Af & _) (Alt & Alf).
  apply async_next_spec in N.
  unfold Async.own_timers, Async.own_flights in *.
  rewrite (filter_all _ _ Alt) in At. rewrite (filter_all _ _ Alf) in Af.
  unfold Async.next. rewrite pick_earliest, <- At, <- Af.
  destruct u as [f rest|t rest]; destruct N as (E & O); simpl in Own |- *.
  - rewrite (earliest_by_filter _ (Async.own id) _ _ _ E Own).
    destruct (earliest_by fire_at (filter (mine id) (timers (Async.sys a))))
      as [[t ts]|] eqn:P; [|reflexivity].
    apply earliest_by_spec in P. destruct P as (l1 & l2 & Et & _).
    assert (In t (timers (Async.sys a))) as Hin.
    { apply (proj1 (filter_In (mine id) t _)). rewrite Et.
      apply in_or_app. right. now left. }
    pose proof (proj1 (Forall_forall _ _) O t Hin) as Le. cbv beta in Le.
    now rewrite (proj2 (Z.leb_le _ _) Le).
  - rewrite (earliest_by_filter _ (mine id) _ _ _ E Own).
    destruct (earliest_by Async.lands_at
                (filter (Async.own id) (Async.flights a)))
      as [[f fs]|] eqn:P; [|reflexivity].
    apply earliest_by_spec in P. destruct P as (l1 & l2 & Ef & _).
    assert (In f (Async.flights a)) as Hin.
    { apply (proj1 (filter_In (Async.own id) f _)). rewrite Ef.
      apply in_or_app. right. now left. }
    pose proof (proj1 (Forall_forall _ _) O f Hin) as Lt. cbv beta in Lt.
    now rewrite (proj2 (Z.leb_gt _ _) Lt).
Qed.

Lemma async_alone_turn (id : nat) (n : Async.Net) (u : Async.Turn) :
  Async.next n = Some u ->
  Async.alone id n ->
  Async.alone id (Async.turn svc latency u n).
Proof.
  intros N (Alt & Alf). apply async_next_spec in N. unfold Async.alone.
  destruct u as [f rest|t rest]; destruct N as (E & _);
    apply earliest_by_spec in E; destruct E as (l1 & l2 & Ea & -> & _).
  - destruct (async_land_effect svc latency id f (l1 ++ l2) n)
      as (_ & T & F & _).
    cbv zeta in *. rewrite T, F. rewrite Ea in Alf.
    apply Forall_app in Alf. destruct Alf as (A1 & A2).
    inversion A2 as [|? ? Hf A3]; subst. split.
    + apply Forall_app. split; [exact Alt|].
      destruct (Async.caller f); [|constructor].
      unfold Async.own in Hf. apply Nat.eqb_eq in Hf. rewrite <- Hf.
      apply armed_timers_own.
    + apply Forall_app. split; assumption.
  - destruct (async_fire_effect svc latency id t (l1 ++ l2) n)
      as (_ & T & F & _).
    cbv zeta in *. rewrite T, F. rewrite Ea in Alt.
    apply Forall_app in Alt. destruct Alt as (A1 & A2).
    inversion A2 as [|? ? Ht A3]; subst. split.
    + apply Forall_app. split; assumption.
    + apply Forall_app. split; [exact Alf|].
      constructor; [exact Ht|constructor].
Qed.

(** When nothing is due in the whole system, nothing is due for the
    complaint taken alone. *)
Lemma async_idle_agree (id : nat) (E0 : list (Z * Stage))
    (R0 : list Notification.t) (deadline : Z) (a b : Async.Net) :
  Async.idle deadline a ->
  Async.agree id E0 R0 a b ->
  Async.alone id b ->
  Async.idle deadline b.
Proof.
  intros I (At & Af & _) (Alt & Alf) u N.
  unfold Async.own_timers, Async.own_flights in *.
  rewrite (filter_all _ _ Alt) in At. rewrite (filter_all _ _ Alf) in Af.
  assert (Ha : forall t, In t (timers (Async.sys b)) ->
                         (deadline < fire_at t)%Z).
  { intros t Ht. rewrite <- At in Ht. apply filter_In in Ht.
    destruct Ht as [Ht _].
    destruct (Async.next a) as [ua|] eqn:Na.
    - pose proof (I ua Na) as Late.
      destruct (async_next_least a ua Na) as (Lt & _).
      pose proof (proj1 (Forall_forall _ _) Lt t Ht). cbv beta in *. lia.
    - apply async_next_None in Na. destruct Na as (Et & _).
      rewrite Et in Ht. destruct Ht. }
  assert (Hb : forall f, In f (Async.flights b) ->
                         (deadline < Async.lands_at f)%Z).
  { intros f Hf. rewrite <- Af in Hf. apply filter_In in Hf.
    destruct Hf as [Hf _].
    destruct (Async.next a) as [ua|] eqn:Na.
    - pose proof (I ua Na) as Late.
      destruct (async_next_least a ua Na) as (_ & Lf).
      pose proof (proj1 (Forall_forall _ _) Lf f Hf). cbv beta in *. lia.
    - apply async_next_None in Na. destruct Na as (_ & Ef).
      rewrite Ef in Hf. destruct Hf. }
  apply async_next_spec in N.
  destruct u as [f rest|t rest]; destruct N as (E & _);
    apply earliest_by_spec in E; destruct E as (l1 & l2 & Ea & _); simpl.
  - apply Hb. rewrite Ea. apply in_or_app. right. now left.
  - apply Ha. rewrite Ea. apply in_or_app. right. now left.
Qed.

(** The complaint sees the same whether or not other complaints have
    timers and inserts pending. *)
Lemma async_run_loop_agree (id : nat) (E0 : list (Z * Stage))
    (R0 : list Notification.t) (deadline : Z) :
  forall fuel a,
  Async.budget a <= fuel ->
  forall b,
  Async.agree id E0 R0 a b ->
  Async.punctual id a ->
  Async.punctual id b ->
  Async.alone id b ->
  Async.agree id E0 R0
    (Async.run_loop svc latency fuel deadline a)
    (Async.run_loop svc latency (Async.budget b) deadline b).
Proof.
  induction fuel as [|fuel IH]; intros a Ba b Ag Pa Pb Al.
  - assert (Ia : Async.idle deadline a).
    { intros u N. apply (async_budget_turn svc latency) in N. lia. }
    rewrite (async_run_loop_idle svc latency _ _ _
               (async_idle_agree id E0 R0 deadline a b Ia Ag Al)).
    exact Ag.
  - destruct (Async.next a) as [u|] eqn:N.
    + destruct (Z.leb_spec (Async.turn_time u) deadline) as [D|D].
      * rewrite (async_run_loop_turn svc latency fuel deadline a u N D).
        pose proof (async_budget_turn svc latency a u N) as Bt.
        destruct (Async.turn_own id u) eqn:Own.
        -- (* a turn of this complaint: both systems take it *)
           pose proof (async_own_next id E0 R0 a b u N Own Ag Al) as Nb.
           pose proof (async_budget_turn svc latency b _ Nb) as Bb.
           destruct (Async.budget b) as [|fb] eqn:Eb; [lia|].
           assert (Db : (Async.turn_time (Async.restrict_turn id u) <= deadline)%Z)
             by (destruct u; exact D).
           rewrite (async_run_loop_turn svc latency fb deadline b _ Nb Db).
           destruct (async_own_turn id a u N Own Pa) as (Ta & Fa & Ea & Ra & Pa').
           assert (Ownb : Async.turn_own id (Async.restrict_turn id u) = true)
             by (destruct u; exact Own).
           destruct (async_own_turn id b _ Nb Ownb Pb) as (Tb & Fb & Eb' & Rb & Pb').
           cbv zeta in *.
           replace fb with (Async.budget (Async.turn svc latency
                                            (Async.restrict_turn id u) b))
             by lia.
           apply IH; [lia| |exact Pa'|exact Pb'|
                      exact (async_alone_turn id b _ Nb Al)].
           destruct Ag as (At & Af & Ae & Ar).
           unfold Async.agree. rewrite Ta, Fa, Ea, Ra, Tb, Fb, Eb', Rb.
           destruct u as [f rest|t rest]; simpl;
             rewrite ?filter_filter, ?At, ?Af, ?Ae, ?Ar, <- ?app_assoc;
             repeat split.
        -- (* a turn of another complaint *)
           destruct (async_foreign_turn id E0 R0 a b u N Own Ag Pa) as (Ag' & Pa').
           apply IH; [lia|exact Ag'|exact Pa'|exact Pb|exact Al].
      * assert (Ia : Async.idle deadline a).
        { intros u' N'. rewrite N in N'. now injection N' as <-. }
        rewrite (async_run_loop_idle svc latency _ _ _ Ia).
        rewrite (async_run_loop_idle svc latency _ _ _
                   (async_idle_agree id E0 R0 deadline a b Ia Ag Al)).
        exact Ag.
    + assert (Ia : Async.idle deadline a).
      { intros u' N'. rewrite N in N'. discriminate. }
      rewrite (async_run_loop_idle svc latency _ _ _ Ia).
      rewrite (async_run_loop_idle svc latency _ _ _
                 (async_idle_agree id E0 R0 deadline a b Ia Ag Al)).
      exact Ag.
Qed.

End AsyncAgree.

(** *** The timeline of one arming taken alone *)

Section AsyncTimeline.

Variable svc : Service.
Variable latency : Z -> Task -> Z.
Hypothesis latency_nonneg : forall t k, (0 <= latency t k)%Z.

Ltac decide_cmp :=
  repeat match goal with
  | |- context [Z.max ?a ?b] =>
      first [ rewrite (Z.max_r a b) by lia | rewrite (Z.max_l a b) by lia ]
  | |- context [(?a <=? ?b)%Z] =>
      first [ rewrite (proj2 (Z.leb_le a b)) by lia
            | rewrite (proj2 (Z.leb_gt a b)) by lia ]
  | |- context [(?a <? ?b)%Z] =>
      first [ rewrite (proj2 (Z.ltb_lt a b)) by lia
            | rewrite (proj2 (Z.ltb_ge a b)) by lia ]
  end.

Ltac split_cmp :=
  match goal with
  | |- context [(?a <=? ?b)%Z] => destruct (Z.leb_spec a b)
  | |- context [(?a <? ?b)%Z] => destruct (Z.ltb_spec a b)
  end.

Lemma async_run_loop_S (fuel : nat) (deadline : Z) (n : Async.Net) :
  Async.run_loop svc latency (S fuel) deadline n
  = match Async.next n with
    | Some u =>
        if (Async.turn_time u <=? deadline)%Z
        then Async.run_loop svc latency fuel deadline (Async.turn svc latency u n)
        else n
    | None => n
    end.
Proof. reflexivity. Qed.

Lemma async_run_loop_O (deadline : Z) (n : Async.Net) :
  Async.run_loop svc latency 0 deadline n = n.
Proof. reflexivity. Qed.

Ltac norm_state :=
  match goal with
  | |- context [Async.run_loop ?s ?l ?f ?D ?n] =>
      let n' := eval cbv -[confirmation_message acknowledgement_message
                           resolution_message Z.add Z.leb Z.ltb Z.max
                           notification_insert_error] in n in
      change (Async.run_loop s l f D n) with (Async.run_loop s l f D n')
  end.

Ltac eval_next :=
  match goal with
  | |- context [Async.next ?n] =>
      let r := eval cbv -[confirmation_message acknowledgement_message
                          resolution_message Z.add Z.leb Z.ltb Z.max] in
                 (Async.next n) in
      change (Async.next n) with r
  end.

Ltac use_answers :=
  repeat match goal with
         | H : notification_insert_error _ _ = _ |- _ => rewrite H
         end.

Ltac settle :=
  repeat first
    [ progress decide_cmp
    | progress cbn [Async.turn_time Async.lands_at fire_at]
    | split_cmp ].

Ltac one_turn :=
  norm_state; use_answers; norm_state; decide_cmp;
  first [ rewrite async_run_loop_S; eval_next; settle
        | rewrite async_run_loop_O ].

Ltac leaf :=
  repeat first
    [ progress cbn -[confirmation_message acknowledgement_message
                     resolution_message Z.add Z.leb Z.ltb Z.max]
    | progress use_answers
    | progress rewrite ?Nat.eqb_refl
    | progress decide_cmp ];
  split; reflexivity.

Lemma async_lone_timeline (id : nat) (code issueType : string)
    (armed_at deadline : Z) :
  (armed_at <= deadline)%Z ->
  let lone :=
    Async.createComplaintNotifications latency id code issueType
      (Async.of_sys (initial_sys armed_at)) in
  let b := Async.run_loop svc latency (Async.budget lone) deadline lone in
  emissions_of id (Async.sys b)
  = filter (fun e => (fst e <=? deadline)%Z)
           (Async.emissions latency id code issueType armed_at)
  /\ Async.rows_of id b
     = map (notification_row id code issueType)
           (filter (fun e => accepted svc (snd e))
              (filter (fun e => (fst e <=? deadline)%Z)
                 (Async.landings latency id code issueType armed_at))).
Proof.
  intros Ahead. cbv zeta.
  unfold Async.landings, Async.emissions, Async.resolution_lands_at,
    Async.acknowledgement_lands_at, Async.confirmed_at,
    Async.confirmation_task, Async.acknowledgement_task, Async.resolution_task,
    Async.createComplaintNotifications, Async.of_sys, initial_sys,
    Async.rows_of, emissions_of, accepted.
  pose proof (latency_nonneg armed_at
                (NotifyTask id code confirmation
                   (confirmation_message code issueType) (Some "anonymous"))) as D0.
  pose proof (latency_nonneg
                (armed_at
                 + latency armed_at
                     (NotifyTask id code confirmation
                        (confirmation_message code issueType) (Some "anonymous"))
                 + 5000)
                (NotifyTask id code acknowledgement
                   (acknowledgement_message code) (Some "anonymous"))) as D1.
  pose proof (latency_nonneg
                (armed_at
                 + latency armed_at
                     (NotifyTask id code confirmation
                        (confirmation_message code issueType) (Some "anonymous"))
                 + 30000)
                (NotifyTask id code resolution
                   (resolution_message code) (Some "anonymous"))) as D2.
  destruct (notification_insert_error svc confirmation) as [ec|] eqn:Ec;
    destruct (notification_insert_error svc acknowledgement) as [ea|] eqn:Ea;
    destruct (notification_insert_error svc resolution) as [er|] eqn:Er.
  all: match goal with
       | |- context [Async.budget ?n] =>
           let k := eval cbv in (Async.budget n) in
           change (Async.budget n) with k
       end.
  all: repeat one_turn.
  all: leaf.
Qed.

End AsyncTimeline.

(** *** The timeline of an arming *)

Lemma async_arm_agree (latency : Z -> Task -> Z) (id : nat)
    (code issueType : string) (n : Async.Net) :
  (forall t k, (0 <= latency t k)%Z) ->
  Async.unarmed id n ->
  let armed := Async.createComplaintNotifications latency id code issueType n in
  let lone :=
    Async.createComplaintNotifications latency id code issueType
      (Async.of_sys (initial_sys (now (Async.sys n)))) in
  Async.agree id (emissions_of id (Async.sys n)) (Async.rows_of id n) armed lone
  /\ Async.punctual id armed
  /\ Async.punctual id lone
  /\ Async.alone id lone.
Proof.
  intros Nonneg (Ut & Uf). cbv zeta.
  set (k := NotifyTask id code confirmation
              (confirmation_message code issueType) (Some "anonymous")).
  pose proof (Nonneg (now (Async.sys n)) k) as D0.
  unfold Async.createComplaintNotifications. fold k.
  destruct (async_send_effect latency id k Async.FromArming n)
    as (Na & Ta & Fa & Ea & Ra).
  destruct (async_send_effect latency id k Async.FromArming
              (Async.of_sys (initial_sys (now (Async.sys n)))))
    as (Nb & Tb & Fb & Eb & Rb).
  cbv zeta in *.
  assert (Own : Async.own id
                  (Async.mkFlight
                     (now (Async.sys n) + latency (now (Async.sys n)) k)
                     k Async.FromArming) = true)
    by (unfold Async.own; simpl; apply Nat.eqb_refl).
  unfold Async.agree, Async.punctual, Async.alone, Async.own_timers,
    Async.own_flights.
  rewrite Na, Ta, Fa, Ea, Ra, Nb, Tb, Fb, Eb, Rb.
  cbn [Async.of_sys Async.sys Async.flights initial_sys now timers app].
  rewrite (filter_none _ _ Ut), filter_app, (filter_none _ _ Uf).
  cbn [filter app task_complaint k]. rewrite Own, Nat.eqb_refl.
  change (emissions_of id (initial_sys (now (Async.sys n)))) with (@nil (Z * Stage)).
  change (Async.rows_of id (Async.of_sys (initial_sys (now (Async.sys n)))))
    with (@nil Notification.t).
  rewrite app_nil_r. cbn [app].
  repeat split; repeat constructor; simpl; try lia; exact Own.
Qed.

(** An arming of a complaint that has nothing pending, at every later
    instant. *)
Lemma async_arming_timeline (svc : Service) (latency : Z -> Task -> Z)
    (id : nat) (code issueType : string) (deadline : Z) (n : Async.Net) :
  (forall t k, (0 <= latency t k)%Z) ->
  Async.unarmed id n ->
  (now (Async.sys n) <= deadline)%Z ->
  let armed := Async.createComplaintNotifications latency id code issueType n in
  let n' := Async.advance_to svc latency deadline armed in
  emissions_of id (Async.sys n')
  = (emissions_of id (Async.sys n)
     ++ filter (fun e => (fst e <=? deadline)%Z)
               (Async.emissions latency id code issueType (now (Async.sys n))))%list
  /\ Async.rows_of id n'
     = (Async.rows_of id n
        ++ map (notification_row id code issueType)
             (filter (fun e => accepted svc (snd e))
                (filter (fun e => (fst e <=? deadline)%Z)
                   (Async.landings latency id code issueType
                      (now (Async.sys n))))))%list.
Proof.
  intros Nonneg Un Ahead.
  destruct (async_arm_agree latency id code issueType n Nonneg Un)
    as (Ag & Pa & Pb & Al).
  cbv zeta in *.
  pose proof (async_run_loop_agree svc latency Nonneg id _ _ deadline
                _ _ (le_n _) _ Ag Pa Pb Al) as (_ & _ & Ae & Ar).
  destruct (async_lone_timeline svc latency Nonneg id code issueType
              (now (Async.sys n)) deadline Ahead) as (Le & Lr).
  cbv zeta in *. rewrite Le in Ae. rewrite Lr in Ar.
  split; [exact Ae|exact Ar].
Qed.






Lemma instant_nonneg : forall t k, (0 <= Async.instant t k)%Z.
Proof. intros t k. unfold Async.instant. lia. Qed.


(** With a sink that answers within the instant the timeline is the one of
    the timer queue that takes an awaited insert for one step. *)
Lemma instant_answers_agree (svc : Service) (id : nat)
    (code issueType : string) (deadline : Z) (s : Sys) :
  Forall (fun t => mine id t = false) (timers s) ->
  (now s <= deadline)%Z ->
  let queued :=
    advance_to svc deadline
      (exec (createComplaintNotifications svc id code issueType) s) in
  let n' :=
    Async.advance_to svc Async.instant deadline
      (Async.createComplaintNotifications Async.instant id code issueType
         (Async.of_sys s)) in
  emissions_of id (Async.sys n') = emissions_of id queued
  /\ Async.rows_of id n'
     = filter (for_complaint id) (notifications (cloud queued)).
Proof.
  intros Others Ahead.
  destruct (arming_timeline svc id code issueType deadline s Others Ahead)
    as (_ & E & W & _).
  destruct (async_arming_timeline svc Async.instant id code issueType deadline
              (Async.of_sys s)) as (E' & W').
  { exact instant_nonneg. }
  { split; [exact Others|constructor]. }
  { exact Ahead. }
  cbv zeta in *.
  rewrite E, W, E', W'.
  unfold Async.emissions, Async.landings, Async.resolution_lands_at,
    Async.acknowledgement_lands_at, Async.confirmed_at, Async.instant, schedule.
  cbn [Async.of_sys Async.sys Async.rows_of].
  rewrite !Z.add_0_r.
  rewrite (proj2 (Z.ltb_ge _ _)) by lia.
  split; reflexivity.
Qed.





(* ================================================================== *)
(** * Further properties *)
(* ================================================================== *)

(** ** Substring matching of the resolver *)

Lemma prefix_app (a b : string) : prefix a (a ++ b) = true.
Proof.
  induction a as [|c a IH]; simpl; [now destruct b|].
  destruct (ascii_dec c c); [exact IH|congruence].
Qed.

Lemma prefix_split (a s : string) :
  prefix a s = true -> exists post, s = a ++ post.
Proof.
  revert s. induction a as [|c a IH]; intros s H.
  - now exists s.
  - destruct s as [|d s]; simpl in H; [discriminate|].
    destruct (ascii_dec c d) as [->|]; [|discriminate].
    destruct (IH s H) as (post & ->). now exists post.
Qed.

Lemma prefix_includes (s sub : string) :
  prefix sub s = true -> JS.includes s sub = true.
Proof.
  destruct s; simpl; intros H; [exact H|]. now rewrite H.
Qed.

Lemma includes_app (pre sub post : string) :
  JS.includes (pre ++ sub ++ post) sub = true.
Proof.
  induction pre as [|c pre IH]; simpl.
  - apply prefix_includes, prefix_app.
  - rewrite IH. apply orb_true_r.
Qed.

(** [s.includes(sub)] holds exactly when [sub] occurs in [s]. *)
Lemma includes_occurs (s sub : string) :
  JS.includes s sub = true <-> occurs_in sub s.
Proof.
  split.
  - induction s as [|c s IH]; cbn [JS.includes]; intros H.
    + destruct sub; [|discriminate]. now exists "", "".
    + apply orb_true_iff in H. destruct H as [H|H].
      * destruct (prefix_split _ _ H) as (post & E). now exists "", post.
      * destruct (IH H) as (pre & post & ->). now exists (String c pre), post.
  - intros (pre & post & ->). apply includes_app.
Qed.

Lemma toLowerCase_app (a b : string) :
  JS.toLowerCase (a ++ b) = JS.toLowerCase a ++ JS.toLowerCase b.
Proof.
  induction a as [|c a IH]; simpl; [reflexivity|]. now rewrite IH.
Qed.

Lemma first_match_None (rules : list (list string * string)) (token : string) :
  first_match rules token = None
  <-> forall kw, In kw (concat (map fst rules)) -> JS.includes token kw = false.
Proof.
  induction rules as [|[kws a] rules IH]; simpl.
  - split; [intros _ kw []|reflexivity].
  - destruct (existsb (JS.includes token) kws) eqn:E.
    + split; [discriminate|]. intros H.
      apply existsb_exists in E. destruct E as (kw & Hin & Hk).
      rewrite (H kw) in Hk; [discriminate|]. apply in_or_app. now left.
    + rewrite IH. split; intros H kw Hin.
      * apply in_app_or in Hin. destruct Hin as [Hin|Hin]; [|now apply H].
        destruct (JS.includes token kw) eqn:K; [|reflexivity].
        assert (existsb (JS.includes token) kws = true)
          by (apply existsb_exists; now exists kw).
        congruence.
      * apply H. apply in_or_app. now right.
Qed.

Lemma first_match_Some (rules : list (list string * string))
    (token authority : string) :
  first_match rules token = Some authority ->
  exists kws kw,
    In (kws, authority) rules /\ In kw kws /\ JS.includes token kw = true.
Proof.
  induction rules as [|[kws a] rules IH]; simpl; [discriminate|].
  destruct (existsb (JS.includes token) kws) eqn:E.
  - intros [= <-]. apply existsb_exists in E. destruct E as (kw & Hin & Hk).
    exists kws, kw. auto.
  - intros H. destruct (IH H) as (kws' & kw & Hr & Hin & Hk).
    exists kws', kw. auto.
Qed.

(** X1. The first rule wins wherever its keyword stands: a token that holds
    "electric" in any letter case, at any position, is routed to the
    Electricity Department, whatever other keywords it holds. *)
Theorem X1_electric_anywhere_any_case (pre kw post : string) :
  JS.toLowerCase kw = "electric" ->
  mapAuthorityForIssue (pre ++ kw ++ post) = Some "Electricity Department".
Proof.
  intros K. rewrite mapAuthorityForIssue_normalized.
  unfold routing_rules, first_match, existsb.
  now rewrite !toLowerCase_app, K, includes_app.
Qed.

Lemma X1_electric_anywhere_any_case_witness :
  JS.toLowerCase "ELECTRIC" = "electric"
  /\ mapAuthorityForIssue "Noise and water near the ELECTRICity pole"
     = Some "Electricity Department".
Proof.
  split; [reflexivity|].
  exact (X1_electric_anywhere_any_case "Noise and water near the "
           "ELECTRIC" "ity pole" eq_refl).
Defined.

(** X2. The resolver answers with no authority exactly when none of the
    nine keywords occurs in the lower-cased token; and an authority it
    returns is that of a rule one of whose keywords occurs there. *)
Theorem X2_no_authority_iff_no_keyword (issue : string) :
  (mapAuthorityForIssue issue = None
   <-> forall kw, In kw routing_keywords ->
                  ~ occurs_in kw (JS.toLowerCase issue))
  /\ (forall authority,
        mapAuthorityForIssue issue = Some authority ->
        exists kws kw,
          In (kws, authority) routing_rules /\ In kw kws
          /\ occurs_in kw (JS.toLowerCase issue)).
Proof.
  rewrite mapAuthorityForIssue_normalized. split.
  - rewrite first_match_None. unfold routing_keywords.
    split; intros H kw Hin.
    + intros O. apply includes_occurs in O. rewrite (H kw Hin) in O.
      discriminate.
    + destruct (JS.includes (JS.toLowerCase issue) kw) eqn:K; [|reflexivity].
      exfalso. apply (H kw Hin). now apply includes_occurs.
  - intros authority H.
    destruct (first_match_Some _ _ _ H) as (kws & kw & Hr & Hin & Hk).
    exists kws, kw. repeat split; try assumption. now apply includes_occurs.
Qed.

Lemma X2_no_authority_iff_no_keyword_witness :
  mapAuthorityForIssue "Big Pothole" = Some "Public Works Department (PWD)"
  /\ exists kws kw,
       In (kws, "Public Works Department (PWD)") routing_rules /\ In kw kws
       /\ occurs_in kw "big pothole".
Proof.
  split; [reflexivity|].
  exact (proj2 (X2_no_authority_iff_no_keyword "Big Pothole") _ eq_refl).
Defined.

(** ** File names of the upload *)

Lemma append_nil_r (s : string) : s ++ "" = s.
Proof. induction s as [|c s IH]; simpl; [reflexivity|]. now rewrite IH. Qed.

Lemma append_assoc (a b c : string) : (a ++ b) ++ c = a ++ b ++ c.
Proof. induction a as [|x a IH]; simpl; [reflexivity|]. now rewrite IH. Qed.

Lemma split_dot_pop_no_dot (s acc : string) :
  JS.includes s "." = false -> JS.split_dot_pop s acc = acc ++ s.
Proof.
  revert acc. induction s as [|c s IH]; intros acc H; simpl.
  - now rewrite append_nil_r.
  - cbn [JS.includes] in H. apply orb_false_iff in H. destruct H as [P H].
    destruct (Ascii.eqb_spec c ".") as [->|N].
    + simpl in P. destruct s; discriminate.
    + rewrite (IH _ H). now rewrite append_assoc.
Qed.

Lemma split_dot_pop_last (a b acc : string) :
  JS.split_dot_pop (a ++ "." ++ b) acc = JS.split_dot_pop b "".
Proof.
  revert acc. induction a as [|c a IH]; intros acc; simpl.
  - reflexivity.
  - destruct (Ascii.eqb c "."); apply IH.
Qed.

(** X3. The extension [handleSubmit] gives the stored file is the text
    after the last dot of the file's name; a name without a dot is taken
    whole, so a file called "photo" picked at time t is stored as
    "t.photo", and a name that ends in a dot gives an empty extension. *)
Theorem X3_upload_name_extension (t : Z) (base ext body : string) :
  JS.includes ext "." = false ->
  upload_name t (mkFile (base ++ "." ++ ext) body) = JS.show_Z t ++ "." ++ ext
  /\ upload_name t (mkFile ext body) = JS.show_Z t ++ "." ++ ext
  /\ upload_name t (mkFile (base ++ ".") body) = JS.show_Z t ++ ".".
Proof.
  intros H. unfold upload_name. cbn [file_name].
  rewrite split_dot_pop_last, (split_dot_pop_no_dot ext "" H).
  replace (base ++ ".") with (base ++ "." ++ "") by reflexivity.
  rewrite split_dot_pop_last. repeat split.
Qed.

Lemma X3_upload_name_extension_witness :
  JS.includes "gz" "." = false
  /\ upload_name 1700 (mkFile "site.photos.tar.gz" "") = "1700.gz"
  /\ upload_name 1700 (mkFile "gz" "") = "1700.gz".
Proof.
  split; [reflexivity|].
  destruct (X3_upload_name_extension 1700 "site.photos.tar" "gz" "" eq_refl)
    as (A & B & _).
  split; [exact A | exact B].
Defined.

(** ** More on the submission pipeline *)

Lemma handleSubmit_stored (svc : Service) (s : Sys) :
  valid (formData (ui s)) ->
  upload_ok svc (formData (ui s)) ->
  complaint_insert_error svc = None ->
  fresh_serial (cloud s) ->
  let s' := exec (handleSubmit svc) s in
  complaints (cloud s') = (complaints (cloud s) ++ [stored_row svc s])%list
  /\ blobs (cloud s')
     = (blobs (cloud s) ++ stored_blob (now s) (FormData.media (formData (ui s))))%list
  /\ serial (cloud s') = S (serial (cloud s)).
Proof.
  intros V U I F. unfold fresh_serial in F.
  unfold stored_row, stored_blob, stored_url, upload_name.
  run_handler. rewrite (valid_guard _ V), I.
  rewrite truthy_authority_mapAuthorityForIssue.
  destruct U as [U|U]; [rewrite U | rewrite U; destruct (FormData.media _)];
    destruct (mapAuthorityForIssue _);
    destruct (complaint_update_error svc), (status_insert_error svc); simpl;
    rewrite ?map_app, ?(map_fresh _ _ _ F), ?app_nil_r; simpl;
    rewrite ?Nat.eqb_refl; repeat split.
Qed.

(** X4. When the complaint insert is refused, the submission fails as a
    whole: the error is logged, the user sees the failure toast and stays
    on the form, no complaint row and no status row is written and no
    routing request is sent. The media uploaded just before is not taken
    back: the blob stays in the store with no complaint pointing at it. *)
Theorem X4_insert_failure_keeps_blob (svc : Service) (s : Sys) (e : Error) :
  valid (formData (ui s)) ->
  upload_ok svc (formData (ui s)) ->
  complaint_insert_error svc = Some e ->
  let s' := exec (handleSubmit svc) s in
  let media := FormData.media (formData (ui s)) in
  handleSubmit svc s = (Done tt, s')
  /\ last_toast s' = Some toast_submission_failed
  /\ console (ui s')
     = (console (ui s) ++ [("Error submitting complaint: " ++ e)%string])%list
  /\ step (ui s') = step (ui s)
  /\ complaintId (ui s') = complaintId (ui s)
  /\ isSubmitting (ui s') = false
  /\ complaints (cloud s') = complaints (cloud s)
  /\ complaint_status_updates (cloud s') = complaint_status_updates (cloud s)
  /\ serial (cloud s') = serial (cloud s)
  /\ blobs (cloud s') = (blobs (cloud s) ++ stored_blob (now s) media)%list
  /\ exists row,
       requests (cloud s')
       = (requests (cloud s)
          ++ map (fun b => (now s, ReqUpload "complaints" (fst b)))
                 (stored_blob (now s) media)
          ++ [(now s, ReqInsertComplaint row)])%list.
Proof.
  intros V U I. unfold stored_blob, upload_name.
  run_handler. rewrite (valid_guard _ V), I.
  destruct U as [U|U]; [rewrite U | rewrite U; destruct (FormData.media _)];
    simpl; rewrite ?app_nil_r; repeat split;
    try (unfold last_toast; simpl; rewrite map_app; simpl; apply last_last);
    eexists; rewrite <- ?app_assoc; reflexivity.
Qed.

Lemma X4_insert_failure_keeps_blob_witness :
  let svc := mkService None (Some "row refused") None None (fun _ => None)
                       relevant_answer sample_code sample_url in
  let fd := FormData.with_media (Some sample_photo) sample_form in
  let s' := exec (handleSubmit svc) (sys_with fd) in
  valid fd
  /\ complaints (cloud s') = []
  /\ blobs (cloud s') = [("1000.jpg", sample_photo)]
  /\ last_toast s' = Some toast_submission_failed.
Proof.
  cbv zeta.
  assert (V : valid (FormData.with_media (Some sample_photo) sample_form))
    by (repeat split; discriminate).
  split; [exact V|].
  pose proof (X4_insert_failure_keeps_blob
                (mkService None (Some "row refused") None None (fun _ => None)
                           relevant_answer sample_code sample_url)
                (sys_with (FormData.with_media (Some sample_photo) sample_form))
                "row refused" V (or_intror eq_refl) eq_refl) as H.
  cbv zeta in H. destruct H as (_ & T & _ & _ & _ & _ & C & _ & _ & B & _).
  split; [exact C | split; [exact B | exact T]].
Defined.

Lemma guard_false_valid (fd : FormData.t) :
  negb (JS.truthy (FormData.state fd))
    || negb (JS.truthy (FormData.city fd))
    || negb (JS.truthy (FormData.issueType fd))
    || negb (JS.truthy (FormData.description fd)) = false ->
  valid fd.
Proof.
  unfold valid.
  destruct (FormData.state fd), (FormData.city fd), (FormData.issueType fd),
    (FormData.description fd); simpl; try discriminate.
  intros _. repeat split; discriminate.
Qed.

Lemma handleSubmit_frame (svc : Service) (s : Sys) :
  let s' := exec (handleSubmit svc) s in
  handleSubmit svc s = (Done tt, s')
  /\ notifications (cloud s') = notifications (cloud s)
  /\ timers s' = timers s
  /\ now s' = now s
  /\ formData (ui s') = formData (ui s)
  /\ isAnalyzing (ui s') = isAnalyzing (ui s)
  /\ (valid (formData (ui s)) -> isSubmitting (ui s') = false)
  /\ (~ valid (formData (ui s)) -> isSubmitting (ui s') = isSubmitting (ui s)).
Proof.
  run_handler.
  destruct (negb (JS.truthy (FormData.state (formData (ui s))))
            || negb (JS.truthy (FormData.city (formData (ui s))))
            || negb (JS.truthy (FormData.issueType (formData (ui s))))
            || negb (JS.truthy (FormData.description (formData (ui s)))))
    eqn:G.
  - simpl. repeat split. intros V. rewrite (valid_guard _ V) in G. discriminate.
  - apply guard_false_valid in G.
    rewrite truthy_authority_mapAuthorityForIssue.
    destruct (FormData.media _); [destruct (upload_error svc)|];
      simpl; destruct (complaint_insert_error svc); simpl;
      try destruct (mapAuthorityForIssue _);
      try destruct (complaint_update_error svc);
      try destruct (status_insert_error svc); simpl;
      repeat split; intros N; contradiction.
Qed.

(** X5. No exception escapes [handleSubmit]: whatever the form holds and
    whatever the collaborators answer, the handler completes. On no path
    does it touch the notification sink, the timers, the clock or the form,
    and [isSubmitting] is back to [false] whenever the form passed
    validation (it is left as it was when validation fails). *)
Theorem X5_handleSubmit_never_throws (svc : Service) (s : Sys) :
  let s' := exec (handleSubmit svc) s in
  handleSubmit svc s = (Done tt, s')
  /\ notifications (cloud s') = notifications (cloud s)
  /\ timers s' = timers s
  /\ now s' = now s
  /\ formData (ui s') = formData (ui s)
  /\ isAnalyzing (ui s') = isAnalyzing (ui s)
  /\ (valid (formData (ui s)) -> isSubmitting (ui s') = false)
  /\ (~ valid (formData (ui s)) -> isSubmitting (ui s') = isSubmitting (ui s)).
Proof. exact (handleSubmit_frame svc s). Qed.

Lemma X5_handleSubmit_never_throws_witness :
  valid sample_form
  /\ isSubmitting (ui (exec (handleSubmit service_routing_down)
                            (sys_with sample_form))) = false
  /\ ~ valid FormData.initial
  /\ isSubmitting (ui (exec (handleSubmit service_up)
                            (sys_with FormData.initial))) = false.
Proof.
  assert (N : ~ valid FormData.initial) by (intros (A & _); now apply A).
  split; [exact sample_form_valid|]. split; [|split; [exact N|]].
  - destruct (X5_handleSubmit_never_throws service_routing_down
                (sys_with sample_form)) as (_ & _ & _ & _ & _ & _ & H & _).
    exact (H sample_form_valid).
  - destruct (X5_handleSubmit_never_throws service_up
                (sys_with FormData.initial)) as (_ & _ & _ & _ & _ & _ & _ & H).
    exact (H N).
Defined.

(** X6. Starting on the form, [handleSubmit] reaches the success step
    exactly when the form is valid, the media (if any) was stored and the
    complaint insert was accepted; the answers of the routing writes play
    no part. *)
Theorem X6_success_iff (svc : Service) (s : Sys) :
  step (ui s) = form ->
  (step (ui (exec (handleSubmit svc) s)) = success
   <-> valid (formData (ui s))
       /\ upload_ok svc (formData (ui s))
       /\ complaint_insert_error svc = None).
Proof.
  intros Form. split.
  - unfold upload_ok. run_handler.
    destruct (negb (JS.truthy (FormData.state (formData (ui s))))
              || negb (JS.truthy (FormData.city (formData (ui s))))
              || negb (JS.truthy (FormData.issueType (formData (ui s))))
              || negb (JS.truthy (FormData.description (formData (ui s)))))
      eqn:G.
    + simpl. rewrite Form. discriminate.
    + apply guard_false_valid in G.
      destruct (FormData.media _); [destruct (upload_error svc)|];
        simpl; destruct (complaint_insert_error svc); simpl;
        rewrite ?Form; try discriminate; intros _; auto.
  - intros (V & U & I). now destruct (handleSubmit_accepted svc s V U I) as (_ & St & _).
Qed.

Lemma X6_success_iff_witness :
  step (ui (sys_with sample_form)) = form
  /\ step (ui (exec (handleSubmit service_up) (sys_with sample_form))) = success
  /\ step (ui (exec (handleSubmit service_storage_down)
                    (sys_with (FormData.with_media (Some sample_photo) sample_form))))
     <> success.
Proof.
  split; [reflexivity|]. split.
  - apply (proj2 (X6_success_iff service_up (sys_with sample_form) eq_refl)).
    split; [exact sample_form_valid|]. split; [now left|reflexivity].
  - intros H.
    apply (proj1 (X6_success_iff service_storage_down
                    (sys_with (FormData.with_media (Some sample_photo) sample_form))
                    eq_refl)) in H.
    destruct H as (_ & [U|U] & _); discriminate.
Defined.

Lemma or_null_None (v : string) : JS.or_null v = None <-> v = "".
Proof.
  destruct v; unfold JS.or_null; simpl; split; intros H;
    try reflexivity; discriminate.
Qed.

(** X7. The row a successful submission stores copies the validated form:
    [state], [city], [issue_type] and [description] are the form's and hence
    non-empty; [address_line1] is null exactly when the address field is
    empty; the district has no column of its own but is folded into
    [address_line2], which is null exactly when district and second address
    line are both empty, the district alone, "district, address" or the
    address alone otherwise. *)
Theorem X7_stored_row_copies_form (svc : Service) (s : Sys) :
  valid (formData (ui s)) ->
  upload_ok svc (formData (ui s)) ->
  complaint_insert_error svc = None ->
  fresh_serial (cloud s) ->
  let fd := formData (ui s) in
  exists row,
    complaints (cloud (exec (handleSubmit svc) s))
    = (complaints (cloud s) ++ [row])%list
    /\ row_filled row
    /\ Complaint.state row = FormData.state fd
    /\ Complaint.city row = FormData.city fd
    /\ Complaint.issue_type row = FormData.issueType fd
    /\ Complaint.description row = FormData.description fd
    /\ (Complaint.address_line1 row = None <-> FormData.address1 fd = "")
    /\ (FormData.address1 fd <> "" ->
        Complaint.address_line1 row = Some (FormData.address1 fd))
    /\ (Complaint.address_line2 row = None
        <-> FormData.district fd = "" /\ FormData.address2 fd = "")
    /\ (FormData.district fd <> "" -> FormData.address2 fd = "" ->
        Complaint.address_line2 row = Some (FormData.district fd))
    /\ (FormData.district fd <> "" -> FormData.address2 fd <> "" ->
        Complaint.address_line2 row
        = Some (FormData.district fd ++ ", " ++ FormData.address2 fd))
    /\ (FormData.district fd = "" -> FormData.address2 fd <> "" ->
        Complaint.address_line2 row = Some (FormData.address2 fd)).
Proof.
  intros V U I F.
  destruct (handleSubmit_stored svc s V U I F) as (C & _).
  cbv zeta in *. exists (stored_row svc s). split; [exact C|].
  unfold stored_row, row_filled, address_line2_of. simpl.
  split; [exact V|].
  repeat (split; [reflexivity|]).
  split; [apply or_null_None|].
  destruct (FormData.address1 (formData (ui s))),
    (FormData.district (formData (ui s))),
    (FormData.address2 (formData (ui s))); simpl;
    repeat split; intros;
    repeat match goal with H : _ /\ _ |- _ => destruct H end;
    rewrite ?append_nil_r;
    try reflexivity; try congruence; try discriminate.
Qed.

Lemma X7_stored_row_copies_form_witness :
  let fd := FormData.with_address2 "Sector 4"
              (FormData.with_district "Rohini" sample_form) in
  valid fd
  /\ map Complaint.address_line2
         (complaints (cloud (exec (handleSubmit service_up) (sys_with fd))))
     = [Some "Rohini, Sector 4"].
Proof.
  cbv zeta.
  assert (V : valid (FormData.with_address2 "Sector 4"
                       (FormData.with_district "Rohini" sample_form)))
    by (repeat split; discriminate).
  split; [exact V|].
  destruct (X7_stored_row_copies_form service_up
              (sys_with (FormData.with_address2 "Sector 4"
                           (FormData.with_district "Rohini" sample_form)))
              V (or_introl eq_refl) eq_refl (Forall_nil _))
    as (row & C & _ & _ & _ & _ & _ & _ & _ & _ & _ & A & _).
  cbv zeta in *. rewrite C. simpl. f_equal.
  apply A; discriminate.
Defined.

(** X8. A stored complaint never points at a missing file: when the form
    holds media, the row's [media_url] is the public address of a name under
    which the blob store now holds that very file; without media the row's
    [media_url] is null and the blob store is untouched. *)
Theorem X8_media_url_points_at_blob (svc : Service) (s : Sys) :
  valid (formData (ui s)) ->
  upload_ok svc (formData (ui s)) ->
  complaint_insert_error svc = None ->
  fresh_serial (cloud s) ->
  let s' := exec (handleSubmit svc) s in
  exists row,
    complaints (cloud s') = (complaints (cloud s) ++ [row])%list
    /\ match FormData.media (formData (ui s)) with
       | Some m =>
           exists name,
             Complaint.media_url row = Some (public_url svc "complaints" name)
             /\ In (name, m) (blobs (cloud s'))
             /\ name = upload_name (now s) m
       | None =>
           Complaint.media_url row = None
           /\ blobs (cloud s') = blobs (cloud s)
       end.
Proof.
  intros V U I F.
  destruct (handleSubmit_stored svc s V U I F) as (C & B & _).
  cbv zeta in *. exists (stored_row svc s). split; [exact C|].
  rewrite B. unfold stored_row, stored_url, stored_blob. simpl.
  destruct (FormData.media (formData (ui s))) as [m|].
  - exists (upload_name (now s) m). repeat split.
    apply in_or_app. right. now left.
  - now rewrite app_nil_r.
Qed.

Lemma X8_media_url_points_at_blob_witness :
  let fd := FormData.with_media (Some sample_photo) sample_form in
  let s' := exec (handleSubmit service_up) (sys_with fd) in
  valid fd
  /\ map Complaint.media_url (complaints (cloud s'))
     = [Some "https://cdn.example/complaints/1000.jpg"]
  /\ blobs (cloud s') = [("1000.jpg", sample_photo)].
Proof.
  cbv zeta.
  assert (V : valid (FormData.with_media (Some sample_photo) sample_form))
    by (repeat split; discriminate).
  split; [exact V|].
  destruct (X8_media_url_points_at_blob service_up
              (sys_with (FormData.with_media (Some sample_photo) sample_form))
              V (or_intror eq_refl) eq_refl (Forall_nil _))
    as (row & C & name & U & _ & N).
  cbv zeta in *. rewrite C. simpl. rewrite U, N. split; reflexivity.
Defined.

(** X9. A voice note is never persisted: whatever audio the form holds, a
    successful submission stores a row whose [voice_note_url] is null and
    uploads nothing but the media, so the only blob it adds is the form's
    media file. *)
Theorem X9_voice_note_never_stored (svc : Service) (s : Sys) :
  valid (formData (ui s)) ->
  upload_ok svc (formData (ui s)) ->
  complaint_insert_error svc = None ->
  fresh_serial (cloud s) ->
  let s' := exec (handleSubmit svc) s in
  (exists row,
     complaints (cloud s') = (complaints (cloud s) ++ [row])%list
     /\ Complaint.voice_note_url row = None)
  /\ (forall name f,
        In (name, f) (blobs (cloud s')) ->
        In (name, f) (blobs (cloud s))
        \/ FormData.media (formData (ui s)) = Some f)
  /\ length (blobs (cloud s')) <= S (length (blobs (cloud s))).
Proof.
  intros V U I F.
  destruct (handleSubmit_stored svc s V U I F) as (C & B & _).
  cbv zeta in *. split; [|split].
  - exists (stored_row svc s). split; [exact C|reflexivity].
  - intros name f. rewrite B. unfold stored_blob. intros H.
    apply in_app_or in H. destruct H as [H|H]; [now left|].
    destruct (FormData.media (formData (ui s))) as [m|]; [|contradiction].
    destruct H as [[= _ ->]|[]]. now right.
  - rewrite B, length_app. unfold stored_blob.
    destruct (FormData.media (formData (ui s))); simpl; lia.
Qed.

Lemma X9_voice_note_never_stored_witness :
  let fd := FormData.with_audio (Some (mkFile "voice-1000.webm" "GkXf"))
              sample_form in
  let s' := exec (handleSubmit service_up) (sys_with fd) in
  valid fd
  /\ map Complaint.voice_note_url (complaints (cloud s')) = [None]
  /\ blobs (cloud s') = [].
Proof.
  cbv zeta.
  assert (V : valid (FormData.with_audio (Some (mkFile "voice-1000.webm" "GkXf"))
                       sample_form))
    by (repeat split; discriminate).
  split; [exact V|].
  destruct (X9_voice_note_never_stored service_up
              (sys_with (FormData.with_audio
                           (Some (mkFile "voice-1000.webm" "GkXf")) sample_form))
              V (or_introl eq_refl) eq_refl (Forall_nil _))
    as ((row & C & N) & _ & _).
  cbv zeta in *. rewrite C. simpl. rewrite N. split; reflexivity.
Defined.

(** ** The store under any use of the component *)

Lemma extends_refl (c : Cloud) : extends c c.
Proof.
  repeat split; try (exists []; now rewrite app_nil_r). apply le_n.
Qed.

Lemma extends_trans (a b c : Cloud) : extends a b -> extends b c -> extends a c.
Proof.
  intros ((x1 & E1) & (x2 & E2) & (x3 & E3) & (x4 & E4) & (x5 & E5) & L)
         ((y1 & F1) & (y2 & F2) & (y3 & F3) & (y4 & F4) & (y5 & F5) & L').
  repeat split;
    [exists (x1 ++ y1)%list | exists (x2 ++ y2)%list | exists (x3 ++ y3)%list
    |exists (x4 ++ y4)%list | exists (x5 ++ y5)%list | lia];
    rewrite app_assoc; congruence.
Qed.

Lemma safe_refl (s : Sys) : safe s s.
Proof. intros H. split; [exact H|apply extends_refl]. Qed.

Lemma safe_trans (a b c : Sys) : safe a b -> safe b c -> safe a c.
Proof.
  intros H1 H2 Ha. destruct (H1 Ha) as (Hb & E1).
  destruct (H2 Hb) as (Hc & E2). split; [exact Hc|].
  exact (extends_trans _ _ _ E1 E2).
Qed.

Lemma safe_same_cloud (s s' : Sys) : cloud s' = cloud s -> safe s s'.
Proof. intros E H. rewrite E. split; [exact H|apply extends_refl]. Qed.

(** What a submission does to the tables that only ever grow. *)
Lemma handleSubmit_appends (svc : Service) (s : Sys) :
  let s' := exec (handleSubmit svc) s in
  (exists more, blobs (cloud s') = (blobs (cloud s) ++ more)%list)
  /\ (exists more,
        complaint_status_updates (cloud s')
        = (complaint_status_updates (cloud s) ++ more)%list)
  /\ (exists more, requests (cloud s') = (requests (cloud s) ++ more)%list)
  /\ ((valid (formData (ui s)) /\ upload_ok svc (formData (ui s))
       /\ complaint_insert_error svc = None)
      \/ (complaints (cloud s') = complaints (cloud s)
          /\ serial (cloud s') = serial (cloud s)
          /\ step (ui s') = step (ui s)
          /\ complaintId (ui s') = complaintId (ui s))).
Proof.
  unfold upload_ok. run_handler.
  destruct (negb (JS.truthy (FormData.state (formData (ui s))))
            || negb (JS.truthy (FormData.city (formData (ui s))))
            || negb (JS.truthy (FormData.issueType (formData (ui s))))
            || negb (JS.truthy (FormData.description (formData (ui s)))))
    eqn:G.
  - simpl. repeat split; try (exists []; now rewrite app_nil_r). now right.
  - apply guard_false_valid in G.
    rewrite truthy_authority_mapAuthorityForIssue.
    destruct (FormData.media _); [destruct (upload_error svc)|];
      simpl; destruct (complaint_insert_error svc); simpl;
      try destruct (mapAuthorityForIssue _);
      try destruct (complaint_update_error svc);
      try destruct (status_insert_error svc); simpl;
      (split; [|split; [|split]]);
      try (eexists; rewrite <- ?app_assoc; reflexivity);
      try (exists []; now rewrite app_nil_r);
      try (right; repeat split; fail);
      left; auto.
Qed.

Lemma NoDup_snoc {A} (l : list A) (x : A) :
  NoDup l -> ~ In x l -> NoDup (l ++ [x]).
Proof.
  induction 1 as [|y l Hy _ IH]; intros N; simpl.
  - constructor; [intros []|constructor].
  - constructor.
    + rewrite in_app_iff. intros [H|[->|[]]]; [contradiction|].
      apply N. now left.
    + apply IH. intros H. apply N. now right.
Qed.

Lemma handleSubmit_safe (svc : Service) (s : Sys) :
  safe s (exec (handleSubmit svc) s).
Proof.
  intros (F & N & R).
  destruct (handleSubmit_appends svc s) as (B & U & Q & [(V & Up & I)|(C & S & _)]);
    cbv zeta in *.
  - destruct (handleSubmit_stored svc s V Up I F) as (C & _ & S).
    cbv zeta in *. split.
    + unfold store_ok, fresh_serial. rewrite C, S. split; [|split].
      * apply Forall_app. split.
        -- eapply Forall_impl; [|exact F]. simpl. intros; lia.
        -- constructor; [simpl; lia|constructor].
      * rewrite map_app. simpl. apply NoDup_snoc; [exact N|].
        intros H. apply in_map_iff in H. destruct H as (r & E & H).
        apply (proj1 (Forall_forall _ _) F) in H. lia.
      * apply Forall_app. split; [exact R|].
        constructor; [exact V|constructor].
    + repeat split; try assumption.
      * now exists [stored_row svc s].
      * destruct (handleSubmit_frame svc s) as (_ & Nn & _).
        exists []. now rewrite app_nil_r.
      * rewrite S. lia.
  - split.
    + unfold store_ok, fresh_serial. rewrite C, S. auto.
    + repeat split; try assumption.
      * exists []. now rewrite app_nil_r.
      * destruct (handleSubmit_frame svc s) as (_ & Nn & _).
        exists []. now rewrite app_nil_r.
      * rewrite S. lia.
Qed.

Lemma dispatch_completes (svc : Service) (ev : UiEvent) (s : Sys) :
  dispatch svc ev s = (Done tt, exec (dispatch svc ev) s)
  /\ safe s (exec (dispatch svc ev) s)
  /\ timers (exec (dispatch svc ev) s) = timers s
  /\ now (exec (dispatch svc ev) s) = now s.
Proof.
  destruct ev as [v|v|v|v|v|v|a|browser|recorded|v|];
    try (split; [reflexivity|split; [apply safe_same_cloud|split]]; reflexivity).
  - (* the Record button *)
    unfold exec, dispatch, bind, gets.
    destruct (isRecording (ui s)); [|destruct browser];
      (split; [reflexivity|split; [apply safe_same_cloud|split]]; reflexivity).
  - (* the Stop button *)
    unfold exec, dispatch, handleStopRecording, bind, gets.
    destruct (isRecording (ui s)) eqn:Rec;
      destruct (mediaRecorderRef (ui s)) eqn:Held; cbn [andb];
      rewrite ?Rec, ?Held; cbn [andb];
      (split; [reflexivity|split; [apply safe_same_cloud|split]]; reflexivity).
  - (* the description field *)
    unfold exec, dispatch, bind, gets.
    destruct (isAnalyzing (ui s));
      (split; [reflexivity|split; [apply safe_same_cloud|split]]; reflexivity).
  - (* the submit button *)
    unfold exec, dispatch, bind, gets.
    destruct (isSubmitting (ui s) || isAnalyzing (ui s)).
    + split; [reflexivity|split; [apply safe_refl|split; reflexivity]].
    + destruct (handleSubmit_frame svc s) as (R & _ & T & N & _).
      split; [exact R|]. split; [apply handleSubmit_safe|]. split; assumption.
Qed.

Lemma bind_done {A} (m : M unit) (k : M A) (s : Sys) :
  m s = (Done tt, exec m s) -> (m ;;; k) s = k (exec m s).
Proof. intros R. unfold bind. now rewrite R. Qed.

Lemma dispatch_all_completes (svc : Service) (evs : list UiEvent) :
  forall s,
  dispatch_all svc evs s = (Done tt, exec (dispatch_all svc evs) s)
  /\ safe s (exec (dispatch_all svc evs) s)
  /\ timers (exec (dispatch_all svc evs) s) = timers s
  /\ now (exec (dispatch_all svc evs) s) = now s.
Proof.
  induction evs as [|ev evs IH]; intros s.
  - split; [reflexivity|split; [apply safe_refl|split; reflexivity]].
  - destruct (dispatch_completes svc ev s) as (R & S & T & N).
    destruct (IH (exec (dispatch svc ev) s)) as (R' & S' & T' & N').
    assert (E : dispatch_all svc (ev :: evs) s
                = dispatch_all svc evs (exec (dispatch svc ev) s))
      by (apply (bind_done _ _ _ R)).
    unfold exec at 1 2 3 4. rewrite E.
    fold (exec (dispatch_all svc evs) (exec (dispatch svc ev) s)).
    split; [exact R'|]. split; [exact (safe_trans _ _ _ S S')|].
    split; congruence.
Qed.

(** The callback of an upload, for every answer: it completes, sends the
    one classification request and writes to no table. *)
Lemma onloadend_completes (svc : Service) (f : File) (issueType : string)
    (s : Sys) :
  let s' := exec (onloadend svc f issueType) s in
  onloadend svc f issueType s = (Done tt, s')
  /\ isAnalyzing (ui s') = false
  /\ isSubmitting (ui s') = isSubmitting (ui s)
  /\ step (ui s') = step (ui s)
  /\ complaints (cloud s') = complaints (cloud s)
  /\ blobs (cloud s') = blobs (cloud s)
  /\ complaint_status_updates (cloud s') = complaint_status_updates (cloud s)
  /\ notifications (cloud s') = notifications (cloud s)
  /\ serial (cloud s') = serial (cloud s)
  /\ requests (cloud s')
     = (requests (cloud s)
        ++ [(now s, ReqInvoke "analyze-complaint-image" issueType)])%list
  /\ timers s' = timers s
  /\ now s' = now s.
Proof.
  run_ui. destruct (analysis svc) as [[d|] [e|]]; simpl;
    try destruct (JS.truthy_flag (Analysis.is_relevant d)); simpl;
    repeat split.
Qed.

Lemma onloadend_safe (svc : Service) (f : File) (issueType : string) (s : Sys) :
  safe s (exec (onloadend svc f issueType) s).
Proof.
  destruct (onloadend_completes svc f issueType s)
    as (_ & _ & _ & _ & C & B & U & N & S & Q & _).
  cbv zeta in *. intros (Fr & Nd & Rf). split.
  - unfold store_ok, fresh_serial. rewrite C, S. auto.
  - repeat split; try (exists []; rewrite app_nil_r; assumption).
    + eexists; exact Q.
    + rewrite S. lia.
Qed.

Lemma handleMediaUpload_completes (svc : Service) (file : option File)
    (s : Sys) :
  exists cb,
    handleMediaUpload svc file s
    = (Done cb, exec (handleMediaUpload svc file) s)
    /\ cloud (exec (handleMediaUpload svc file) s) = cloud s
    /\ timers (exec (handleMediaUpload svc file) s) = timers s
    /\ now (exec (handleMediaUpload svc file) s) = now s
    /\ (cb = None
        \/ exists f, file = Some f
             /\ cb = Some (onloadend svc f (FormData.issueType (formData (ui s))))).
Proof.
  destruct file as [f|]; [|exists None; repeat split; now left].
  run_ui. destruct (JS.truthy (FormData.issueType (formData (ui s)))); simpl.
  - eexists. repeat split. right. now exists f.
  - exists None. repeat split. now left.
Qed.

Lemma media_upload_session_completes (svc : Service) (f : File)
    (evs : list UiEvent) (s : Sys) :
  let s' := exec (media_upload_session svc f evs) s in
  media_upload_session svc f evs s = (Done tt, s')
  /\ safe s s' /\ timers s' = timers s /\ now s' = now s.
Proof.
  destruct (handleMediaUpload_completes svc (Some f) s)
    as (cb & R & C & T & N & Cb).
  set (s1 := exec (handleMediaUpload svc (Some f)) s) in *.
  destruct (dispatch_all_completes svc evs s1) as (R2 & S2 & T2 & N2).
  set (s2 := exec (dispatch_all svc evs) s1) in *.
  assert (E : media_upload_session svc f evs s
              = match cb with
                | Some callback => callback s2
                | None => (Done tt, s2)
                end).
  { unfold media_upload_session, media_upload_pending, bind.
    rewrite R. fold s1. rewrite R2. fold s2. now destruct cb. }
  assert (S12 : safe s s2)
    by (eapply safe_trans; [apply safe_same_cloud; exact C|exact S2]).
  cbv zeta. unfold exec at 1 2 3 4. rewrite E.
  destruct Cb as [->|(f' & _ & ->)].
  - simpl. split; [reflexivity|]. split; [exact S12|split; congruence].
  - destruct (onloadend_completes svc f' (FormData.issueType (formData (ui s))) s2)
      as (R3 & _ & _ & _ & _ & _ & _ & _ & _ & _ & T3 & N3).
    cbv zeta in *. rewrite R3. simpl.
    split; [reflexivity|]. split; [|split; congruence].
    eapply safe_trans; [exact S12|apply onloadend_safe].
Qed.

Lemma perform_completes (svc : Service) (a : Action) (s : Sys) :
  perform svc a s = (Done tt, exec (perform svc a) s)
  /\ safe s (exec (perform svc a) s)
  /\ timers (exec (perform svc a) s) = timers s
  /\ now (exec (perform svc a) s) = now s.
Proof.
  unfold exec, perform, bind, gets.
  destruct (step (ui s)), a as [ev|file evs|];
    try (split; [reflexivity|split; [apply safe_refl|split; reflexivity]]).
  - apply dispatch_completes.
  - destruct (isAnalyzing (ui s)).
    + split; [reflexivity|split; [apply safe_refl|split; reflexivity]].
    + destruct file as [f|].
      * apply media_upload_session_completes.
      * split; [reflexivity|split; [apply safe_refl|split; reflexivity]].
  - split; [reflexivity|split; [apply safe_same_cloud|split]]; reflexivity.
Qed.

Lemma perform_all_completes (svc : Service) (acts : list Action) :
  forall s,
  perform_all svc acts s = (Done tt, exec (perform_all svc acts) s)
  /\ safe s (exec (perform_all svc acts) s)
  /\ timers (exec (perform_all svc acts) s) = timers s
  /\ now (exec (perform_all svc acts) s) = now s.
Proof.
  induction acts as [|a acts IH]; intros s.
  - split; [reflexivity|split; [apply safe_refl|split; reflexivity]].
  - destruct (perform_completes svc a s) as (R & S & T & N).
    destruct (IH (exec (perform svc a) s)) as (R' & S' & T' & N').
    assert (E : perform_all svc (a :: acts) s
                = perform_all svc acts (exec (perform svc a) s))
      by (apply (bind_done _ _ _ R)).
    unfold exec at 1 2 3 4. rewrite E.
    fold (exec (perform_all svc acts) (exec (perform svc a) s)).
    split; [exact R'|]. split; [exact (safe_trans _ _ _ S S')|].
    split; congruence.
Qed.

(** X10. Whatever the user does with the component (any sequence of form
    events, recordings, file picks with their analyses, submissions and
    resets) and
    whatever the collaborators answer, no exception escapes, and a complaint
    store that is in order stays in order: identifiers stay unique and below
    the serial, every stored row has non-empty state, city, issue type and
    description, and every table is append-only, so an earlier complaint is
    never changed or deleted. The component never registers a timer nor
    moves the clock. *)
Theorem X10_store_stays_in_order (svc : Service) (acts : list Action)
    (s : Sys) :
  store_ok (cloud s) ->
  let s' := exec (perform_all svc acts) s in
  perform_all svc acts s = (Done tt, s')
  /\ store_ok (cloud s')
  /\ extends (cloud s) (cloud s')
  /\ timers s' = timers s
  /\ now s' = now s.
Proof.
  intros Ok.
  destruct (perform_all_completes svc acts s) as (R & S & T & N).
  destruct (S Ok) as (Ok' & E). cbv zeta.
  split; [exact R|]. split; [exact Ok'|]. split; [exact E|]. split; assumption.
Qed.

Lemma store_ok_empty : store_ok empty_cloud.
Proof. repeat split; constructor. Qed.

Lemma X10_store_stays_in_order_witness :
  let acts :=
    [ Form (SelectIssueType "garbage"); PickFile (Some sample_photo) [];
      Form (SelectState "Delhi"); Form (SelectCity "Delhi");
      Form ClickSubmit; RegisterNew; Form ClickSubmit;
      Form (SelectIssueType "noise"); Form (SelectState "Goa");
      Form (SelectCity "Panaji"); Form (ChangeDescription "Loud music");
      Form ClickSubmit ] in
  let s' := exec (perform_all service_up acts) (initial_sys 1000) in
  store_ok (cloud (initial_sys 1000))
  /\ store_ok (cloud s')
  /\ map Complaint.complaint_code (complaints (cloud s'))
     = ["NGR100000"; "NGR100001"].
Proof.
  cbv zeta. split; [exact store_ok_empty|].
  pose proof (X10_store_stays_in_order service_up
    [ Form (SelectIssueType "garbage"); PickFile (Some sample_photo) [];
      Form (SelectState "Delhi"); Form (SelectCity "Delhi");
      Form ClickSubmit; RegisterNew; Form ClickSubmit;
      Form (SelectIssueType "noise"); Form (SelectState "Goa");
      Form (SelectCity "Panaji"); Form (ChangeDescription "Loud music");
      Form ClickSubmit ] (initial_sys 1000) store_ok_empty) as H.
  cbv zeta in H. destruct H as (_ & Ok & _).
  split; [exact Ok|reflexivity].
Defined.

(** ** More on the media gate *)

(** X11. The change handler does nothing without a file, and without an
    issue type it only tells the user to choose one and resets the file
    input: the form, the analysis flag and the collaborators are untouched,
    no callback is left on the reader and no classification request is
    sent. *)
Theorem X11_upload_needs_issue_type (svc : Service) (f : File) (s : Sys) :
  handleMediaUpload svc None s = (Done None, s)
  /\ (FormData.issueType (formData (ui s)) = "" ->
      let s' := exec (handleMediaUpload svc (Some f)) s in
      handleMediaUpload svc (Some f) s = (Done None, s')
      /\ toasts (ui s') = (toasts (ui s) ++ [toast_select_issue_first])%list
      /\ fileInput (ui s') = ""
      /\ formData (ui s') = formData (ui s)
      /\ isAnalyzing (ui s') = isAnalyzing (ui s)
      /\ cloud s' = cloud s
      /\ exec (media_upload_session svc f []) s = s').
Proof.
  split; [reflexivity|]. intros E.
  unfold media_upload_session, media_upload_pending. run_ui.
  rewrite E. simpl. repeat split.
Qed.

Lemma X11_upload_needs_issue_type_witness :
  let s := initial_sys 1000 in
  let s' := exec (media_upload_session service_up sample_photo []) s in
  FormData.issueType (formData (ui s)) = ""
  /\ toasts (ui s') = [toast_select_issue_first]
  /\ requests (cloud s') = []
  /\ FormData.media (formData (ui s')) = None.
Proof.
  cbv zeta. split; [reflexivity|].
  destruct (X11_upload_needs_issue_type service_up sample_photo
              (initial_sys 1000)) as (_ & H).
  destruct (H eq_refl) as (_ & T & _ & F & _ & C & E).
  cbv zeta in *. rewrite E, T, C, F. repeat split.
Defined.

Lemma media_upload_pending_frame (svc : Service) (f : File)
    (evs : list UiEvent) (s : Sys) :
  FormData.issueType (formData (ui s)) <> "" ->
  let s' := exec (media_upload_pending svc f evs) s in
  now s' = now s /\ timers s' = timers s.
Proof.
  intros I.
  destruct (handleMediaUpload_started svc f s I) as (R & A & _).
  destruct (dispatch_all_completes svc evs (exec (handleMediaUpload svc (Some f)) s))
    as (R' & _ & T & N).
  assert (E : exec (media_upload_pending svc f evs) s
              = exec (dispatch_all svc evs)
                     (exec (handleMediaUpload svc (Some f)) s)).
  { unfold exec at 1, media_upload_pending, bind. rewrite R, R'. reflexivity. }
  cbv zeta. rewrite E, N, T.
  destruct (handleMediaUpload_completes svc (Some f) s)
    as (cb & _ & _ & T0 & N0 & _).
  split; assumption.
Qed.

(** X12. An analyzed upload sends exactly one classification request, with
    no retry whatever the answer, and the request names the issue type that
    was selected when the file was picked, even when the user selects
    another one while the analysis is pending. Nothing else is sent and no
    table is written. *)
Theorem X12_one_request_with_picked_issue_type (svc : Service) (f : File)
    (evs : list UiEvent) (s : Sys) :
  FormData.issueType (formData (ui s)) <> "" ->
  let s' := exec (media_upload_session svc f evs) s in
  requests (cloud s')
  = (requests (cloud s)
     ++ [(now s, ReqInvoke "analyze-complaint-image"
                   (FormData.issueType (formData (ui s))))])%list
  /\ complaints (cloud s') = complaints (cloud s)
  /\ blobs (cloud s') = blobs (cloud s)
  /\ complaint_status_updates (cloud s') = complaint_status_updates (cloud s)
  /\ notifications (cloud s') = notifications (cloud s).
Proof.
  intros I.
  destruct (media_upload_pending_state svc f evs s I)
    as (_ & _ & _ & _ & _ & _ & _ & C).
  destruct (media_upload_pending_frame svc f evs s I) as (N & _).
  cbv zeta in *. rewrite (media_upload_session_exec svc f evs s I).
  destruct (onloadend_completes svc f (FormData.issueType (formData (ui s)))
              (exec (media_upload_pending svc f evs) s))
    as (_ & _ & _ & _ & Co & B & U & No & _ & Q & _).
  cbv zeta in *. rewrite Q, Co, B, U, No, C, N. repeat split.
Qed.

Lemma X12_one_request_with_picked_issue_type_witness :
  let s := sys_with sample_form in
  let s' := exec (media_upload_session service_up sample_photo
                    [SelectIssueType "garbage"]) s in
  FormData.issueType (formData (ui s)) <> ""
  /\ FormData.issueType (formData (ui s')) = "garbage"
  /\ requests (cloud s')
     = [(1000%Z, ReqInvoke "analyze-complaint-image" "electricity")].
Proof.
  cbv zeta. split; [exact sample_issueType_chosen|]. split; [reflexivity|].
  destruct (X12_one_request_with_picked_issue_type service_up sample_photo
              [SelectIssueType "garbage"] (sys_with sample_form)
              sample_issueType_chosen) as (Q & _).
  exact Q.
Defined.





(** ** The gate and the pipeline together *)

Lemma click_submit_idle (svc : Service) (s : Sys) :
  isSubmitting (ui s) = false ->
  isAnalyzing (ui s) = false ->
  dispatch svc ClickSubmit s = handleSubmit svc s.
Proof.
  intros A B. unfold dispatch, bind, gets. now rewrite A, B.
Qed.

(** The state an upload with no user action in between ends in. *)
Lemma media_upload_session_alone (svc : Service) (f : File) (s : Sys) :
  FormData.issueType (formData (ui s)) <> "" ->
  let s' := exec (media_upload_session svc f []) s in
  isAnalyzing (ui s') = false
  /\ isSubmitting (ui s') = isSubmitting (ui s)
  /\ complaints (cloud s') = complaints (cloud s)
  /\ blobs (cloud s') = blobs (cloud s)
  /\ serial (cloud s') = serial (cloud s)
  /\ now s' = now s
  /\ (analysis_failed svc ->
      formData (ui s')
      = FormData.with_description "" (FormData.with_media (Some f) (formData (ui s))))
  /\ (forall d, analysis svc = resolved d ->
      formData (ui s')
      = (if JS.truthy_flag (Analysis.is_relevant d)
         then FormData.with_description (JS.text (Analysis.description d))
                (FormData.with_media (Some f) (formData (ui s)))
         else FormData.with_description ""
                (FormData.with_media None (formData (ui s))))).
Proof.
  intros I.
  destruct (handleMediaUpload_started svc f s I) as (R & _ & F1 & _ & _ & S1 & _ & C1).
  destruct (media_upload_pending_frame svc f [] s I) as (N & _).
  assert (P : exec (media_upload_pending svc f []) s
              = exec (handleMediaUpload svc (Some f)) s).
  { unfold exec at 1, media_upload_pending, bind. now rewrite R. }
  cbv zeta in *. rewrite (media_upload_session_exec svc f [] s I).
  destruct (onloadend_completes svc f (FormData.issueType (formData (ui s)))
              (exec (media_upload_pending svc f []) s))
    as (_ & A & Sb & _ & Co & B & _ & _ & Se & _ & _ & N').
  cbv zeta in *. rewrite P in *.
  split; [exact A|]. split; [congruence|]. split; [now rewrite Co, C1|].
  split; [now rewrite B, C1|]. split; [now rewrite Se, C1|].
  split; [congruence|]. split.
  - intros Fail.
    destruct (onloadend_failed svc f (FormData.issueType (formData (ui s)))
                (exec (handleMediaUpload svc (Some f)) s) Fail) as (_ & Fd & _).
    now rewrite Fd, F1.
  - intros d E.
    destruct (onloadend_answered svc f (FormData.issueType (formData (ui s))) d
                (exec (handleMediaUpload svc (Some f)) s) E) as (_ & Fd & _).
    rewrite Fd, F1. now destruct (JS.truthy_flag (Analysis.is_relevant d)).
Qed.

(** X15. Gate and pipeline in sequence: after an upload judged relevant, a
    click on submit (with state and city chosen and the stores accepting)
    stores a complaint whose description is the one the analysis produced
    and whose [media_url] is the public address of the uploaded photo, which
    the blob store now holds. *)
Theorem X15_relevant_upload_then_submit (svc : Service) (f : File)
    (d : Analysis.t) (D : string) (s : Sys) :
  FormData.state (formData (ui s)) <> "" ->
  FormData.city (formData (ui s)) <> "" ->
  FormData.issueType (formData (ui s)) <> "" ->
  isSubmitting (ui s) = false ->
  analysis svc = resolved d ->
  Analysis.is_relevant d = Some true ->
  Analysis.description d = Some D ->
  D <> "" ->
  upload_error svc = None ->
  complaint_insert_error svc = None ->
  fresh_serial (cloud s) ->
  let s' := exec (dispatch_all svc [ClickSubmit])
                 (exec (media_upload_session svc f []) s) in
  step (ui s') = success
  /\ exists row,
       complaints (cloud s') = (complaints (cloud s) ++ [row])%list
       /\ Complaint.description row = D
       /\ Complaint.media_url row
          = Some (public_url svc "complaints" (upload_name (now s) f))
       /\ In (upload_name (now s) f, f) (blobs (cloud s')).
Proof.
  intros St Ci It Idle E Rel Dd Dn Up Ins Fr.
  destruct (media_upload_session_alone svc f s It)
    as (A & Sb & Co & B & Se & N & _ & Fd).
  cbv zeta in *. specialize (Fd d E). rewrite Rel, Dd in Fd.
  cbn [JS.truthy_flag JS.text] in Fd.
  set (s1 := exec (media_upload_session svc f []) s) in *.
  assert (V : valid (formData (ui s1))).
  { rewrite Fd. repeat split; assumption. }
  assert (Fr1 : fresh_serial (cloud s1)).
  { unfold fresh_serial. now rewrite Co, Se. }
  assert (X : exec (dispatch_all svc [ClickSubmit]) s1 = exec (handleSubmit svc) s1).
  { destruct (handleSubmit_frame svc s1) as (R & _).
    unfold exec at 1, dispatch_all, bind.
    rewrite click_submit_idle by congruence. now rewrite R. }
  rewrite X.
  destruct (handleSubmit_accepted svc s1 V (or_intror Up) Ins) as (_ & Sc & _).
  destruct (handleSubmit_stored svc s1 V (or_intror Up) Ins Fr1) as (C & Bl & _).
  cbv zeta in *. split; [exact Sc|].
  exists (stored_row svc s1). rewrite C, Co, Bl, B.
  unfold stored_row, stored_url, stored_blob. rewrite Fd, N. simpl.
  repeat split. apply in_or_app. right. now left.
Qed.

Lemma X15_relevant_upload_then_submit_witness :
  let s' := exec (dispatch_all service_up [ClickSubmit])
                 (exec (media_upload_session service_up sample_photo [])
                       (sys_with sample_form)) in
  analysis service_up
    = resolved (Analysis.mk (Some true) (Some "Street light pole is broken")
                            None)
  /\ map Complaint.description (complaints (cloud s'))
     = ["Street light pole is broken"]
  /\ map Complaint.media_url (complaints (cloud s'))
     = [Some "https://cdn.example/complaints/1000.jpg"].
Proof.
  cbv zeta. split; [reflexivity|].
  assert (D : "Street light pole is broken" <> "") by discriminate.
  destruct sample_form_valid as (St & Ci & It & _).
  destruct (X15_relevant_upload_then_submit service_up sample_photo
              (Analysis.mk (Some true) (Some "Street light pole is broken") None)
              "Street light pole is broken"
              (sys_with sample_form) St Ci It eq_refl eq_refl eq_refl eq_refl D
              eq_refl eq_refl (Forall_nil _))
    as (_ & row & C & Dr & Mr & _).
  cbv zeta in *. rewrite C. simpl. rewrite Dr, Mr. split; reflexivity.
Defined.

(** X16. After an upload whose analysis fails or whose answer is not a
    relevant verdict ([is_relevant] false or absent), the description is
    empty, so a click on submit is turned down by the validation with the
    "Missing Information" toast: nothing is uploaded and no complaint is
    written until the user types a description. *)
Theorem X16_rejected_upload_then_submit (svc : Service) (f : File) (s : Sys) :
  FormData.issueType (formData (ui s)) <> "" ->
  isSubmitting (ui s) = false ->
  analysis_failed svc
  \/ (exists d, analysis svc = resolved d /\ Analysis.is_relevant d <> Some true) ->
  let s1 := exec (media_upload_session svc f []) s in
  let s' := exec (dispatch_all svc [ClickSubmit]) s1 in
  FormData.description (formData (ui s1)) = ""
  /\ last_toast s' = Some toast_missing_information
  /\ cloud s' = cloud s1
  /\ complaints (cloud s') = complaints (cloud s)
  /\ blobs (cloud s') = blobs (cloud s)
  /\ step (ui s') = step (ui s1).
Proof.
  intros It Idle Why.
  destruct (media_upload_session_alone svc f s It)
    as (A & Sb & Co & B & _ & _ & Ff & Fd).
  cbv zeta in *.
  set (s1 := exec (media_upload_session svc f []) s) in *.
  assert (D : FormData.description (formData (ui s1)) = "").
  { destruct Why as [Fail|(d & E & Irr)].
    - now rewrite (Ff Fail).
    - rewrite (Fd d E), (truthy_flag_false _ Irr). reflexivity. }
  assert (X : dispatch_all svc [ClickSubmit] s1
              = (Done tt, exec (handleSubmit svc) s1)).
  { destruct (handleSubmit_frame svc s1) as (R & _).
    unfold dispatch_all, bind.
    rewrite click_submit_idle by congruence. now rewrite R. }
  assert (Es : exec (dispatch_all svc [ClickSubmit]) s1
               = exec (handleSubmit svc) s1)
    by (unfold exec at 1; now rewrite X).
  rewrite Es.
  assert (G := missing_guard (formData (ui s1)) (or_intror (or_intror (or_intror D)))).
  unfold exec, handleSubmit, bind, gets. rewrite G. simpl.
  repeat split; try assumption.
  unfold last_toast. simpl. rewrite map_app. simpl. apply last_last.
Qed.

Lemma X16_rejected_upload_then_submit_witness :
  let s1 := exec (media_upload_session service_rejecting sample_photo [])
                 (sys_with sample_form) in
  let s' := exec (dispatch_all service_rejecting [ClickSubmit]) s1 in
  FormData.issueType sample_form <> ""
  /\ last_toast s' = Some toast_missing_information
  /\ complaints (cloud s') = [].
Proof.
  cbv zeta. split; [discriminate|].
  assert (W : analysis_failed service_rejecting
              \/ (exists d, analysis service_rejecting = resolved d
                            /\ Analysis.is_relevant d <> Some true)).
  { right. eexists. split; [reflexivity|discriminate]. }
  pose proof (X16_rejected_upload_then_submit service_rejecting sample_photo
                (sys_with sample_form) sample_issueType_chosen eq_refl W) as H.
  cbv zeta in H. destruct H as (_ & T & _ & C & _).
  split; [exact T | exact C].
Defined.

(** ** Form controls *)

(** X17. Selecting a state clears the city. A click on submit right after
    is therefore turned down by the validation, however complete the form
    was before: nothing is sent and nothing is written. *)
Theorem X17_state_change_clears_city (svc : Service) (v : string) (s : Sys) :
  let s' := exec (dispatch_all svc [SelectState v; ClickSubmit]) s in
  FormData.state (formData (ui s')) = v
  /\ FormData.city (formData (ui s')) = ""
  /\ cloud s' = cloud s
  /\ step (ui s') = step (ui s)
  /\ (isSubmitting (ui s) = false -> isAnalyzing (ui s) = false ->
      toasts (ui s') = (toasts (ui s) ++ [toast_missing_information])%list).
Proof.
  cbv zeta. unfold exec, dispatch_all, dispatch, bind, gets, setFormData,
    modify, on_ui. cbn [ui isSubmitting isAnalyzing fst snd].
  destruct (isSubmitting (ui s) || isAnalyzing (ui s)) eqn:Busy.
  - simpl. repeat split. intros A B. rewrite A, B in Busy. discriminate.
  - unfold handleSubmit, bind, gets. cbn [ui formData].
    rewrite (missing_guard
               (FormData.with_city "" (FormData.with_state v (formData (ui s))))
               (or_intror (or_introl eq_refl))).
    simpl. repeat split.
Qed.

Lemma X17_state_change_clears_city_witness :
  let s' := exec (dispatch_all service_up [SelectState "Goa"; ClickSubmit])
                 (sys_with sample_form) in
  isSubmitting (ui (sys_with sample_form)) = false
  /\ toasts (ui s') = [toast_missing_information]
  /\ complaints (cloud s') = [].
Proof.
  cbv zeta. split; [reflexivity|].
  destruct (X17_state_change_clears_city service_up "Goa" (sys_with sample_form))
    as (_ & _ & C & _ & T).
  cbv zeta in *. rewrite C. split; [exact (T eq_refl eq_refl)|reflexivity].
Defined.

(** X18. "Register New Complaint" after a submission empties the whole
    form, held media and audio included, and shows it again; the complaint
    just stored and its code on the component are kept. A click on submit
    right after is turned down by the validation: a second complaint needs
    the required fields filled in again. *)
Theorem X18_register_new_resets_form (svc : Service) (s : Sys) :
  let s1 := exec registerNewComplaint s in
  let s' := exec (dispatch_all svc [ClickSubmit]) s1 in
  registerNewComplaint s = (Done tt, s1)
  /\ formData (ui s1) = FormData.initial
  /\ step (ui s1) = form
  /\ complaintId (ui s1) = complaintId (ui s)
  /\ cloud s1 = cloud s
  /\ cloud s' = cloud s
  /\ step (ui s') = form
  /\ (isSubmitting (ui s) = false -> isAnalyzing (ui s) = false ->
      toasts (ui s') = (toasts (ui s) ++ [toast_missing_information])%list).
Proof.
  cbv zeta. unfold exec, registerNewComplaint, dispatch_all, dispatch, bind,
    gets, setFormData, setStep, modify, on_ui.
  cbn [ui isSubmitting isAnalyzing fst snd].
  destruct (isSubmitting (ui s) || isAnalyzing (ui s)) eqn:Busy.
  - simpl. repeat split. intros A B. rewrite A, B in Busy. discriminate.
  - unfold handleSubmit, bind, gets. simpl. repeat split.
Qed.

Lemma X18_register_new_resets_form_witness :
  let s := exec (handleSubmit service_up)
                (sys_with (FormData.with_media (Some sample_photo) sample_form)) in
  let s' := exec (dispatch_all service_up [ClickSubmit])
                 (exec registerNewComplaint s) in
  step (ui s) = success
  /\ isSubmitting (ui s) = false
  /\ formData (ui s') = FormData.initial
  /\ map Complaint.complaint_code (complaints (cloud s')) = ["NGR100000"]
  /\ toasts (ui s')
     = [toast_submitted "NGR100000"; toast_missing_information].
Proof.
  cbv zeta. split; [reflexivity|]. split; [reflexivity|].
  pose proof (X18_register_new_resets_form service_up
                (exec (handleSubmit service_up)
                   (sys_with (FormData.with_media (Some sample_photo) sample_form))))
    as H.
  cbv zeta in H. destruct H as (_ & _ & _ & _ & _ & C & _ & T).
  split; [reflexivity|]. split; [now rewrite C|].
  exact (T eq_refl eq_refl).
Defined.

(** ** More on the notification scheduler *)

(** X19. [createNotification] is best effort: it sends one insert to the
    sink and always completes. When the sink accepts, exactly one row is
    added, unread, stamped with the time of the insert and owned by
    'anonymous' unless a non-empty user id was given; when the sink refuses,
    no row is added and the error is logged once. It registers no timer and
    shows the user nothing. *)
Theorem X19_createNotification_best_effort (svc : Service) (id : nat)
    (code : string) (st : Stage) (message : string) (userId : option string)
    (s : Sys) :
  let s' := exec (createNotification svc id code st message userId) s in
  createNotification svc id code st message userId s = (Done tt, s')
  /\ requests (cloud s')
     = (requests (cloud s) ++ [(now s, ReqInsertNotification id st)])%list
  /\ timers s' = timers s
  /\ toasts (ui s') = toasts (ui s)
  /\ (userId = None \/ userId = Some "" ->
      user_or_anonymous userId = "anonymous")
  /\ match notification_insert_error svc st with
     | None =>
         notifications (cloud s')
         = (notifications (cloud s)
            ++ [Notification.mk id code st message
                  (user_or_anonymous userId) false (now s)])%list
         /\ console (ui s') = console (ui s)
     | Some e =>
         notifications (cloud s') = notifications (cloud s)
         /\ console (ui s')
            = (console (ui s)
               ++ [("Error creating notification: " ++ e)%string])%list
     end.
Proof.
  run_notify. unfold user_or_anonymous.
  destruct (notification_insert_error svc st); simpl; repeat split;
    intros [->| ->]; reflexivity.
Qed.

Lemma X19_createNotification_best_effort_witness :
  let svc := mkService None None None None
               (fun st => match st with
                          | acknowledgement => Some "sink down"
                          | _ => None
                          end)
               relevant_answer sample_code sample_url in
  let s' := exec (createNotification svc 7 "NGR100007" acknowledgement
                    "acknowledged" (Some "")) (initial_sys 1000) in
  notifications (cloud s') = []
  /\ console (ui s') = ["Error creating notification: sink down"]
  /\ user_or_anonymous (Some "") = "anonymous".
Proof.
  cbv zeta.
  destruct (X19_createNotification_best_effort
              (mkService None None None None
                 (fun st => match st with
                            | acknowledgement => Some "sink down"
                            | _ => None
                            end)
                 relevant_answer sample_code sample_url)
              7 "NGR100007" acknowledgement "acknowledged" (Some "")
              (initial_sys 1000))
    as (_ & _ & _ & _ & U & N & C).
  split; [exact N|]. split; [exact C|]. apply U. now right.
Defined.









(** ** The notification bell *)

Lemma marked_id (i : string) (n : Inbox.Item) : Inbox.id (marked i n) = Inbox.id n.
Proof. unfold marked. now destruct (String.eqb _ i). Qed.

Lemma marked_read (i : string) (n : Inbox.Item) :
  Inbox.is_read n = true -> marked i n = n.
Proof.
  unfold marked. destruct (String.eqb _ i); [|reflexivity].
  destruct n as [a b c d e f r]. simpl. now intros ->.
Qed.

Lemma map_marked_id (i : string) (l : list Inbox.Item) :
  map Inbox.id (map (marked i) l) = map Inbox.id l.
Proof.
  induction l as [|n l IH]; simpl; [reflexivity|].
  now rewrite marked_id, IH.
Qed.

Lemma map_marked_absent (i : string) (l : list Inbox.Item) :
  (forall n, In n l -> Inbox.id n = i -> Inbox.is_read n = true) ->
  map (marked i) l = l.
Proof.
  induction l as [|n l IH]; intros H; simpl; [reflexivity|].
  rewrite IH by (intros m Hm; apply H; now right).
  f_equal. destruct (String.eqb_spec (Inbox.id n) i) as [E|E].
  - apply marked_read. apply H; [now left|exact E].
  - unfold marked. now rewrite (proj2 (String.eqb_neq _ _) E).
Qed.

Lemma unread_len_cons (n : Inbox.Item) (l : list Inbox.Item) :
  unread_len (n :: l)
  = (if Inbox.is_read n then 0 else 1) + unread_len l.
Proof. unfold unread_len. simpl. now destruct (Inbox.is_read n). Qed.

Lemma unread_len_positive (m : Inbox.Item) (l : list Inbox.Item) :
  In m l -> Inbox.is_read m = false -> 0 < unread_len l.
Proof.
  intros Hm Hr. unfold unread_len.
  assert (In m (filter (fun n => negb (Inbox.is_read n)) l))
    by (apply filter_In; split; [exact Hm|now rewrite Hr]).
  destruct (filter _ l); [contradiction|simpl; lia].
Qed.

(** Marking by an identifier that occurs at most once turns at most one
    unread notification into a read one. *)
Lemma unread_len_marked (i : string) (l : list Inbox.Item) :
  NoDup (map Inbox.id l) ->
  unread_len (map (marked i) l)
  = if existsb (fun n => String.eqb (Inbox.id n) i && negb (Inbox.is_read n)) l
    then pred (unread_len l) else unread_len l.
Proof.
  induction l as [|n l IH]; intros Nd; [reflexivity|].
  simpl in Nd. inversion Nd as [|? ? Hn Nd']; subst.
  cbn [map existsb]. rewrite !unread_len_cons.
  destruct (String.eqb_spec (Inbox.id n) i) as [E|E].
  - (* the clicked one: no other carries its identifier *)
    assert (A : map (marked i) l = l).
    { apply map_marked_absent. intros m Hm Em. exfalso. apply Hn.
      rewrite E, <- Em. now apply in_map. }
    assert (X : existsb (fun n0 => String.eqb (Inbox.id n0) i
                                   && negb (Inbox.is_read n0)) l = false).
    { destruct (existsb _ l) eqn:Ex; [|reflexivity].
      apply existsb_exists in Ex. destruct Ex as (m & Hm & Hb).
      apply andb_true_iff in Hb. destruct Hb as [Hb _].
      apply String.eqb_eq in Hb. exfalso. apply Hn.
      rewrite E, <- Hb. now apply in_map. }
    rewrite A, X. unfold marked. rewrite (proj2 (String.eqb_eq _ _) E).
    destruct (Inbox.is_read n) eqn:Rn; simpl; reflexivity.
  - assert (M : marked i n = n)
      by (unfold marked; now rewrite (proj2 (String.eqb_neq _ _) E)).
    rewrite M, (IH Nd'). cbn [andb orb].
    destruct (existsb _ l) eqn:Ex; [|reflexivity].
    apply existsb_exists in Ex. destruct Ex as (m & Hm & Hb).
    apply andb_true_iff in Hb. destruct Hb as [_ Hb].
    apply negb_true_iff in Hb.
    pose proof (unread_len_positive m l Hm Hb).
    destruct (Inbox.is_read n); lia.
Qed.

(** X22. Clicking an unread notification marks that one as read, leaves
    the others as they are, and keeps the badge exact: when identifiers are
    unique and the count equalled the number of unread notifications before
    the click, it still does after. *)
Theorem X22_markAsRead_keeps_badge_exact (i : string) (n : Inbox.Item)
    (st : Inbox.t) :
  NoDup (map Inbox.id (Inbox.notifications st)) ->
  In n (Inbox.notifications st) ->
  Inbox.id n = i ->
  Inbox.is_read n = false ->
  Inbox.unreadCount st = Inbox.unread (Inbox.notifications st) ->
  let st' := Inbox.markAsRead i st in
  Inbox.unreadCount st' = Inbox.unread (Inbox.notifications st')
  /\ Inbox.unreadCount st' = (Inbox.unreadCount st - 1)%Z
  /\ In (Inbox.with_is_read true n) (Inbox.notifications st')
  /\ (forall m, In m (Inbox.notifications st) -> Inbox.id m <> i ->
                In m (Inbox.notifications st'))
  /\ map Inbox.id (Inbox.notifications st')
     = map Inbox.id (Inbox.notifications st).
Proof.
  intros Nd Hin Hid Hun Hc.
  assert (Ex : existsb (fun m => String.eqb (Inbox.id m) i
                                 && negb (Inbox.is_read m))
                 (Inbox.notifications st) = true).
  { apply existsb_exists. exists n. split; [exact Hin|].
    now rewrite (proj2 (String.eqb_eq _ _) Hid), Hun. }
  pose proof (unread_len_positive n _ Hin Hun) as Pos.
  pose proof (unread_len_marked i _ Nd) as L. rewrite Ex in L.
  cbv zeta. unfold Inbox.markAsRead, Inbox.unread in *. simpl.
  fold (marked i). fold (unread_len (map (marked i) (Inbox.notifications st))).
  fold (unread_len (Inbox.notifications st)) in Hc.
  rewrite L, Hc. split; [lia|]. split; [lia|]. split; [|split].
  - apply in_map_iff. exists n. split; [|exact Hin].
    unfold marked. now rewrite (proj2 (String.eqb_eq _ _) Hid).
  - intros m Hm Ne. apply in_map_iff. exists m. split; [|exact Hm].
    unfold marked. now rewrite (proj2 (String.eqb_neq _ _) Ne).
  - apply map_marked_id.
Qed.

Lemma X22_markAsRead_keeps_badge_exact_witness :
  let st := Inbox.mount (Some "citizen-1") 1000 Inbox.initial in
  let st' := Inbox.markAsRead "2" st in
  Inbox.unreadCount st = Inbox.unread (Inbox.notifications st)
  /\ Inbox.badge st = Some 2%Z
  /\ Inbox.badge st' = Some 1%Z
  /\ Inbox.unreadCount st' = Inbox.unread (Inbox.notifications st').
Proof.
  cbv zeta. split; [reflexivity|]. split; [reflexivity|]. split; [reflexivity|].
  assert (Nd : NoDup (map Inbox.id
                        (Inbox.notifications
                           (Inbox.mount (Some "citizen-1") 1000 Inbox.initial)))).
  { simpl. repeat constructor; simpl; intuition discriminate. }
  destruct (X22_markAsRead_keeps_badge_exact "2"
              (Inbox.mkItem "2" "mock-2" "NGR123457" acknowledgement
                 "Your complaint NGR123457 has been acknowledged and assigned to the appropriate department."
                 (1000 - 60000) false)
              (Inbox.mount (Some "citizen-1") 1000 Inbox.initial)
              Nd (or_intror (or_introl eq_refl)) eq_refl eq_refl eq_refl)
    as (E & _).
  exact E.
Defined.

Lemma markAsRead_notifications (i : string) (st : Inbox.t) :
  Inbox.notifications (Inbox.markAsRead i st)
  = map (marked i) (Inbox.notifications st).
Proof. reflexivity. Qed.

Lemma unread_is_len (l : list Inbox.Item) :
  Inbox.unread l = Z.of_nat (unread_len l).
Proof. reflexivity. Qed.

(** One click: the badge stays within the number of unread notifications. *)
Lemma markAsRead_bounded (i : string) (st : Inbox.t) :
  NoDup (map Inbox.id (Inbox.notifications st)) ->
  (0 <= Inbox.unreadCount st <= Inbox.unread (Inbox.notifications st))%Z ->
  let st' := Inbox.markAsRead i st in
  NoDup (map Inbox.id (Inbox.notifications st'))
  /\ (0 <= Inbox.unreadCount st' <= Inbox.unread (Inbox.notifications st'))%Z
  /\ map Inbox.id (Inbox.notifications st')
     = map Inbox.id (Inbox.notifications st)
  /\ (forall m, In m (Inbox.notifications st) -> Inbox.is_read m = true ->
                In m (Inbox.notifications st'))
  /\ (Inbox.unread (Inbox.notifications st')
      <= Inbox.unread (Inbox.notifications st))%Z
  /\ Inbox.showNotifications st' = Inbox.showNotifications st.
Proof.
  intros Nd B. cbv zeta.
  rewrite markAsRead_notifications, map_marked_id, !unread_is_len in *.
  pose proof (unread_len_marked i _ Nd) as L.
  assert (Le : unread_len (map (marked i) (Inbox.notifications st))
               <= unread_len (Inbox.notifications st)
               /\ pred (unread_len (Inbox.notifications st))
                  <= unread_len (map (marked i) (Inbox.notifications st))).
  { rewrite L. destruct (existsb _ _); lia. }
  split; [exact Nd|]. unfold Inbox.markAsRead at 1 2. cbn [Inbox.unreadCount].
  split; [lia|]. split; [reflexivity|]. split; [|split; [lia|reflexivity]].
  intros m Hm Hr. apply in_map_iff. exists m. split; [|exact Hm].
  now apply marked_read.
Qed.

(** X23. Whatever notifications are clicked, in whatever order and however
    often, the badge never shows more than there are unread notifications:
    with unique identifiers, a count between zero and the number of unread
    notifications stays so. The clicks keep every notification in place,
    never turn a read one back to unread, never raise the number of unread
    ones, and do not open or close the panel. *)
Theorem X23_badge_never_overcounts (ids : list string) (st : Inbox.t) :
  NoDup (map Inbox.id (Inbox.notifications st)) ->
  (0 <= Inbox.unreadCount st <= Inbox.unread (Inbox.notifications st))%Z ->
  let st' := Inbox.click_all ids st in
  (0 <= Inbox.unreadCount st' <= Inbox.unread (Inbox.notifications st'))%Z
  /\ map Inbox.id (Inbox.notifications st')
     = map Inbox.id (Inbox.notifications st)
  /\ (forall m, In m (Inbox.notifications st) -> Inbox.is_read m = true ->
                In m (Inbox.notifications st'))
  /\ (Inbox.unread (Inbox.notifications st')
      <= Inbox.unread (Inbox.notifications st))%Z
  /\ Inbox.showNotifications st' = Inbox.showNotifications st.
Proof.
  revert st. induction ids as [|i ids IH]; intros st Nd B; cbv zeta.
  - simpl. split; [exact B|]. repeat split; auto. lia.
  - destruct (markAsRead_bounded i st Nd B) as (Nd1 & B1 & I1 & R1 & U1 & S1).
    destruct (IH (Inbox.markAsRead i st) Nd1 B1) as (B2 & I2 & R2 & U2 & S2).
    cbv zeta in *. cbn [Inbox.click_all].
    split; [exact B2|]. split; [congruence|].
    split; [|split; [lia|congruence]].
    intros m Hm Hr. apply R2; [apply R1; assumption|exact Hr].
Qed.

Lemma X23_badge_never_overcounts_witness :
  let st := Inbox.mount (Some "citizen-1") 1000 Inbox.initial in
  let st' := Inbox.click_all ["2"; "9"; "2"; "1"] st in
  NoDup (map Inbox.id (Inbox.notifications st))
  /\ (0 <= Inbox.unreadCount st' <= Inbox.unread (Inbox.notifications st'))%Z.
Proof.
  cbv zeta.
  assert (Nd : NoDup (map Inbox.id
                        (Inbox.notifications
                           (Inbox.mount (Some "citizen-1") 1000 Inbox.initial)))).
  { simpl. repeat constructor; simpl; intuition discriminate. }
  split; [exact Nd|].
  pose proof (X23_badge_never_overcounts ["2"; "9"; "2"; "1"]
                (Inbox.mount (Some "citizen-1") 1000 Inbox.initial) Nd) as H.
  cbv zeta in H.
  assert (B : (0 <= Inbox.unreadCount
                      (Inbox.mount (Some "citizen-1") 1000 Inbox.initial)
               <= Inbox.unread
                    (Inbox.notifications
                       (Inbox.mount (Some "citizen-1") 1000 Inbox.initial)))%Z)
    by (cbv; split; discriminate).
  exact (proj1 (H B)).
Defined.

(** X24. Every click lowers a positive badge by one, also a click on a
    notification that is already read: the list is then unchanged, so a
    badge that was exact now shows fewer than there are unread
    notifications. *)
Theorem X24_click_on_read_undercounts (i : string) (st : Inbox.t) :
  (forall n, In n (Inbox.notifications st) -> Inbox.id n = i ->
             Inbox.is_read n = true) ->
  let st' := Inbox.markAsRead i st in
  Inbox.notifications st' = Inbox.notifications st
  /\ Inbox.unreadCount st' = Z.max 0 (Inbox.unreadCount st - 1)
  /\ ((0 < Inbox.unreadCount st)%Z ->
      Inbox.unreadCount st = Inbox.unread (Inbox.notifications st) ->
      (Inbox.unreadCount st' < Inbox.unread (Inbox.notifications st'))%Z).
Proof.
  intros Read. cbv zeta.
  rewrite markAsRead_notifications, (map_marked_absent i _ Read).
  split; [reflexivity|]. split; [reflexivity|].
  unfold Inbox.markAsRead. cbn [Inbox.unreadCount]. lia.
Qed.

Lemma X24_click_on_read_undercounts_witness :
  let st := Inbox.markAsRead "1" (Inbox.fetchNotifications 1000 Inbox.initial) in
  let st' := Inbox.markAsRead "1" st in
  Inbox.unreadCount st = Inbox.unread (Inbox.notifications st)
  /\ (Inbox.unreadCount st' < Inbox.unread (Inbox.notifications st'))%Z.
Proof.
  cbv zeta. split; [reflexivity|].
  assert (Read : forall n,
             In n (Inbox.notifications
                     (Inbox.markAsRead "1"
                        (Inbox.fetchNotifications 1000 Inbox.initial))) ->
             Inbox.id n = "1" -> Inbox.is_read n = true).
  { simpl. intros n [<-|[<-|[]]]; [reflexivity|discriminate]. }
  destruct (X24_click_on_read_undercounts "1"
              (Inbox.markAsRead "1" (Inbox.fetchNotifications 1000 Inbox.initial))
              Read) as (_ & _ & U).
  apply U; [reflexivity|reflexivity].
Defined.

(** ** The two variants of the submission *)

Lemma map_id_update (n : nat) (st : Status) (who : option string)
    (l : list Complaint.t) :
  map Complaint.id
      (map (fun c => if Nat.eqb (Complaint.id c) n
                     then Complaint.with_routing st who c else c) l)
  = map Complaint.id l
  /\ map Complaint.complaint_code
         (map (fun c => if Nat.eqb (Complaint.id c) n
                        then Complaint.with_routing st who c else c) l)
     = map Complaint.complaint_code l.
Proof.
  induction l as [|c l [IH1 IH2]]; simpl; [split; reflexivity|].
  rewrite IH1, IH2. destruct (Nat.eqb (Complaint.id c) n); split; reflexivity.
Qed.

(** X25. The earlier variant of [handleSubmit] and the routing one leave the
    same component state on every input but for one toast title: same step,
    code, flags, form and log, and one toast each, which is the same when
    the submission is turned down or fails and differs only in the bytes
    that end the title when it succeeds. They store the same blobs and draw
    the same identifiers. The earlier variant never writes a status row and
    leaves a new complaint [Pending], unassigned and without address; on a
    form without address fields whose issue type resolves to no authority
    the two variants leave the same collaborators' state, clock and
    timers. *)
Theorem X25_variants_agree (svc : Service) (s : Sys) :
  let e := exec (handleSubmit_earlier svc) s in
  let r := exec (handleSubmit svc) s in
  handleSubmit_earlier svc s = (Done tt, e)
  /\ without_toasts (ui e) = without_toasts (ui r)
  /\ (exists shown_e shown_r,
        toasts (ui e) = (toasts (ui s) ++ [shown_e])%list
        /\ toasts (ui r) = (toasts (ui s) ++ [shown_r])%list
        /\ (shown_e = shown_r
            /\ (shown_r = toast_missing_information
                \/ shown_r = toast_submission_failed)
            \/ shown_r = toast_submitted (complaintId (ui r))
               /\ shown_e = toast_submitted_earlier (complaintId (ui r))
               /\ step (ui r) = success))
  /\ (forall code, toast_submitted code <> toast_submitted_earlier code)
  /\ blobs (cloud e) = blobs (cloud r)
  /\ serial (cloud e) = serial (cloud r)
  /\ map Complaint.id (complaints (cloud e))
     = map Complaint.id (complaints (cloud r))
  /\ map Complaint.complaint_code (complaints (cloud e))
     = map Complaint.complaint_code (complaints (cloud r))
  /\ complaint_status_updates (cloud e) = complaint_status_updates (cloud s)
  /\ (complaints (cloud e) = complaints (cloud s)
      \/ exists row,
           complaints (cloud e) = (complaints (cloud s) ++ [row])%list
           /\ Complaint.status row = Pending
           /\ Complaint.assigned_to row = None
           /\ Complaint.address_line1 row = None
           /\ Complaint.address_line2 row = None)
  /\ (mapAuthorityForIssue (FormData.issueType (formData (ui s))) = None ->
      FormData.address1 (formData (ui s)) = "" ->
      FormData.district (formData (ui s)) = "" ->
      FormData.address2 (formData (ui s)) = "" ->
      cloud e = cloud r /\ now e = now r /\ timers e = timers r).
Proof.
  assert (Titles : forall code, toast_submitted code <> toast_submitted_earlier code)
    by (intros code; discriminate).
  unfold handleSubmit_earlier, address_line2_of, without_toasts. run_handler.
  destruct (negb (JS.truthy (FormData.state (formData (ui s))))
            || negb (JS.truthy (FormData.city (formData (ui s))))
            || negb (JS.truthy (FormData.issueType (formData (ui s))))
            || negb (JS.truthy (FormData.description (formData (ui s))))).
  - simpl. split; [reflexivity|]. split; [reflexivity|].
    split; [do 2 eexists; split; [reflexivity|split; [reflexivity|]];
            left; split; [reflexivity|now left]|].
    split; [exact Titles|]. repeat split. now left.
  - rewrite truthy_authority_mapAuthorityForIssue.
    destruct (FormData.media _); [destruct (upload_error svc)|];
      simpl; destruct (complaint_insert_error svc); simpl;
      try destruct (mapAuthorityForIssue _);
      try destruct (complaint_update_error svc);
      try destruct (status_insert_error svc); simpl;
      (split; [reflexivity|]); (split; [reflexivity|]);
      (split; [do 2 eexists; split; [reflexivity|split; [reflexivity|]];
               first [ left; split; [reflexivity|now right]
                     | right; repeat split ]|]);
      (split; [exact Titles|]);
      repeat split; try (left; reflexivity).
    all: try discriminate.
    all: try (unfold JS.or_null, address_line2_of;
              repeat match goal with
                     | H : _ = "" |- _ => rewrite H; clear H
                     end; simpl; reflexivity).
    all: try (right; eexists; split; [reflexivity|]; repeat split; fail).
    all: try (rewrite ?(proj1 (map_id_update _ _ _ _)),
                      ?(proj2 (map_id_update _ _ _ _)), ?map_app;
              reflexivity).
Qed.

Lemma X25_variants_agree_witness :
  let s := sys_with (FormData.with_issueType "others" sample_form) in
  let e := exec (handleSubmit_earlier service_up) s in
  let r := exec (handleSubmit service_up) s in
  mapAuthorityForIssue (FormData.issueType (formData (ui s))) = None
  /\ cloud e = cloud r
  /\ toasts (ui r) = [toast_submitted "NGR100000"]
  /\ toasts (ui e) = [toast_submitted_earlier "NGR100000"].
Proof.
  cbv zeta. split; [reflexivity|].
  pose proof (X25_variants_agree service_up
                (sys_with (FormData.with_issueType "others" sample_form))) as H.
  cbv zeta in H. destruct H as (_ & _ & _ & _ & _ & _ & _ & _ & _ & _ & E).
  split; [exact (proj1 (E eq_refl eq_refl eq_refl eq_refl))|].
  split; reflexivity.
Defined.
